(** * Mediq Health Advisor: the batch indexing pipeline, the grounding
    verifier, the retrieval engine and what surrounds them, as a shallow
    embedding of the Python sources

    - [src/batch_embedding_processor.py]  (module [BatchEmbeddingProcessor])
    - [src/rag_verification_system.py]    (modules [Str] and
                                           [RAGVerificationSystem])
    - [src/embedding_and_vectorstore.py]  (modules [HealthVectorStore] and
                                           [embedding_and_vectorstore])
    - [src/rag_system.py]                 (modules [HealthRAGSystem] and
                                           [rag_system])
    - [src/enhanced_web_chatbot.py]       (module [enhanced_web_chatbot])
    - [src/chunking.py]                   (module [chunking])

    Python objects are records, methods are computations in a small
    state-and-exception monad over the object and the disk, and exceptions
    are values of [Py.exn].  The embedding model, the FAISS index, the text
    splitter and the Groq client are external libraries: the model is a
    function from a text to its vector, the flat index is its dimension and
    the list of its rows, and the search of an index, the splitter and the
    client are parameters.  Floats are binary64 (Rocq's primitive floats).
    Texts are ASCII, directories are named by plain names.

    The definitions come first; the theorems follow, in the modules
    [BatchEmbeddingProcessorSpec], [RAGVerificationSystemSpec],
    [RetrievalSpec], [RagSystemSpec], [VectorStoreSpec], [WebSpec] and
    [ChunkingSpec]. *)

From Stdlib Require Import ZArith QArith List String Ascii Bool Lia Floats.
From Stdlib Require Import DecimalString.
From stdpp Require Import gmap strings.
Import ListNotations.

Local Close Scope Q_scope.
Local Open Scope nat_scope.
Local Open Scope list_scope.

(* ===================================================================== *)
(** ** Python's control effects *)
(* ===================================================================== *)

Module Py.

Inductive exn : Type :=
| ZeroDivisionError
| AssertionError
| AttributeError
| TypeError
| ValueError
| IndexError
| RuntimeError
| FileNotFoundError
| UnpicklingError.

Inductive outcome (A : Type) : Type :=
| Returns (a : A)
| Raises (e : exn).
Arguments Returns {A} a.
Arguments Raises {A} e.

(** A computation reads and writes a world [W] (the object and the disk);
    what it wrote before raising stays written. *)
Definition M (W A : Type) : Type := W -> outcome A * W.

Definition ret {W A} (a : A) : M W A := fun w => (Returns a, w).

Definition bind {W A B} (c : M W A) (k : A -> M W B) : M W B :=
  fun w => match c w with
           | (Returns a, w') => k a w'
           | (Raises e, w') => (Raises e, w')
           end.

Definition raise {W A} (e : exn) : M W A := fun w => (Raises e, w).

Definition get {W} : M W W := fun w => (Returns w, w).

Definition modify {W} (f : W -> W) : M W unit := fun w => (Returns tt, f w).

(** [try: body  except Exception: handler] *)
Definition try_except {W A} (body : M W A) (handler : exn -> M W A) : M W A :=
  fun w => match body w with
           | (Returns a, w') => (Returns a, w')
           | (Raises e, w') => handler e w'
           end.

(** [for x in xs: body x] *)
Fixpoint for_each {W A} (xs : list A) (body : A -> M W unit) : M W unit :=
  match xs with
  | [] => ret tt
  | x :: xs' => bind (body x) (fun _ => for_each xs' body)
  end.

(** [range(start, stop)] *)
Definition range (start stop : nat) : list nat := seq start (stop - start).

(** [xs[lo:hi]] for non-negative bounds *)
Definition slice {A} (xs : list A) (lo hi : nat) : list A :=
  firstn (hi - lo) (skipn lo xs).

End Py.

Declare Scope py_scope.
Delimit Scope py_scope with py.
Notation "x <- c ;; k" := (Py.bind c (fun x => k))
  (at level 100, c at next level, right associativity) : py_scope.
Notation "c ;;; k" := (Py.bind c (fun _ => k))
  (at level 100, right associativity) : py_scope.

(* ===================================================================== *)
(** ** The disk *)
(* ===================================================================== *)

(** A file that is not there, one whose bytes do not deserialize (a torn
    write, a foreign file), or one holding a serialized value. *)
Inductive file (A : Type) : Type :=
| Missing
| Garbled
| Stored (a : A).
Arguments Missing {A}.
Arguments Garbled {A}.
Arguments Stored {A} a.

(** [langchain]'s [Document], as the pipeline reads it. *)
Record Document {Meta : Type} : Type := {
  page_content : string;
  doc_metadata : Meta
}.
Arguments Document Meta : clear implicits.

(** [faiss.IndexFlatL2]: the dimension it was created with and its rows, in
    insertion order. *)
Record IndexFlatL2 {Vec : Type} : Type := {
  d : nat;
  xb : list Vec
}.
Arguments IndexFlatL2 Vec : clear implicits.

Definition ntotal {Vec} (index : IndexFlatL2 Vec) : nat := length (xb index).

(** A numpy array of shape [(len rows, shape1)]. *)
Record ndarray {Vec : Type} : Type := {
  shape1 : nat;
  rows : list Vec
}.
Arguments ndarray Vec : clear implicits.

(** [index.add(x)]: FAISS asserts that the rows have the index's dimension,
    then appends them. *)
Definition index_add {Vec} (index : IndexFlatL2 Vec) (x : ndarray Vec)
  : Py.outcome (IndexFlatL2 Vec) :=
  if Nat.eqb (shape1 x) (d index)
  then Py.Returns {| d := d index; xb := xb index ++ rows x |}
  else Py.Raises Py.AssertionError.

(** [sentence_transformers.SentenceTransformer], as used: its output size
    and the vector of one text. *)
Record SentenceTransformer {Vec : Type} : Type := {
  get_sentence_embedding_dimension : nat;
  encode_text : string -> Vec
}.
Arguments SentenceTransformer Vec : clear implicits.

(** [model.encode(texts, convert_to_numpy=True)] *)
Definition encode {Vec} (model : SentenceTransformer Vec) (texts : list string)
  : ndarray Vec :=
  {| shape1 := get_sentence_embedding_dimension model;
     rows := map (encode_text model) texts |}.

(* ===================================================================== *)
(** ** [src/batch_embedding_processor.py] *)
(* ===================================================================== *)

Module BatchEmbeddingProcessor.

Section Defs.

Context {Vec Meta : Type}.

(** [SentenceTransformer(model_name, device='cpu')]: the model that a name
    loads. *)
Context (hub : string -> SentenceTransformer Vec).

(** The [state] dictionary that [save_checkpoint] pickles. *)
Record ProcessingState : Type := {
  processed_chunks : nat;
  state_model_name : string;
  state_embedding_dim : option nat;
  timestamp : Z
}.

(** The three artifacts of a checkpoint directory. *)
Record CheckpointDir : Type := {
  vector_index_idx : file (IndexFlatL2 Vec);
  vector_metadata_pkl : file (list Meta);
  processing_state_pkl : file ProcessingState
}.

(** The disk: the checkpoint directories by path, and the two final
    artifacts of the working directory ("vector_index.idx" and
    "vector_metadata.pkl").  A checkpoint path names a directory of its own,
    apart from the working directory and from the directory of every other
    path: the paths are plain names (see [plain_name]), none is inside
    another or another spelling of it, and the file system has no links and
    tells upper case from lower case. *)
Record Disk : Type := {
  dirs : gmap string CheckpointDir;
  final_vector_index_idx : file (IndexFlatL2 Vec);
  final_vector_metadata_pkl : file (list Meta)
}.

(** The attributes [__init__] sets. *)
Record t : Type := {
  model_name : string;
  batch_size : nat;
  chunk_batch_size : nat;
  model : option (SentenceTransformer Vec);
  faiss_index : option (IndexFlatL2 Vec);
  metadata : list Meta;
  embedding_dim : option nat
}.

Record World : Type := {
  self : t;
  disk : Disk
}.

Definition __init__ (name : string) (bs cbs : nat) : t :=
  {| model_name := name; batch_size := bs; chunk_batch_size := cbs;
     model := None; faiss_index := None; metadata := [];
     embedding_dim := None |}.

(** *** Attribute and file assignment *)

Definition set_model (m : option (SentenceTransformer Vec)) (o : t) : t :=
  {| model_name := model_name o; batch_size := batch_size o;
     chunk_batch_size := chunk_batch_size o; model := m;
     faiss_index := faiss_index o; metadata := metadata o;
     embedding_dim := embedding_dim o |}.

Definition set_faiss_index (i : option (IndexFlatL2 Vec)) (o : t) : t :=
  {| model_name := model_name o; batch_size := batch_size o;
     chunk_batch_size := chunk_batch_size o; model := model o;
     faiss_index := i; metadata := metadata o;
     embedding_dim := embedding_dim o |}.

Definition set_metadata (ms : list Meta) (o : t) : t :=
  {| model_name := model_name o; batch_size := batch_size o;
     chunk_batch_size := chunk_batch_size o; model := model o;
     faiss_index := faiss_index o; metadata := ms;
     embedding_dim := embedding_dim o |}.

Definition set_embedding_dim (n : option nat) (o : t) : t :=
  {| model_name := model_name o; batch_size := batch_size o;
     chunk_batch_size := chunk_batch_size o; model := model o;
     faiss_index := faiss_index o; metadata := metadata o;
     embedding_dim := n |}.

Definition on_self (f : t -> t) : Py.M World unit :=
  Py.modify (fun w => {| self := f (self w); disk := disk w |}).

Definition on_disk (f : Disk -> Disk) : Py.M World unit :=
  Py.modify (fun w => {| self := self w; disk := f (disk w) |}).

Definition set_dirs (ds : gmap string CheckpointDir) (dk : Disk) : Disk :=
  {| dirs := ds; final_vector_index_idx := final_vector_index_idx dk;
     final_vector_metadata_pkl := final_vector_metadata_pkl dk |}.

Definition empty_dir : CheckpointDir :=
  {| vector_index_idx := Missing; vector_metadata_pkl := Missing;
     processing_state_pkl := Missing |}.

(** [os.path.exists(path)] *)
Definition exists_dir (path : string) (dk : Disk) : bool :=
  match dirs dk !! path with Some _ => true | None => false end.

(** [if not os.path.exists(path): os.makedirs(path)] *)
Definition ensure_dir (path : string) (dk : Disk) : Disk :=
  if exists_dir path dk then dk else set_dirs (<[path := empty_dir]> (dirs dk)) dk.

(** The content of one file of the directory [path] becomes [f]. *)
Definition put_index (path : string) (f : file (IndexFlatL2 Vec)) (dk : Disk) : Disk :=
  set_dirs (alter (fun c => {| vector_index_idx := f;
                               vector_metadata_pkl := vector_metadata_pkl c;
                               processing_state_pkl := processing_state_pkl c |})
                  path (dirs dk)) dk.

Definition put_metadata (path : string) (f : file (list Meta)) (dk : Disk) : Disk :=
  set_dirs (alter (fun c => {| vector_index_idx := vector_index_idx c;
                               vector_metadata_pkl := f;
                               processing_state_pkl := processing_state_pkl c |})
                  path (dirs dk)) dk.

Definition put_state (path : string) (f : file ProcessingState) (dk : Disk) : Disk :=
  set_dirs (alter (fun c => {| vector_index_idx := vector_index_idx c;
                               vector_metadata_pkl := vector_metadata_pkl c;
                               processing_state_pkl := f |})
                  path (dirs dk)) dk.

(** [faiss.read_index(file)] *)
Definition read_index (f : file (IndexFlatL2 Vec)) : Py.M World (IndexFlatL2 Vec) :=
  match f with
  | Stored i => Py.ret i
  | Missing | Garbled => Py.raise Py.RuntimeError
  end.

(** [with open(file, 'rb') as f: pickle.load(f)] *)
Definition unpickle {A} (f : file A) : Py.M World A :=
  match f with
  | Stored a => Py.ret a
  | Missing => Py.raise Py.FileNotFoundError
  | Garbled => Py.raise Py.UnpicklingError
  end.

(** *** The methods *)

Local Open Scope py_scope.

Definition load_model : Py.M World unit :=
  w <- Py.get ;;
  match model (self w) with
  | None =>
      let m := hub (model_name (self w)) in
      on_self (set_model (Some m)) ;;;
      on_self (set_embedding_dim (Some (get_sentence_embedding_dimension m)))
  | Some _ => Py.ret tt
  end.

(** The log line that divides by the elapsed wall-clock time is left out. *)
Definition process_batch (chunked_docs : list (Document Meta))
  : Py.M World (ndarray Vec * list Meta) :=
  w <- Py.get ;;
  let texts := map page_content chunked_docs in
  let metadata := map doc_metadata chunked_docs in
  match model (self w) with
  | None => Py.raise Py.AttributeError
  | Some m => Py.ret (encode m texts, metadata)
  end.

Definition create_faiss_index (dim : nat) : Py.M World unit :=
  on_self (set_faiss_index (Some {| d := dim; xb := [] |})) ;;;
  on_self (set_embedding_dim (Some dim)).

Definition add_to_index (embeddings : ndarray Vec) : Py.M World unit :=
  w <- Py.get ;;
  match faiss_index (self w) with
  | None => create_faiss_index (shape1 embeddings)
  | Some _ => Py.ret tt
  end ;;;
  w <- Py.get ;;
  match faiss_index (self w) with
  | None => Py.raise Py.AttributeError
  | Some index =>
      match index_add index embeddings with
      | Py.Returns index' => on_self (set_faiss_index (Some index'))
      | Py.Raises e => Py.raise e
      end
  end.

(** The disk writes of [save_checkpoint], in program order.  Opening a file
    with mode ['wb'] truncates it, so between the opening and the end of the
    write the file does not deserialize. *)
Definition checkpoint_writes (o : t) (index : IndexFlatL2 Vec) (now : Z)
  (checkpoint_path : string) : list (Disk -> Disk) :=
  let state := {| processed_chunks := length (metadata o);
                  state_model_name := model_name o;
                  state_embedding_dim := embedding_dim o;
                  timestamp := now |} in
  [ ensure_dir checkpoint_path;
    put_index checkpoint_path Garbled;
    put_index checkpoint_path (Stored index);
    put_metadata checkpoint_path Garbled;
    put_metadata checkpoint_path (Stored (metadata o));
    put_state checkpoint_path Garbled;
    put_state checkpoint_path (Stored state) ].

Definition apply_writes (ws : list (Disk -> Disk)) (dk : Disk) : Disk :=
  fold_left (fun dk w => w dk) ws dk.

(** [save_checkpoint] is only called once [add_to_index] has set the index.
    What [faiss.write_index] does when it is handed [None] is the library's:
    the model stops there, and no theorem rests on that branch. *)
Definition save_checkpoint (now : Z) (checkpoint_path : string) : Py.M World unit :=
  w <- Py.get ;;
  match faiss_index (self w) with
  | None => on_disk (ensure_dir checkpoint_path) ;;; Py.raise Py.TypeError
  | Some index =>
      on_disk (apply_writes (checkpoint_writes (self w) index now checkpoint_path))
  end.

Definition load_checkpoint (checkpoint_path : string) : Py.M World bool :=
  w <- Py.get ;;
  match dirs (disk w) !! checkpoint_path with
  | None => Py.ret false
  | Some c =>
      Py.try_except
        (index <- read_index (vector_index_idx c) ;;
         on_self (set_faiss_index (Some index)) ;;;
         ms <- unpickle (vector_metadata_pkl c) ;;
         on_self (set_metadata ms) ;;;
         state <- unpickle (processing_state_pkl c) ;;
         Py.ret true)
        (fun _ => Py.ret false)
  end.

(** Without an index (a run that processed no batch and loaded no
    checkpoint), [faiss.write_index] is handed [None]; what it then does to
    the file and whether it raises is the library's.  The model stops the
    run there, and no theorem rests on that branch. *)
Definition save_final_results : Py.M World unit :=
  w <- Py.get ;;
  match faiss_index (self w) with
  | None => Py.raise Py.TypeError
  | Some index =>
      on_disk (fun dk => {| dirs := dirs dk;
                            final_vector_index_idx := Stored index;
                            final_vector_metadata_pkl := final_vector_metadata_pkl dk |}) ;;;
      on_disk (fun dk => {| dirs := dirs dk;
                            final_vector_index_idx := final_vector_index_idx dk;
                            final_vector_metadata_pkl := Stored (metadata (self w)) |}) ;;;
      on_disk (fun dk => if exists_dir "checkpoint" dk
                         then set_dirs (delete "checkpoint"%string (dirs dk)) dk
                         else dk)
  end.

(** [a // b] on non-negative integers *)
Definition floordiv (a b : nat) : Py.M World nat :=
  if Nat.eqb b 0 then Py.raise Py.ZeroDivisionError else Py.ret (a / b).

(** [x / b], of which only the exception matters (the quotient is logged) *)
Definition divide_by (b : nat) : Py.M World unit :=
  if Nat.eqb b 0 then Py.raise Py.ZeroDivisionError else Py.ret tt.

(** The body of the [for batch_num in range(start_batch, total_batches)]
    loop.  [clock batch_num] is the reading of [time.time()] in its
    [save_checkpoint]. *)
Definition batch_step (chunked_docs : list (Document Meta)) (checkpoint_path : string)
  (clock : nat -> Z) (batch_num : nat) : Py.M World unit :=
  let total_chunks := length chunked_docs in
  w <- Py.get ;;
  let batch_start := batch_num * chunk_batch_size (self w) in
  let batch_end := Nat.min ((batch_num + 1) * chunk_batch_size (self w)) total_chunks in
  let batch_docs := Py.slice chunked_docs batch_start batch_end in
  r <- process_batch batch_docs ;;
  add_to_index (fst r) ;;;
  on_self (fun o => set_metadata (metadata o ++ snd r) o) ;;;
  save_checkpoint (clock batch_num) checkpoint_path ;;;
  w <- Py.get ;;
  let processed_chunks := length (metadata (self w)) in
  divide_by total_chunks ;;;
  divide_by processed_chunks.

(** Everything of [process_all_batches] before its loop: the batch count,
    the model, and the batch to start from. *)
Definition prepare (chunked_docs : list (Document Meta)) (checkpoint_path : string)
  (resume : bool) : Py.M World (nat * nat) :=
  let total_chunks := length chunked_docs in
  w <- Py.get ;;
  total_batches <- floordiv (total_chunks + chunk_batch_size (self w) - 1)
                            (chunk_batch_size (self w)) ;;
  load_model ;;;
  loaded <- (if resume then load_checkpoint checkpoint_path else Py.ret false) ;;
  start_batch <- (if loaded : bool
                  then w <- Py.get ;;
                       floordiv (length (metadata (self w))) (chunk_batch_size (self w))
                  else Py.ret 0) ;;
  Py.ret (start_batch, total_batches).

Definition process_all_batches (chunked_docs : list (Document Meta))
  (checkpoint_path : string) (resume : bool) (clock : nat -> Z) : Py.M World unit :=
  r <- prepare chunked_docs checkpoint_path resume ;;
  Py.for_each (Py.range (fst r) (snd r)) (batch_step chunked_docs checkpoint_path clock) ;;;
  save_final_results.

(** The same run, killed right after the [n]-th batch of this invocation
    has been checkpointed: what is left of it is the disk. *)
Definition killed_after (n : nat) (chunked_docs : list (Document Meta))
  (checkpoint_path : string) (resume : bool) (clock : nat -> Z) : Py.M World unit :=
  r <- prepare chunked_docs checkpoint_path resume ;;
  Py.for_each (firstn n (Py.range (fst r) (snd r)))
              (batch_step chunked_docs checkpoint_path clock).

(** A new process: a fresh object over the disk as it was left. *)
Definition start (name : string) (bs cbs : nat) (dk : Disk) : World :=
  {| self := __init__ name bs cbs; disk := dk |}.

(** The disk on which nothing has been written yet. *)
Definition blank_disk : Disk :=
  {| dirs := ∅; final_vector_index_idx := Missing;
     final_vector_metadata_pkl := Missing |}.

(** *** What the theorems speak of *)

(** The rows of an index that may not exist yet. *)
Definition rows_of (fi : option (IndexFlatL2 Vec)) : list Vec :=
  match fi with Some i => xb i | None => [] end.

(** An index, if there is one, has the dimension of the model. *)
Definition dim_ok (m : SentenceTransformer Vec) (fi : option (IndexFlatL2 Vec)) : Prop :=
  match fi with Some i => d i = get_sentence_embedding_dimension m | None => True end.

(** The vectors of chunks, in their order. *)
Definition embed (m : SentenceTransformer Vec) (docs : list (Document Meta)) : list Vec :=
  map (encode_text m) (map page_content docs).

(** [(total_chunks + self.chunk_batch_size - 1) // self.chunk_batch_size] *)
Definition total_batches (docs : list (Document Meta)) (B : nat) : nat :=
  (length docs + B - 1) / B.

(** The object once [prepare] has loaded the model, holding the index
    [fi] and the metadata [ms]. *)
Definition armed (name : string) (bs B : nat) (fi : option (IndexFlatL2 Vec))
  (ms : list Meta) : t :=
  {| model_name := name; batch_size := bs; chunk_batch_size := B;
     model := Some (hub name); faiss_index := fi; metadata := ms;
     embedding_dim := Some (get_sentence_embedding_dimension (hub name)) |}.

(** The world one iteration of the loop makes, when it does not raise. *)
Definition after_step (m : SentenceTransformer Vec) (docs : list (Document Meta))
  (path : string) (clock : nat -> Z) (bn : nat) (w : World) : World :=
  let B := chunk_batch_size (self w) in
  let bdocs := Py.slice docs (bn * B) (Nat.min ((bn + 1) * B) (length docs)) in
  let index' := {| d := get_sentence_embedding_dimension m;
                   xb := rows_of (faiss_index (self w)) ++ embed m bdocs |} in
  let o' := {| model_name := model_name (self w); batch_size := batch_size (self w);
               chunk_batch_size := B; model := Some m; faiss_index := Some index';
               metadata := metadata (self w) ++ map doc_metadata bdocs;
               embedding_dim := Some (get_sentence_embedding_dimension m) |} in
  {| self := o';
     disk := apply_writes (checkpoint_writes o' index' (clock bn) path) (disk w) |}.

(** What [n] iterations of the loop, from batch [a] on, make of a world. *)
Definition progressed (m : SentenceTransformer Vec) (docs : list (Document Meta))
  (path : string) (clock : nat -> Z) (a n : nat) (w w' : World) : Prop :=
  let B := chunk_batch_size (self w) in
  let part := Py.slice docs (a * B) (Nat.min ((a + n) * B) (length docs)) in
  model_name (self w') = model_name (self w)
  /\ batch_size (self w') = batch_size (self w)
  /\ chunk_batch_size (self w') = B
  /\ model (self w') = Some m
  /\ embedding_dim (self w') = Some (get_sentence_embedding_dimension m)
  /\ dim_ok m (faiss_index (self w'))
  /\ rows_of (faiss_index (self w')) = rows_of (faiss_index (self w)) ++ embed m part
  /\ metadata (self w') = metadata (self w) ++ map doc_metadata part
  /\ final_vector_index_idx (disk w') = final_vector_index_idx (disk w)
  /\ final_vector_metadata_pkl (disk w') = final_vector_metadata_pkl (disk w)
  /\ (n = 0 -> w' = w)
  /\ (0 < n ->
      exists index,
        faiss_index (self w') = Some index
        /\ dirs (disk w') !! path =
             Some {| vector_index_idx := Stored index;
                     vector_metadata_pkl := Stored (metadata (self w'));
                     processing_state_pkl :=
                       Stored {| processed_chunks := length (metadata (self w'));
                                 state_model_name := model_name (self w);
                                 state_embedding_dim :=
                                   Some (get_sentence_embedding_dimension m);
                                 timestamp := clock (a + n - 1) |} |}).

(** Row [i] of the index is the vector of the chunk whose metadata is entry
    [i] of the metadata list, for the chunks [ins] in insertion order. *)
Definition row_aligned (m : SentenceTransformer Vec) (index : IndexFlatL2 Vec)
  (ms : list Meta) (ins : list (Document Meta)) : Prop :=
  xb index = embed m ins /\ ms = map doc_metadata ins.

(** Where an invocation starts from: nothing, or a complete checkpoint of
    the chunks [ins] that has the model's dimension. *)
Inductive origin (m : SentenceTransformer Vec) (dk : Disk) (path : string)
  (resume : bool) : list (Document Meta) -> Prop :=
| origin_fresh :
    resume = false \/ dirs dk !! path = None ->
    origin m dk path resume []
| origin_checkpoint index ms st ins :
    resume = true ->
    dirs dk !! path = Some {| vector_index_idx := Stored index;
                              vector_metadata_pkl := Stored ms;
                              processing_state_pkl := Stored st |} ->
    d index = get_sentence_embedding_dimension m ->
    row_aligned m index ms ins ->
    origin m dk path resume ins.

(** The disk when [save_checkpoint] is killed after [k] of its writes. *)
Definition crash_point (o : t) (index : IndexFlatL2 Vec) (now : Z) (path : string)
  (k : nat) (dk : Disk) : Disk :=
  apply_writes (firstn k (checkpoint_writes o index now path)) dk.

(** The index file and the metadata file both deserialize, to different
    numbers of rows. *)
Definition rows_disagree (c : CheckpointDir) : Prop :=
  exists index ms,
    vector_index_idx c = Stored index
    /\ vector_metadata_pkl c = Stored ms
    /\ ntotal index <> length ms.

Definition old_dir (path : string) (dk : Disk) : CheckpointDir :=
  match dirs dk !! path with Some c => c | None => empty_dir end.

End Defs.

End BatchEmbeddingProcessor.

(* ===================================================================== *)
(** ** Python's floats and strings *)
(* ===================================================================== *)

(** The arithmetic the verifier uses: [binary64] is what the code runs on
    (IEEE 754 doubles, as Python's [float]).  A decimal literal of the
    source is given as the rational it denotes and rounded to the nearest
    double. *)
Class Arith (F : Type) : Type := {
  lit : Q -> F;            (* a decimal literal of the source *)
  of_int : nat -> F;       (* [float(n)] of a non-negative [int] *)
  fadd : F -> F -> F;
  fmul : F -> F -> F;
  fdiv : F -> F -> F;
  flt : F -> F -> bool     (* [x < y] *)
}.

Definition float_of_Z (z : Z) : float := PrimFloat.of_uint63 (Uint63.of_Z z).

#[export] Instance binary64 : Arith float := {|
  lit q := PrimFloat.div (float_of_Z (Qnum q)) (float_of_Z (Zpos (Qden q)));
  of_int n := float_of_Z (Z.of_nat n);
  fadd := PrimFloat.add;
  fmul := PrimFloat.mul;
  fdiv := PrimFloat.div;
  flt := PrimFloat.ltb
|}.

(** [x > y] *)
Definition fgt {F} `{Arith F} (x y : F) : bool := flt y x.

(** [min(x, y)]: the builtin keeps its first argument unless the second is
    smaller. *)
Definition fmin {F} `{Arith F} (x y : F) : F := if flt y x then y else x.

(** [sum(xs)], which starts from the integer [0] *)
Definition fsum {F} `{Arith F} (xs : list F) : F := fold_left fadd xs (of_int 0).

Module Str.

(** Texts are ASCII.  On characters below 128 the classes below are those
    of Python's [re] and [str] on a [str]; a character above 127 is read
    as punctuation, which Python does not do: the theorems that depend on
    the classes are stated for ASCII texts ([is_ascii]). *)

Definition between (lo hi : nat) (c : ascii) : bool :=
  Nat.leb lo (nat_of_ascii c) && Nat.leb (nat_of_ascii c) hi.

(** [\w] *)
Definition is_word (c : ascii) : bool :=
  between 97 122 c || between 65 90 c || between 48 57 c || Nat.eqb (nat_of_ascii c) 95.

(** [\s], and the separators of [str.split()] *)
Definition is_space (c : ascii) : bool :=
  between 9 13 c || between 28 32 c.

Definition lower_char (c : ascii) : ascii :=
  if between 65 90 c then ascii_of_nat (nat_of_ascii c + 32) else c.

Fixpoint map_chars (f : ascii -> ascii) (s : string) : string :=
  match s with
  | EmptyString => EmptyString
  | String c s' => String (f c) (map_chars f s')
  end.

(** [s.lower()] *)
Definition lower (s : string) : string := map_chars lower_char s.

(** [re.sub(r'[^\w\s]', ' ', s)] *)
Definition strip_punctuation (s : string) : string :=
  map_chars (fun c => if is_word c || is_space c then c else " "%char) s.

Definition nonempty (s : string) : list string :=
  match s with EmptyString => [] | _ => [s] end.

(** [s.split()]: [word] is the word being read. *)
Fixpoint split_from (word : string) (s : string) : list string :=
  match s with
  | EmptyString => nonempty word
  | String c s' =>
      if is_space c
      then nonempty word ++ split_from EmptyString s'
      else split_from (String.append word (String c EmptyString)) s'
  end.

Definition split (s : string) : list string := split_from EmptyString s.

(** [' '.join(ws)] *)
Fixpoint join (ws : list string) : string :=
  match ws with
  | [] => EmptyString
  | [w] => w
  | w :: ws' => String.append w (String " " (join ws'))
  end.

(** [p in s] *)
Fixpoint contains (s p : string) : bool :=
  String.prefix p s ||
  match s with
  | EmptyString => false
  | String _ s' => contains s' p
  end.

(** [os.path.basename(p)]: what follows the last slash; [name] is the
    component being read. *)
Fixpoint basename_from (name : string) (p : string) : string :=
  match p with
  | EmptyString => name
  | String c p' =>
      if Ascii.eqb c "/"%char
      then basename_from EmptyString p'
      else basename_from (String.append name (String c EmptyString)) p'
  end.

Definition basename (p : string) : string := basename_from EmptyString p.

(** [ws] occurs in [src] as a run of consecutive words. *)
Fixpoint word_run_at (ws src : list string) : bool :=
  match ws, src with
  | [], _ => true
  | w :: ws', x :: src' => String.eqb w x && word_run_at ws' src'
  | _ :: _, [] => false
  end.

Fixpoint word_run_in (ws src : list string) : bool :=
  word_run_at ws src ||
  match src with
  | [] => false
  | _ :: src' => word_run_in ws src'
  end.

End Str.

(** [p] occurs in [s] as a run of consecutive characters. *)
Definition Substring (p s : string) : Prop :=
  exists pre post, s = String.append pre (String.append p post).

(** [ws] occurs in [src] as a run of consecutive elements. *)
Definition Sublist {A} (ws src : list A) : Prop :=
  exists pre post, src = pre ++ ws ++ post.

(** [str(n)] of a non-negative [int] *)
Definition str_of_nat (n : nat) : string := NilEmpty.string_of_uint (Nat.to_uint n).

(** ["\n".join(lines)] *)
Definition newline : string := String (ascii_of_nat 10) EmptyString.

Fixpoint join_lines (lines : list string) : string :=
  match lines with
  | [] => EmptyString
  | [l] => l
  | l :: lines' => String.append l (String.append newline (join_lines lines'))
  end.

(** Every character of a text is in a class. *)
Fixpoint all_chars (p : ascii -> bool) (s : string) : bool :=
  match s with
  | EmptyString => true
  | String c s' => p c && all_chars p s'
  end.

(** A text of ASCII characters: every code is below 128.  On such texts
    [Str.lower], [Str.is_word] and [Str.is_space] are Python's
    [str.lower()], [\w] and [\s]. *)
Definition is_ascii (s : string) : bool :=
  all_chars (fun c => Nat.ltb (nat_of_ascii c) 128) s.


(** The normalization that [_find_exact_matches] applies to both texts. *)
Definition normalized (s : string) : string := Str.strip_punctuation (Str.lower s).

(** A lower-case letter, a digit or an underscore. *)
Definition is_lower_word (c : ascii) : bool :=
  Str.is_word c && negb (Str.between 65 90 c).

(** A word: not empty, without white space, of characters of a class. *)
Definition wordlike (p : ascii -> bool) (w : string) : Prop :=
  w <> EmptyString /\ all_chars (fun c => p c && negb (Str.is_space c)) w = true.

(* ===================================================================== *)
(** ** [src/rag_verification_system.py] *)
(* ===================================================================== *)

Module RAGVerificationSystem.

Section Defs.

Context {F : Type} `{Arith F}.

(** [hashlib.md5(content.encode('utf-8')).hexdigest()] *)
Context (md5_hexdigest : string -> string).

Record SourceVerification : Type := {
  source_id : string;
  source_file : string;
  content_hash : string;
  similarity_score : F;
  exact_matches : list string;
  semantic_overlap : F;
  is_verified : bool;
  verification_confidence : F
}.

(** [verification_details], without its wall-clock timestamp and its numpy
    mean of the similarities. *)
Record Details : Type := {
  total_sources : nat;
  verified_sources : nat;
  total_exact_matches : nat;
  thresholds_used : F * F * F
}.

Record ResponseVerification : Type := {
  query : string;
  response : string;
  sources_used : list SourceVerification;
  total_verification_score : F;
  is_grounded : bool;
  hallucination_risk : string;
  verification_details : Details
}.

(** The sentence embedder, as [_calculate_semantic_similarity] uses it: the
    cosine of the two texts' vectors, or the exception that encoding or
    dividing raised. *)
Record Embedder : Type := {
  cosine : string -> string -> Py.outcome F
}.

Record t : Type := {
  embedder : Embedder;
  source_content_cache : gmap string string;
  EXACT_MATCH_THRESHOLD : F;
  SEMANTIC_SIMILARITY_THRESHOLD : F;
  GROUNDING_THRESHOLD : F
}.

(** The verifier and the source files it reads, by path. *)
Record World : Type := {
  self : t;
  files : gmap string (file string)
}.

(** [__init__], after its metadata has loaded *)
Definition __init__ (e : Embedder) : t :=
  {| embedder := e; source_content_cache := ∅;
     EXACT_MATCH_THRESHOLD := lit 0.8;
     SEMANTIC_SIMILARITY_THRESHOLD := lit 0.7;
     GROUNDING_THRESHOLD := lit 0.6 |}.

Definition set_cache (c : gmap string string) (o : t) : t :=
  {| embedder := embedder o; source_content_cache := c;
     EXACT_MATCH_THRESHOLD := EXACT_MATCH_THRESHOLD o;
     SEMANTIC_SIMILARITY_THRESHOLD := SEMANTIC_SIMILARITY_THRESHOLD o;
     GROUNDING_THRESHOLD := GROUNDING_THRESHOLD o |}.

Local Open Scope py_scope.

Definition _get_source_content (source_path : string) : Py.M World string :=
  w <- Py.get ;;
  match source_content_cache (self w) !! source_path with
  | Some content => Py.ret content
  | None =>
      Py.try_except
        (match files w !! source_path with
         | Some (Stored content) =>
             Py.modify (fun w => {| self := set_cache (<[source_path := content]>
                                                (source_content_cache (self w))) (self w);
                                    files := files w |}) ;;;
             Py.ret content
         | Some Garbled => Py.raise Py.RuntimeError
         | Some Missing | None => Py.ret EmptyString
         end)
        (fun _ => Py.ret EmptyString)
  end.

Definition _calculate_content_hash (content : string) : string :=
  md5_hexdigest content.

(** The phrases of [phrase_length] words of the response that occur in the
    joined source words: the inner loop of [_find_exact_matches]. *)
Definition phrases_found (response_words source_words : list string)
  (phrase_length : nat) : list string :=
  flat_map
    (fun i =>
       let phrase := Str.join (Py.slice response_words i (i + phrase_length)) in
       if Str.contains (Str.join source_words) phrase then [phrase] else [])
    (Py.range 0 (length response_words + 1 - phrase_length)).

(** [list(set(xs))] keeps one copy of each element; the order Python gives
    them is not specified, and nothing below depends on it. *)
Definition list_set (xs : list string) : list string := remove_dups xs.

Definition _find_exact_matches (response source_content : string) : list string :=
  let response_clean := Str.strip_punctuation (Str.lower response) in
  let source_clean := Str.strip_punctuation (Str.lower source_content) in
  let response_words := Str.split response_clean in
  let source_words := Str.split source_clean in
  let exact_matches :=
    flat_map (phrases_found response_words source_words) (Py.range 3 6) in
  list_set exact_matches.

(** The exact-match evidence as the specification words it: the same
    windows, each tested for occurring as a run of consecutive words of the
    source's word sequence. *)
Definition phrases_found_as_words (response_words source_words : list string)
  (phrase_length : nat) : list string :=
  flat_map
    (fun i =>
       let window := Py.slice response_words i (i + phrase_length) in
       if Str.word_run_in window source_words then [Str.join window] else [])
    (Py.range 0 (length response_words + 1 - phrase_length)).

Definition exact_matches_as_words (response source_content : string) : list string :=
  let response_words := Str.split (Str.strip_punctuation (Str.lower response)) in
  let source_words := Str.split (Str.strip_punctuation (Str.lower source_content)) in
  list_set (flat_map (phrases_found_as_words response_words source_words) (Py.range 3 6)).

Definition _calculate_semantic_similarity (response source_content : string)
  : Py.M World F :=
  Py.try_except
    (fun w => (cosine (embedder (self w)) response source_content, w))
    (fun _ => Py.ret (lit 0.0)).

(** [source_metadata.get('source', '')] and [str(source_metadata.get('id',
    'unknown'))] *)
Definition get_or (k : string) (default : string) (m : gmap string string) : string :=
  match m !! k with Some v => v | None => default end.

Definition verify_source_grounding (response : string)
  (source_metadata : gmap string string) : Py.M World SourceVerification :=
  let source_path := get_or "source" EmptyString source_metadata in
  source_content <- _get_source_content source_path ;;
  match source_content with
  | EmptyString =>
      Py.ret {| source_id := get_or "id" "unknown" source_metadata;
                source_file := Str.basename source_path;
                content_hash := _calculate_content_hash EmptyString;
                similarity_score := lit 0.0;
                exact_matches := [];
                semantic_overlap := lit 0.0;
                is_verified := false;
                verification_confidence := lit 0.0 |}
  | _ =>
      let exact_matches := _find_exact_matches response source_content in
      semantic_similarity <- _calculate_semantic_similarity response source_content ;;
      w <- Py.get ;;
      let exact_match_score :=
        fmin (fmul (of_int (length exact_matches)) (lit 0.2)) (lit 1.0) in
      let verification_confidence :=
        fadd (fmul exact_match_score (lit 0.4)) (fmul semantic_similarity (lit 0.6)) in
      let is_verified :=
        (Nat.ltb 0 (length exact_matches)
         && fgt semantic_similarity (SEMANTIC_SIMILARITY_THRESHOLD (self w)))
        || fgt verification_confidence (GROUNDING_THRESHOLD (self w)) in
      Py.ret {| source_id := get_or "id" "unknown" source_metadata;
                source_file := Str.basename source_path;
                content_hash := _calculate_content_hash source_content;
                similarity_score := semantic_similarity;
                exact_matches := exact_matches;
                semantic_overlap := verification_confidence;
                is_verified := is_verified;
                verification_confidence := verification_confidence |}
  end.

(** One entry of [relevant_docs]. *)
Record RelevantDoc : Type := {
  rd_metadata : gmap string string;
  rd_score : F
}.

(** [for doc in relevant_docs: source_verifications.append(...)] *)
Fixpoint verify_each (response : string) (relevant_docs : list RelevantDoc)
  : Py.M World (list SourceVerification) :=
  match relevant_docs with
  | [] => Py.ret []
  | doc :: rest =>
      sv <- verify_source_grounding response (rd_metadata doc) ;;
      svs <- verify_each response rest ;;
      Py.ret (sv :: svs)
  end.

Definition count_verified (svs : list SourceVerification) : nat :=
  length (filter (fun sv => is_verified sv) svs).

(** [sum(sv.verification_confidence ...) / len(source_verifications)], and
    [0.0] without sources *)
Definition total_score_of (svs : list SourceVerification) : F :=
  match svs with
  | [] => lit 0.0
  | _ => fdiv (fsum (map verification_confidence svs)) (of_int (length svs))
  end.

(** [verified_sources / len(source_verifications)], and [0.0] without
    sources *)
Definition verification_ratio_of (svs : list SourceVerification) : F :=
  match svs with
  | [] => lit 0.0
  | _ => fdiv (of_int (count_verified svs)) (of_int (length svs))
  end.

Definition verify_response (query response : string)
  (relevant_docs : list RelevantDoc) : Py.M World ResponseVerification :=
  source_verifications <- verify_each response relevant_docs ;;
  w <- Py.get ;;
  let total_score := total_score_of source_verifications in
  let verification_ratio := verification_ratio_of source_verifications in
  let is_grounded :=
    fgt total_score (GROUNDING_THRESHOLD (self w)) && fgt verification_ratio (lit 0.3) in
  let hallucination_risk :=
    if fgt total_score (lit 0.8) && fgt verification_ratio (lit 0.6) then "LOW"%string
    else if fgt total_score (lit 0.5) && fgt verification_ratio (lit 0.3) then "MEDIUM"%string
    else "HIGH"%string in
  let verification_details :=
    {| total_sources := length relevant_docs;
       verified_sources := count_verified source_verifications;
       total_exact_matches :=
         list_sum (map (fun sv => length (exact_matches sv)) source_verifications);
       thresholds_used := (EXACT_MATCH_THRESHOLD (self w),
                           SEMANTIC_SIMILARITY_THRESHOLD (self w),
                           GROUNDING_THRESHOLD (self w)) |} in
  Py.ret {| query := query;
            response := response;
            sources_used := source_verifications;
            total_verification_score := total_score;
            is_grounded := is_grounded;
            hallucination_risk := hallucination_risk;
            verification_details := verification_details |}.

(** *** What the theorems speak of *)

(** Two states of the verifier that differ at most in the cache. *)
Definition same_settings (o o' : t) : Prop :=
  embedder o' = embedder o
  /\ EXACT_MATCH_THRESHOLD o' = EXACT_MATCH_THRESHOLD o
  /\ SEMANTIC_SIMILARITY_THRESHOLD o' = SEMANTIC_SIMILARITY_THRESHOLD o
  /\ GROUNDING_THRESHOLD o' = GROUNDING_THRESHOLD o.

(** The confidence of a source, from the number of its exact matches and
    its similarity, as [verify_source_grounding] writes it. *)
Definition confidence_of (n : nat) (similarity : F) : F :=
  fadd (fmul (fmin (fmul (of_int n) (lit 0.2)) (lit 1.0)) (lit 0.4))
       (fmul similarity (lit 0.6)).

Definition verified_of (o : t) (n : nat) (similarity : F) : bool :=
  (Nat.ltb 0 n && fgt similarity (SEMANTIC_SIMILARITY_THRESHOLD o))
  || fgt (confidence_of n similarity) (GROUNDING_THRESHOLD o).

(** *** The API response *)

(** One entry of ['source_details']. *)
Record SourceDetail : Type := {
  detail_source_file : string;
  detail_is_verified : bool;
  detail_similarity_score : F;
  exact_matches_count : nat;
  sample_matches : list string;
  confidence : F
}.

(** The ['verification'] dictionary. *)
Record Summary : Type := {
  summary_is_grounded : bool;
  summary_hallucination_risk : string;
  verification_score : F;
  sources_verified : nat;
  summary_total_sources : nat;
  exact_matches_found : nat
}.

Record ApiResponse : Type := {
  verification : Summary;
  source_details : list SourceDetail;
  verification_metadata : Details
}.

Definition create_verification_api_response (verification : ResponseVerification)
  : ApiResponse :=
  {| verification :=
       {| summary_is_grounded := is_grounded verification;
          summary_hallucination_risk := hallucination_risk verification;
          verification_score := total_verification_score verification;
          sources_verified := verified_sources (verification_details verification);
          summary_total_sources := total_sources (verification_details verification);
          exact_matches_found := total_exact_matches (verification_details verification) |};
     source_details :=
       map (fun source =>
              {| detail_source_file := source_file source;
                 detail_is_verified := is_verified source;
                 detail_similarity_score := similarity_score source;
                 exact_matches_count := length (exact_matches source);
                 sample_matches := firstn 3 (exact_matches source);
                 confidence := verification_confidence source |})
           (sources_used verification);
     verification_metadata := verification_details verification |}.

(** *** What the further theorems speak of *)

(** The file of a path cannot be read: it is not there, or reading it
    fails. *)
Definition unreadable (fs : gmap string (file string)) (path : string) : Prop :=
  fs !! path = None \/ fs !! path = Some Missing \/ fs !! path = Some Garbled.

(** What is cached stays cached. *)
Definition cache_kept (o o' : t) : Prop :=
  forall path content,
    source_content_cache o !! path = Some content ->
    source_content_cache o' !! path = Some content.

(** The record of a source that could not be read. *)
Definition unread (meta : gmap string string) : SourceVerification :=
  {| source_id := get_or "id" "unknown" meta;
     source_file := Str.basename (get_or "source" EmptyString meta);
     content_hash := _calculate_content_hash EmptyString;
     similarity_score := lit 0.0;
     exact_matches := [];
     semantic_overlap := lit 0.0;
     is_verified := false;
     verification_confidence := lit 0.0 |}.

End Defs.

End RAGVerificationSystem.

(* ===================================================================== *)
(** ** [src/embedding_and_vectorstore.py] and [src/rag_system.py] *)
(* ===================================================================== *)

(** [xs[i]] for a Python integer [i]: a negative index counts from the end,
    and an index out of range raises. *)
Definition getitem {A} (xs : list A) (i : Z) : Py.outcome A :=
  let n := Z.of_nat (length xs) in
  let j := if (i <? 0)%Z then (n + i)%Z else i in
  if (j <? 0)%Z then Py.Raises Py.IndexError
  else match xs !! Z.to_nat j with
       | Some x => Py.Returns x
       | None => Py.Raises Py.IndexError
       end.

(** The loop both search methods end with:
    [for score, idx in zip(scores[0], indices[0]):
       if idx < len(self.metadata):
           results.append(entry(score, idx, self.metadata[idx]))] *)
Fixpoint collect {Meta Score R} (entry : Score -> Z -> Meta -> R)
  (metadata : list Meta) (hits : list (Score * Z)) (results : list R)
  : Py.outcome (list R) :=
  match hits with
  | [] => Py.Returns results
  | (score, idx) :: hits' =>
      if (idx <? Z.of_nat (length metadata))%Z
      then match getitem metadata idx with
           | Py.Returns m => collect entry metadata hits' (results ++ [entry score idx m])
           | Py.Raises e => Py.Raises e
           end
      else collect entry metadata hits' results
  end.

(** What FAISS documents of [index.search(x, k)] on an index of [n] rows:
    [k] pairs, the first [min k n] labelled with rows of the index, the
    others padded with the label [-1]. *)
Definition padded {Score} (n k : nat) (hits : list (Score * Z)) : Prop :=
  length hits = k
  /\ forall i s l, hits !! i = Some (s, l) ->
       if i <? Nat.min k n then (0 <= l < Z.of_nat n)%Z else l = (-1)%Z.

(** The row that a label reads in a list of [n] entries. *)
Definition row_read (n : nat) (l : Z) : nat :=
  Z.to_nat (if (l <? 0)%Z then Z.of_nat n + l else l).

Module HealthVectorStore.

Section Defs.

(** The FAISS index is the library's: [Index] is its state, and
    [faiss_search index x k] is [zip(scores[0], indices[0])] for the result
    of [index.search(x, k)]. *)
Context {Index Vec Meta Score : Type}.
Context (faiss_search : Index -> Vec -> nat -> list (Score * Z)).

(** [SentenceTransformer(model_name)], as [search] uses it: the vector of
    the query. *)
Context (hub : string -> string -> Vec).

Record t : Type := {
  model_name : string;
  embedder : option (string -> Vec);
  faiss_index : option Index;
  metadata : list Meta
}.

Local Open Scope py_scope.

Definition load_embedding_model : Py.M t unit :=
  Py.modify (fun o => {| model_name := model_name o;
                         embedder := Some (hub (model_name o));
                         faiss_index := faiss_index o;
                         metadata := metadata o |}).

(** [results.append((float(score), self.metadata[idx]))] *)
Definition entry (score : Score) (idx : Z) (m : Meta) : Score * Meta := (score, m).

Definition search (query : string) (k : nat) : Py.M t (list (Score * Meta)) :=
  o <- Py.get ;;
  match faiss_index o with
  | None => Py.raise Py.ValueError
  | Some index =>
      match embedder o with
      | None => load_embedding_model
      | Some _ => Py.ret tt
      end ;;;
      o <- Py.get ;;
      match embedder o with
      | None => Py.raise Py.AttributeError
      | Some encode_query =>
          let hits := faiss_search index (encode_query query) k in
          fun o => (collect entry (metadata o) hits [], o)
      end
  end.

End Defs.

End HealthVectorStore.

Module HealthRAGSystem.

Section Defs.

Context {Index Vec Meta Score : Type}.
Context (faiss_search : Index -> Vec -> nat -> list (Score * Z)).

(** One entry of the result list: the ['score'], ['metadata'] and ['index']
    keys. *)
Record Hit : Type := {
  score : Score;
  hit_metadata : Meta;
  index : Z
}.

Record t : Type := {
  embedder : option (string -> Vec);
  faiss_index : option Index;
  metadata : list Meta
}.

Local Open Scope py_scope.

(** [results.append({'score': float(score), 'metadata': self.metadata[idx],
                     'index': int(idx)})] *)
Definition entry (s : Score) (idx : Z) (m : Meta) : Hit :=
  {| score := s; hit_metadata := m; index := idx |}.

Definition search_relevant_documents (query : string) (k : nat)
  : Py.M t (list Hit) :=
  o <- Py.get ;;
  match faiss_index o with
  | None => Py.raise Py.ValueError
  | Some index =>
      match embedder o with
      | None => Py.raise Py.AttributeError
      | Some encode_query =>
          let hits := faiss_search index (encode_query query) k in
          fun o => (collect entry (metadata o) hits [], o)
      end
  end.

End Defs.

End HealthRAGSystem.

(** The hits whose label passes the guard [idx < len(self.metadata)] of a
    metadata list of [n] entries. *)
Definition kept {Score} (n : nat) (hits : list (Score * Z)) : list (Score * Z) :=
  List.filter (fun h => (snd h <? Z.of_nat n)%Z) hits.

(* ===================================================================== *)
(** ** The files of the working directory *)
(* ===================================================================== *)

(** What a file of the working directory holds: a FAISS index, as
    [faiss.write_index] writes it, or the pickle of a metadata list. *)
Inductive artifact (Index Meta : Type) : Type :=
| IndexFile (index : Index)
| MetadataPickle (ms : list Meta).
Arguments IndexFile {Index Meta} index.
Arguments MetadataPickle {Index Meta} ms.

(** [faiss.read_index(path)] *)
Definition faiss_read_index {Index Meta} (f : option (file (artifact Index Meta)))
  : Py.outcome Index :=
  match f with
  | Some (Stored (IndexFile index)) => Py.Returns index
  | _ => Py.Raises Py.RuntimeError
  end.

(** [with open(path, 'rb') as f: pickle.load(f)] *)
Definition pickle_load {Index Meta} (f : option (file (artifact Index Meta)))
  : Py.outcome (list Meta) :=
  match f with
  | Some (Stored (MetadataPickle ms)) => Py.Returns ms
  | None | Some Missing => Py.Raises Py.FileNotFoundError
  | Some Garbled | Some (Stored (IndexFile _)) => Py.Raises Py.UnpicklingError
  end.

(** A library call, in a computation. *)
Definition call {W A} (r : Py.outcome A) : Py.M W A := fun w => (r, w).

(* ===================================================================== *)
(** ** [src/embedding_and_vectorstore.py], the whole store *)
(* ===================================================================== *)

Module embedding_and_vectorstore.

Section Defs.

Context {Vec Meta IndexIVFFlat : Type}.
Context (hub : string -> SentenceTransformer Vec).

(** [faiss.IndexIVFFlat(quantizer, dim, nlist)], trained on the embeddings
    and with the embeddings added: the library's index, or the exception
    one of the three calls raises. *)
Context (ivf : nat -> nat -> ndarray Vec -> Py.outcome IndexIVFFlat).

(** [faiss.Index] *)
Inductive Index : Type :=
| Flat (index : IndexFlatL2 Vec)
| IVF (index : IndexIVFFlat).

(** The attributes [HealthVectorStore.__init__] sets. *)
Record t : Type := {
  model_name : string;
  embedder : option (SentenceTransformer Vec);
  faiss_index : option Index;
  metadata : list Meta;
  embedding_dim : option nat
}.

Record World : Type := {
  self : t;
  files : gmap string (file (artifact Index Meta))
}.

Definition __init__ (name : string) : t :=
  {| model_name := name; embedder := None; faiss_index := None; metadata := [];
     embedding_dim := None |}.

Definition set_embedder (m : option (SentenceTransformer Vec)) (o : t) : t :=
  {| model_name := model_name o; embedder := m; faiss_index := faiss_index o;
     metadata := metadata o; embedding_dim := embedding_dim o |}.

Definition set_faiss_index (i : option Index) (o : t) : t :=
  {| model_name := model_name o; embedder := embedder o; faiss_index := i;
     metadata := metadata o; embedding_dim := embedding_dim o |}.

Definition set_metadata (ms : list Meta) (o : t) : t :=
  {| model_name := model_name o; embedder := embedder o; faiss_index := faiss_index o;
     metadata := ms; embedding_dim := embedding_dim o |}.

Definition set_embedding_dim (n : option nat) (o : t) : t :=
  {| model_name := model_name o; embedder := embedder o; faiss_index := faiss_index o;
     metadata := metadata o; embedding_dim := n |}.

Definition on_self (f : t -> t) : Py.M World unit :=
  Py.modify (fun w => {| self := f (self w); files := files w |}).

Definition write (path : string) (a : artifact Index Meta) : Py.M World unit :=
  Py.modify (fun w => {| self := self w; files := <[path := Stored a]> (files w) |}).

Local Open Scope py_scope.

Definition load_embedding_model : Py.M World unit :=
  w <- Py.get ;;
  let m := hub (model_name (self w)) in
  on_self (set_embedder (Some m)) ;;;
  on_self (set_embedding_dim (Some (get_sentence_embedding_dimension m))).

Definition generate_embeddings (chunked_docs : list (Document Meta))
  : Py.M World (ndarray Vec) :=
  w <- Py.get ;;
  match embedder (self w) with
  | None => load_embedding_model
  | Some _ => Py.ret tt
  end ;;;
  w <- Py.get ;;
  let texts := map page_content chunked_docs in
  match embedder (self w) with
  | None => Py.raise Py.AttributeError
  | Some m => Py.ret (encode m texts)
  end.

Definition create_faiss_index (embeddings : ndarray Vec) (index_type : string)
  : Py.M World Index :=
  let embedding_dim := shape1 embeddings in
  index <- (if String.eqb index_type "flat"
            then i <- call (index_add {| d := embedding_dim; xb := [] |} embeddings) ;;
                 Py.ret (Flat i)
            else if String.eqb index_type "ivf"
            then let nlist := Nat.min 100 (length (rows embeddings) / 100) in
                 i <- call (ivf embedding_dim nlist embeddings) ;;
                 Py.ret (IVF i)
            else Py.raise Py.ValueError) ;;
  on_self (set_faiss_index (Some index)) ;;;
  Py.ret index.

Definition save_vector_store (index_path metadata_path : string) : Py.M World unit :=
  w <- Py.get ;;
  match faiss_index (self w) with
  | None => Py.raise Py.ValueError
  | Some index =>
      write index_path (IndexFile index) ;;;
      write metadata_path (MetadataPickle (metadata (self w)))
  end.

Definition load_vector_store (index_path metadata_path : string) : Py.M World unit :=
  w <- Py.get ;;
  index <- call (faiss_read_index (files w !! index_path)) ;;
  on_self (set_faiss_index (Some index)) ;;;
  ms <- call (pickle_load (files w !! metadata_path)) ;;
  on_self (set_metadata ms).

(** [create_vector_store], from the chunks that its pickle holds.  The
    store it creates and returns is the object of the world. *)
Definition create_vector_store (chunked_docs : list (Document Meta))
  (name : string) (index_type : string) : Py.M World unit :=
  Py.modify (fun w => {| self := __init__ name; files := files w |}) ;;;
  embeddings <- generate_embeddings chunked_docs ;;
  on_self (set_metadata (map doc_metadata chunked_docs)) ;;;
  index <- create_faiss_index embeddings index_type ;;
  Py.ret tt.

(** *** What the theorems speak of *)

(** The store that [create_vector_store] makes of chunks with a flat
    index. *)
Definition flat_store (name : string) (docs : list (Document Meta)) : t :=
  {| model_name := name;
     embedder := Some (hub name);
     faiss_index := Some (Flat {| d := get_sentence_embedding_dimension (hub name);
                                  xb := map (encode_text (hub name))
                                            (map page_content docs) |});
     metadata := map doc_metadata docs;
     embedding_dim := Some (get_sentence_embedding_dimension (hub name)) |}.

End Defs.

End embedding_and_vectorstore.

(* ===================================================================== *)
(** ** [src/rag_system.py], the whole system *)
(* ===================================================================== *)

Module rag_system.

Section Defs.

Context {Index Vec Score : Type}.
Context (faiss_search : Index -> Vec -> nat -> list (Score * Z)).
Context (hub : string -> SentenceTransformer Vec).

(** [f"{score:.3f}"] *)
Context (format_3f : Score -> string).

(** The metadata of a chunk is a dictionary. *)
Local Abbreviation Meta := (gmap string string).
Local Abbreviation Hit := (@HealthRAGSystem.Hit Meta Score).

(** The Groq client: the text of
    [chat.completions.create(model, messages=[user prompt], ...)
       .choices[0].message.content]
    at an attempt, or the exception that the request, or measuring its
    text, raises. *)
Record Groq : Type := {
  completions_create : string -> string -> nat -> Py.outcome string
}.

(** The attributes [HealthRAGSystem.__init__] sets. *)
Record t : Type := {
  model_name : string;
  index_path : string;
  metadata_path : string;
  groq_model : string;
  embedder : option (SentenceTransformer Vec);
  faiss_index : option Index;
  metadata : list Meta;
  groq_client : option Groq
}.

Record World : Type := {
  self : t;
  files : gmap string (file (artifact Index Meta))
}.

Definition set_embedder (m : option (SentenceTransformer Vec)) (o : t) : t :=
  {| model_name := model_name o; index_path := index_path o;
     metadata_path := metadata_path o; groq_model := groq_model o;
     embedder := m; faiss_index := faiss_index o; metadata := metadata o;
     groq_client := groq_client o |}.

Definition set_faiss_index (i : option Index) (o : t) : t :=
  {| model_name := model_name o; index_path := index_path o;
     metadata_path := metadata_path o; groq_model := groq_model o;
     embedder := embedder o; faiss_index := i; metadata := metadata o;
     groq_client := groq_client o |}.

Definition set_metadata (ms : list Meta) (o : t) : t :=
  {| model_name := model_name o; index_path := index_path o;
     metadata_path := metadata_path o; groq_model := groq_model o;
     embedder := embedder o; faiss_index := faiss_index o; metadata := ms;
     groq_client := groq_client o |}.

Definition on_self (f : t -> t) : Py.M World unit :=
  Py.modify (fun w => {| self := f (self w); files := files w |}).

Local Open Scope py_scope.

Definition load_search_system : Py.M World unit :=
  w <- Py.get ;;
  on_self (set_embedder (Some (hub (model_name (self w))))) ;;;
  index <- call (faiss_read_index (files w !! index_path (self w))) ;;
  on_self (set_faiss_index (Some index)) ;;;
  ms <- call (pickle_load (files w !! metadata_path (self w))) ;;
  on_self (set_metadata ms).

(** The part of the system that [search_relevant_documents] reads. *)
Definition searched (o : t) : @HealthRAGSystem.t Index Vec Meta :=
  {| HealthRAGSystem.embedder := option_map encode_text (embedder o);
     HealthRAGSystem.faiss_index := faiss_index o;
     HealthRAGSystem.metadata := metadata o |}.

(** [search_relevant_documents], which reads the object and leaves it as it
    is. *)
Definition search_relevant_documents (query : string) (k : nat) : Py.M World (list Hit) :=
  fun w =>
    (fst (HealthRAGSystem.search_relevant_documents faiss_search query k (searched (self w))),
     w).

Definition disclaimer : string :=
  join_lines
    [ "";
      "IMPORTANT MEDICAL DISCLAIMER:";
      "- This is an AI assistant providing general health information";
      "- This is NOT a substitute for professional medical advice, diagnosis, or treatment";
      "- Always consult with qualified healthcare professionals for medical concerns";
      "- In case of medical emergency, call emergency services immediately";
      "- Do not delay seeking professional medical advice based on this information";
      "" ]%string.

(** The [if]/[elif] chain of [create_health_prompt]. *)
Definition content_type (source : string) : string :=
  if Str.contains source "ai-medical-chatbot.csv" then "Medical Q&A Database"
  else if Str.contains source "medquad.csv" then "Medical Knowledge Base"
  else if Str.contains source "NIH" then "NIH Health Information"
  else if Str.contains source "who" then "WHO Health Guidelines"
  else "Health Data".

(** The four lines of the [i]-th document. *)
Definition context_part (i : nat) (doc : Hit) : list string :=
  let metadata := HealthRAGSystem.hit_metadata doc in
  let source := RAGVerificationSystem.get_or "source" "Unknown" metadata in
  [ String.append "[Source " (String.append (str_of_nat i)
      (String.append ": " (String.append (content_type source) "]")));
    String.append "Relevance Score: " (format_3f (HealthRAGSystem.score doc));
    String.append "File: " (Str.basename source);
    "---" ]%string.

(** [for i, doc in enumerate(relevant_docs, 1)] *)
Fixpoint context_parts (i : nat) (relevant_docs : list Hit) : list string :=
  match relevant_docs with
  | [] => []
  | doc :: rest => context_part i doc ++ context_parts (S i) rest
  end.

Definition create_health_prompt (query : string) (relevant_docs : list Hit) : string :=
  let context := join_lines (context_parts 1 relevant_docs) in
  join_lines
    [ disclaimer;
      "";
      "You are a helpful AI health assistant. Based on the provided medical information, please answer the user's health question accurately and responsibly.";
      "";
      "RELEVANT MEDICAL INFORMATION:";
      context;
      "";
      String.append "USER QUESTION: " query;
      "";
      "INSTRUCTIONS:";
      "1. Provide a clear, accurate answer based on the relevant information above";
      "2. If the information is insufficient, clearly state this limitation";
      "3. Always emphasize the importance of consulting healthcare professionals";
      "4. For emergency symptoms, immediately advise seeking emergency medical care";
      "5. Use clear, accessible language while maintaining medical accuracy";
      "6. Include relevant precautions and when to seek medical attention";
      "";
      "RESPONSE:" ]%string.

(** The ['metadata'] dictionary of a response, without its wall-clock
    timestamp: the one of an answer, and the one of the apology. *)
Inductive ResponseMetadata : Type :=
| Answered (query : string) (model_used : string) (relevant_docs_count : nat)
    (top_doc_score : option Score) (attempt : nat) (response_length : nat)
| Failed (query : string) (error : Py.exn) (model_used : string).

Record Response : Type := {
  response : string;
  response_metadata : ResponseMetadata;
  relevant_docs : list Hit
}.

Definition apology : string :=
  "I apologize, but I'm experiencing technical difficulties. Please try again or consult a healthcare professional for immediate medical concerns.".

(** [for attempt in range(max_retries)], over the attempts that are left;
    [None] is what Python returns when the loop ends without a [return]. *)
Fixpoint request_loop (o : t) (client : Groq) (query prompt : string)
  (relevant_docs : list Hit) (max_retries : nat) (attempts : list nat)
  : Py.outcome (option Response) :=
  match attempts with
  | [] => Py.Returns None
  | attempt :: rest =>
      match completions_create client (groq_model o) prompt attempt with
      | Py.Returns response_text =>
          Py.Returns
            (Some {| response := response_text;
                     response_metadata :=
                       Answered query (groq_model o) (length relevant_docs)
                         (match relevant_docs with
                          | doc :: _ => Some (HealthRAGSystem.score doc)
                          | [] => None
                          end)
                         (attempt + 1) (String.length response_text);
                     relevant_docs := relevant_docs |})
      | Py.Raises e =>
          if Nat.eqb attempt (max_retries - 1) then Py.Raises e
          else request_loop o client query prompt relevant_docs max_retries rest
      end
  end.

Definition generate_response (query : string) (max_retries : nat)
  : Py.M World (option Response) :=
  w <- Py.get ;;
  match groq_client (self w) with
  | None => Py.raise Py.ValueError
  | Some client =>
      Py.try_except
        (relevant_docs <- search_relevant_documents query 5 ;;
         let prompt := create_health_prompt query relevant_docs in
         w <- Py.get ;;
         call (request_loop (self w) client query prompt relevant_docs max_retries
                 (Py.range 0 max_retries)))
        (fun e =>
           w <- Py.get ;;
           Py.ret (Some {| response := apology;
                           response_metadata := Failed query e (groq_model (self w));
                           relevant_docs := [] |}))
  end.

(** [result['response']] *)
Definition chat (message : string) : Py.M World string :=
  result <- generate_response message 3 ;;
  match result with
  | Some r => Py.ret (response r)
  | None => Py.raise Py.TypeError
  end.

Definition get_conversation_context (query : string) : Py.M World (option Response) :=
  generate_response query 3.

(** *** What the theorems speak of *)

(** ['top_doc_score'] *)
Definition top_score (docs : list Hit) : option Score :=
  match docs with
  | doc :: _ => Some (HealthRAGSystem.score doc)
  | [] => None
  end.

(** The answer that [generate_response] makes of the text of an attempt,
    and its apology. *)
Definition answer (o : t) (query : string) (docs : list Hit) (a : nat) (text : string)
  : Response :=
  {| response := text;
     response_metadata := Answered query (groq_model o) (length docs) (top_score docs)
                            (a + 1) (String.length text);
     relevant_docs := docs |}.

Definition apologize (o : t) (query : string) (e : Py.exn) : Response :=
  {| response := apology;
     response_metadata := Failed query e (groq_model o);
     relevant_docs := [] |}.

End Defs.

End rag_system.

(** The working directory that the batch pipeline leaves: its two final
    artifacts, under the names [save_final_results] gives them. *)
Definition file_map {A B} (f : A -> B) (x : file A) : file B :=
  match x with
  | Missing => Missing
  | Garbled => Garbled
  | Stored a => Stored (f a)
  end.

Definition working_directory {Vec Meta} (dk : @BatchEmbeddingProcessor.Disk Vec Meta)
  : gmap string (file (artifact (IndexFlatL2 Vec) Meta)) :=
  {[ "vector_index.idx"%string :=
       file_map IndexFile (BatchEmbeddingProcessor.final_vector_index_idx dk);
     "vector_metadata.pkl"%string :=
       file_map MetadataPickle (BatchEmbeddingProcessor.final_vector_metadata_pkl dk) ]}.

(* ===================================================================== *)
(** ** [src/enhanced_web_chatbot.py], the input filters *)
(* ===================================================================== *)

Module enhanced_web_chatbot.

(** Texts are ASCII, as in [Str]: the white space of [\s] and of
    [str.strip()] is that of [Str.is_space]. *)

(** [s[:n]] *)
Fixpoint take_chars (n : nat) (s : string) : string :=
  match n, s with
  | S n', String c s' => String c (take_chars n' s')
  | _, _ => EmptyString
  end.

(** [re.sub(r'[...]', '', s)] for a character class *)
Fixpoint remove_chars (class : ascii -> bool) (s : string) : string :=
  match s with
  | EmptyString => EmptyString
  | String c s' => if class c then remove_chars class s' else String c (remove_chars class s')
  end.

Definition is_char (n : nat) (c : ascii) : bool := Nat.eqb (nat_of_ascii c) n.

(** [html.escape(s)]: [&], [<], [>], the double and the single quote *)
Definition escape_char (c : ascii) : string :=
  if is_char 38 c then "&amp;"
  else if is_char 60 c then "&lt;"
  else if is_char 62 c then "&gt;"
  else if is_char 34 c then "&quot;"
  else if is_char 39 c then "&#x27;"
  else String c EmptyString.

Fixpoint html_escape (s : string) : string :=
  match s with
  | EmptyString => EmptyString
  | String c s' => String.append (escape_char c) (html_escape s')
  end.

(** [s.lstrip()], [s.rstrip()] and [s.strip()] *)
Fixpoint lstrip (s : string) : string :=
  match s with
  | EmptyString => EmptyString
  | String c s' => if Str.is_space c then lstrip s' else s
  end.

Fixpoint rstrip (s : string) : string :=
  match s with
  | EmptyString => EmptyString
  | String c s' =>
      match rstrip s' with
      | EmptyString => if Str.is_space c then EmptyString else String c EmptyString
      | r => String c r
      end
  end.

Definition strip (s : string) : string := rstrip (lstrip s).

(** [re.sub(r'\s+', ' ', s)]; [in_run] tells that the character before was
    white space. *)
Fixpoint collapse_from (in_run : bool) (s : string) : string :=
  match s with
  | EmptyString => EmptyString
  | String c s' =>
      if Str.is_space c
      then if in_run then collapse_from true s' else String " " (collapse_from true s')
      else String c (collapse_from false s')
  end.

Definition collapse (s : string) : string := collapse_from false s.

(** [[\x00-\x08\x0B\x0C\x0E-\x1F\x7F]] *)
Definition is_control (c : ascii) : bool :=
  Str.between 0 8 c || is_char 11 c || is_char 12 c || Str.between 14 31 c || is_char 127 c.

Definition sanitize_input (text : string) (max_length : nat) : string :=
  match text with
  | EmptyString => EmptyString
  | _ =>
      let text := take_chars max_length text in
      let text := html_escape text in
      let text := collapse (strip text) in
      let text := remove_chars is_control text in
      text
  end.

(** [[a-zA-Z0-9_-]] *)
Definition is_id_char (c : ascii) : bool :=
  Str.between 97 122 c || Str.between 65 90 c || Str.between 48 57 c
  || is_char 95 c || is_char 45 c.

(** [now] is the reading of [int(time.time())]. *)
Definition validate_session_id (now : nat) (session_id : string) : string :=
  match session_id with
  | EmptyString => String.append "session_" (str_of_nat now)
  | _ =>
      let session_id := remove_chars (fun c => negb (is_id_char c)) session_id in
      let session_id := take_chars 100 session_id in
      match session_id with
      | EmptyString => String.append "session_" (str_of_nat now)
      | _ => session_id
      end
  end.

(** A character that is no markup delimiter and no control character. *)
Definition is_inert (c : ascii) : bool :=
  Nat.leb 32 (nat_of_ascii c)
  && negb (is_char 127 c) && negb (is_char 60 c) && negb (is_char 62 c)
  && negb (is_char 34 c) && negb (is_char 39 c).

End enhanced_web_chatbot.

(* ===================================================================== *)
(** ** [src/chunking.py] *)
(* ===================================================================== *)

Module chunking.

Section Defs.

Context {F : Type} `{Arith F}.

(** [langchain]'s [RecursiveCharacterTextSplitter]: the splitter that the
    constructor makes of a chunk size, an overlap and separators, or the
    exception it raises, and the chunks that [split_text] makes of a text,
    or the exception it raises. *)
Context {Splitter : Type}.
Context (RecursiveCharacterTextSplitter : nat -> nat -> list string -> Py.outcome Splitter).
Context (split_text : Splitter -> string -> Py.outcome (list string)).

(** The metadata of a document is a dictionary; an [int] value is written
    in decimal. *)
Local Abbreviation Meta := (gmap string string).

Definition default_separators : list string :=
  [ String.append newline newline; newline; ". "; "! "; "? "; "; "; ", "; " "; "" ]%string.

(** [chunk_metadata = doc.metadata.copy(); chunk_metadata.update({...})] *)
Definition chunk_metadata (doc : Document Meta) (i chunk_idx total_chunks : nat)
  (chunk_text : string) : Meta :=
  <["original_doc_index"%string := str_of_nat i]>
    (<["chunk_size"%string := str_of_nat (String.length chunk_text)]>
       (<["total_chunks"%string := str_of_nat total_chunks]>
          (<["chunk_index"%string := str_of_nat chunk_idx]> (doc_metadata doc)))).

(** [for chunk_idx, chunk_text in enumerate(chunks)] *)
Fixpoint chunks_of (doc : Document Meta) (i total_chunks chunk_idx : nat)
  (chunks : list string) : list (Document Meta) :=
  match chunks with
  | [] => []
  | chunk_text :: rest =>
      {| page_content := chunk_text;
         doc_metadata := chunk_metadata doc i chunk_idx total_chunks chunk_text |}
      :: chunks_of doc i total_chunks (S chunk_idx) rest
  end.

(** What the body of [for i, doc in enumerate(documents)] appends. *)
Definition chunked (splitter : Splitter) (i : nat) (doc : Document Meta)
  : list (Document Meta) :=
  match split_text splitter (page_content doc) with
  | Py.Returns chunks => chunks_of doc i (length chunks) 0 chunks
  | Py.Raises _ => [doc]
  end.

Fixpoint chunk_each (splitter : Splitter) (i : nat) (documents : list (Document Meta))
  : list (Document Meta) :=
  match documents with
  | [] => []
  | doc :: rest => chunked splitter i doc ++ chunk_each splitter (S i) rest
  end.

Definition chunk_documents (documents : list (Document Meta))
  (chunk_size chunk_overlap : nat) (separators : option (list string))
  : Py.outcome (list (Document Meta)) :=
  let separators := match separators with
                    | None => default_separators
                    | Some separators => separators
                    end in
  match RecursiveCharacterTextSplitter chunk_size chunk_overlap separators with
  | Py.Returns splitter => Py.Returns (chunk_each splitter 0 documents)
  | Py.Raises e => Py.Raises e
  end.

Record Statistics : Type := {
  total_chunks : nat;
  avg_chunk_size : F;
  min_chunk_size : nat;
  max_chunk_size : nat;
  chunks_by_source : gmap string nat;
  chunks_per_doc : gmap string nat
}.

(** [d.get(k, 0)] *)
Definition get0 (k : string) (counts : gmap string nat) : nat :=
  match counts !! k with Some n => n | None => 0 end.

(** [d[k] = d.get(k, 0) + 1] *)
Definition count (k : string) (counts : gmap string nat) : gmap string nat :=
  <[k := get0 k counts + 1]> counts.

Definition source_of (chunk : Document Meta) : string :=
  RAGVerificationSystem.get_or "source" "unknown" (doc_metadata chunk).

Definition orig_doc_idx_of (chunk : Document Meta) : string :=
  RAGVerificationSystem.get_or "original_doc_index" "unknown" (doc_metadata chunk).

Definition analyze_chunk_statistics (chunked_docs : list (Document Meta))
  : Py.outcome Statistics :=
  let chunk_sizes := map (fun chunk => String.length (page_content chunk)) chunked_docs in
  match chunk_sizes with
  | [] => Py.Raises Py.ZeroDivisionError
  | size :: sizes =>
      Py.Returns
        {| total_chunks := length chunked_docs;
           avg_chunk_size := fdiv (of_int (list_sum chunk_sizes)) (of_int (length chunk_sizes));
           min_chunk_size := fold_left Nat.min sizes size;
           max_chunk_size := fold_left Nat.max sizes size;
           chunks_by_source :=
             fold_left (fun stats chunk => count (source_of chunk) stats) chunked_docs ∅;
           chunks_per_doc :=
             fold_left (fun stats chunk =>
                          if String.eqb (orig_doc_idx_of chunk) "unknown" then stats
                          else count (orig_doc_idx_of chunk) stats)
                       chunked_docs ∅ |}
  end.

(** One entry of the [results] of [optimize_chunking_parameters]. *)
Record Trial : Type := {
  trial_chunk_size : nat;
  trial_chunk_overlap : nat;
  trial_total_chunks : nat;
  trial_avg_chunk_size : F;
  efficiency : F
}.

(** The body of the [try] of [optimize_chunking_parameters]. *)
Definition trial (test_docs : list (Document Meta)) (size overlap : nat)
  : Py.outcome (string * Trial) :=
  match chunk_documents test_docs size overlap None with
  | Py.Raises e => Py.Raises e
  | Py.Returns chunked =>
      match analyze_chunk_statistics chunked with
      | Py.Raises e => Py.Raises e
      | Py.Returns stats =>
          let key := String.append "size_" (String.append (str_of_nat size)
                       (String.append "_overlap_" (str_of_nat overlap))) in
          if Nat.eqb (total_chunks stats) 0 then Py.Raises Py.ZeroDivisionError
          else Py.Returns
                 (key, {| trial_chunk_size := size;
                          trial_chunk_overlap := overlap;
                          trial_total_chunks := total_chunks stats;
                          trial_avg_chunk_size := avg_chunk_size stats;
                          efficiency := fdiv (of_int (length test_docs))
                                             (of_int (total_chunks stats)) |})
      end
  end.

Definition try_pair (test_docs : list (Document Meta)) (size : nat)
  (results : gmap string Trial) (overlap : nat) : gmap string Trial :=
  if Nat.leb size overlap then results
  else match trial test_docs size overlap with
       | Py.Returns (key, t) => <[key := t]> results
       | Py.Raises _ => results
       end.

Definition optimize_chunking_parameters (documents : list (Document Meta))
  (test_sizes test_overlaps : list nat) : Py.outcome (gmap string Trial) :=
  let test_docs := firstn 100 documents in
  let results :=
    fold_left (fun results size => fold_left (try_pair test_docs size) test_overlaps results)
              test_sizes ∅ in
  match map_to_list results with
  | [] => Py.Raises Py.ValueError
  | _ => Py.Returns results
  end.

(** The chunks of a list that come from a source, and from a document. *)
Definition from_source (s : string) (chunked_docs : list (Document Meta)) : nat :=
  length (List.filter (fun chunk => String.eqb (source_of chunk) s) chunked_docs).

Definition from_doc (idx : string) (chunked_docs : list (Document Meta)) : nat :=
  length (List.filter (fun chunk => String.eqb (orig_doc_idx_of chunk) idx) chunked_docs).

End Defs.

End chunking.


(* ===================================================================== *)
(** ** A small instance *)
(* ===================================================================== *)

Module Toy.

(** Models whose vector of a text is the text tagged with the model's
    name; one of them has another dimension. *)
Definition hub (name : string) : SentenceTransformer string :=
  {| get_sentence_embedding_dimension :=
       if String.eqb name "all-mpnet-base-v2" then 768 else 384;
     encode_text := fun text => String.append name (String ":" text) |}.

Definition chunk (text : string) (i : nat) : Document nat :=
  {| page_content := text; doc_metadata := i |}.

(** Three chunks, to be indexed in batches of two. *)
Definition docs : list (Document nat) := [chunk "a" 0; chunk "b" 1; chunk "c" 2].

Definition clock (batch_num : nat) : Z := (1700000000 + Z.of_nat batch_num)%Z.

(** The largest float32, FAISS's distance of a padded result. *)
Definition FLT_MAX : Z := 340282346638528859811704183484516925440%Z.

(** A flat index of [n] rows that ranks row [i] at distance [i], and pads
    as FAISS does. *)
Definition faiss_search (n : nat) (x : string) (k : nat) : list (Z * Z) :=
  map (fun i => (Z.of_nat i, Z.of_nat i)) (seq 0 (Nat.min k n))
  ++ repeat (FLT_MAX, (-1)%Z) (k - n).

Definition query_hub (name : string) (query : string) : string :=
  String.append name (String ":" query).

(** A new process of the model [name], batches of two, nothing on disk. *)
Definition fresh (name : string) : @BatchEmbeddingProcessor.World string nat :=
  BatchEmbeddingProcessor.start name 128 2 BatchEmbeddingProcessor.blank_disk.

(** The disk that a run of the model [name] leaves when it is killed
    after [n] batches. *)
Definition left_by (name : string) (n : nat) : @BatchEmbeddingProcessor.Disk string nat :=
  BatchEmbeddingProcessor.disk
    (snd (BatchEmbeddingProcessor.killed_after hub n docs "checkpoint" true clock
            (fresh name))).

(** How a run ended, and the final artifacts it left. *)
Definition artifacts (r : Py.outcome unit * @BatchEmbeddingProcessor.World string nat) :=
  (fst r,
   BatchEmbeddingProcessor.final_vector_index_idx (BatchEmbeddingProcessor.disk (snd r)),
   BatchEmbeddingProcessor.final_vector_metadata_pkl (BatchEmbeddingProcessor.disk (snd r))).

(** The checkpoint of two rows that ["model-A"] leaves after one batch. *)
Definition checkpoint_A : @BatchEmbeddingProcessor.CheckpointDir string nat :=
  {| BatchEmbeddingProcessor.vector_index_idx :=
       Stored {| d := 384; xb := ["model-A:a"; "model-A:b"]%string |};
     BatchEmbeddingProcessor.vector_metadata_pkl := Stored [0; 1];
     BatchEmbeddingProcessor.processing_state_pkl :=
       Stored {| BatchEmbeddingProcessor.processed_chunks := 2;
                 BatchEmbeddingProcessor.state_model_name := "model-A";
                 BatchEmbeddingProcessor.state_embedding_dim := Some 384;
                 BatchEmbeddingProcessor.timestamp := 1700000000 |} |}.

Definition disk_A : @BatchEmbeddingProcessor.Disk string nat :=
  {| BatchEmbeddingProcessor.dirs := {[ "checkpoint"%string := checkpoint_A ]};
     BatchEmbeddingProcessor.final_vector_index_idx := Missing;
     BatchEmbeddingProcessor.final_vector_metadata_pkl := Missing |}.

(** A checkpoint whose index has two rows and whose metadata has one
    entry. *)
Definition torn_disk : @BatchEmbeddingProcessor.Disk string nat :=
  {| BatchEmbeddingProcessor.dirs :=
       {[ "checkpoint"%string :=
            {| BatchEmbeddingProcessor.vector_index_idx :=
                 Stored {| d := 384; xb := ["model-A:a"; "model-A:b"]%string |};
               BatchEmbeddingProcessor.vector_metadata_pkl := Stored [0];
               BatchEmbeddingProcessor.processing_state_pkl :=
                 Stored {| BatchEmbeddingProcessor.processed_chunks := 1;
                           BatchEmbeddingProcessor.state_model_name := "model-A";
                           BatchEmbeddingProcessor.state_embedding_dim := Some 384;
                           BatchEmbeddingProcessor.timestamp := 1700000000 |} |} ]};
     BatchEmbeddingProcessor.final_vector_index_idx := Missing;
     BatchEmbeddingProcessor.final_vector_metadata_pkl := Missing |}.

(** A checkpoint whose index deserializes and whose metadata does not. *)
Definition half_readable_disk : @BatchEmbeddingProcessor.Disk string nat :=
  {| BatchEmbeddingProcessor.dirs :=
       {[ "checkpoint"%string :=
            {| BatchEmbeddingProcessor.vector_index_idx :=
                 Stored {| d := 384; xb := ["model-A:a"; "model-A:b"]%string |};
               BatchEmbeddingProcessor.vector_metadata_pkl := Garbled;
               BatchEmbeddingProcessor.processing_state_pkl := Missing |} ]};
     BatchEmbeddingProcessor.final_vector_index_idx := Missing;
     BatchEmbeddingProcessor.final_vector_metadata_pkl := Missing |}.

(** The index and the object once the second batch has been added. *)
Definition three_rows : IndexFlatL2 string :=
  {| d := 384; xb := ["model-A:a"; "model-A:b"; "model-A:c"]%string |}.

Definition after_second_batch : @BatchEmbeddingProcessor.t string nat :=
  BatchEmbeddingProcessor.armed hub "model-A" 128 2 (Some three_rows) [0; 1; 2].

(** A source file, and an embedder that finds the response and the source
    pointing away from each other. *)
Definition opposed : @RAGVerificationSystem.Embedder float :=
  {| RAGVerificationSystem.cosine := fun _ _ => Py.Returns (-0.5)%float |}.

(** An embedder that finds every two texts close to each other. *)
Definition aligned : @RAGVerificationSystem.Embedder float :=
  {| RAGVerificationSystem.cosine := fun _ _ => Py.Returns (0.75)%float |}.

Definition one_source : gmap string (file string) :=
  {[ "data/raw/diabetes.txt"%string := Stored "Diabetes is a chronic condition."%string ]}.

Definition source_metadata : gmap string string :=
  {[ "source"%string := "data/raw/diabetes.txt"%string ]}.

Definition md5_stub (content : string) : string := content.

(** An index of one row and its metadata, in both search classes. *)
Definition one_row_store : @HealthVectorStore.t nat string string :=
  {| HealthVectorStore.model_name := "all-MiniLM-L6-v2";
     HealthVectorStore.embedder := None;
     HealthVectorStore.faiss_index := Some 1;
     HealthVectorStore.metadata := ["diabetes.txt"%string] |}.

Definition one_row_rag : @HealthRAGSystem.t nat string string :=
  {| HealthRAGSystem.embedder := Some (query_hub "all-MiniLM-L6-v2");
     HealthRAGSystem.faiss_index := Some 1;
     HealthRAGSystem.metadata := ["diabetes.txt"%string] |}.

(** Two retrieved documents: the source of the first is not among the
    files read, the second names no source. *)
Definition lost_docs : list (@RAGVerificationSystem.RelevantDoc float) :=
  [ {| RAGVerificationSystem.rd_metadata := source_metadata;
       RAGVerificationSystem.rd_score := 0.5%float |};
    {| RAGVerificationSystem.rd_metadata := ∅;
       RAGVerificationSystem.rd_score := 0.25%float |} ].

(** A store of one row whose embedder is loaded, a store and a system
    whose index holds two rows and whose metadata holds none, and a store
    and a system whose metadata ends before the index does. *)
Definition ready_store (ms : list string) : @HealthVectorStore.t nat string string :=
  {| HealthVectorStore.model_name := "all-MiniLM-L6-v2";
     HealthVectorStore.embedder := Some (query_hub "all-MiniLM-L6-v2");
     HealthVectorStore.faiss_index := Some 2;
     HealthVectorStore.metadata := ms |}.

Definition ready_rag (ms : list string) : @HealthRAGSystem.t nat string string :=
  {| HealthRAGSystem.embedder := Some (query_hub "all-MiniLM-L6-v2");
     HealthRAGSystem.faiss_index := Some 2;
     HealthRAGSystem.metadata := ms |}.

(** Chunks whose metadata is a dictionary. *)
Definition page (text source : string) : Document (gmap string string) :=
  {| page_content := text; doc_metadata := {[ "source"%string := source ]} |}.

Definition pages : list (Document (gmap string string)) :=
  [ page "a" "data/raw/who/a.txt"; page "b" "data/raw/who/b.txt";
    page "c" "data/raw/NIH/c.txt" ].

(** The search of a flat index that ranks its rows in their order, up to
    [k] of them. *)
Definition flat_search (index : IndexFlatL2 string) (x : string) (k : nat) : list (Z * Z) :=
  map (fun i => (Z.of_nat i, Z.of_nat i)) (seq 0 (Nat.min k (ntotal index))).

Definition format_3f (score : Z) : string :=
  String.append (str_of_nat (Z.to_nat score)) ".000".

(** A Groq client whose first request fails and whose later requests
    answer, and one whose requests all fail. *)
Definition groq : rag_system.Groq :=
  {| rag_system.completions_create :=
       fun model prompt attempt =>
         if Nat.eqb attempt 0 then Py.Raises Py.RuntimeError
         else Py.Returns "Drink water and see a doctor."%string |}.

Definition groq_down : rag_system.Groq :=
  {| rag_system.completions_create := fun model prompt attempt => Py.Raises Py.RuntimeError |}.

(** A RAG system as [__init__] leaves it, with the default paths. *)
Definition new_rag (client : option rag_system.Groq)
  : @rag_system.t (IndexFlatL2 string) string :=
  {| rag_system.model_name := "model-A";
     rag_system.index_path := "vector_index.idx";
     rag_system.metadata_path := "vector_metadata.pkl";
     rag_system.groq_model := "llama-3.1-8b-instant";
     rag_system.embedder := None;
     rag_system.faiss_index := None;
     rag_system.metadata := [];
     rag_system.groq_client := client |}.

(** The working directory that the batch pipeline leaves of the pages, and
    the system loaded from it. *)
Definition built : gmap string (file (artifact (IndexFlatL2 string) (gmap string string))) :=
  working_directory
    (BatchEmbeddingProcessor.disk
       (snd (BatchEmbeddingProcessor.process_all_batches hub pages "checkpoint" true clock
               (BatchEmbeddingProcessor.start "model-A" 128 2
                  BatchEmbeddingProcessor.blank_disk)))).

Definition loaded_rag (client : option rag_system.Groq)
  : @rag_system.World (IndexFlatL2 string) string :=
  snd (rag_system.load_search_system hub
         {| rag_system.self := new_rag client; rag_system.files := built |}).

(** No inverted-file index here: the library call fails. *)
Definition no_ivf (dim nlist : nat) (embeddings : ndarray string) : Py.outcome unit :=
  Py.Raises Py.RuntimeError.

(** A vector store that holds the three rows. *)
Definition store_of_three : @embedding_and_vectorstore.World string nat unit :=
  {| embedding_and_vectorstore.self :=
       {| embedding_and_vectorstore.model_name := "model-A";
          embedding_and_vectorstore.embedder := None;
          embedding_and_vectorstore.faiss_index :=
            Some (embedding_and_vectorstore.Flat three_rows);
          embedding_and_vectorstore.metadata := [0; 1; 2];
          embedding_and_vectorstore.embedding_dim := Some 384 |};
     embedding_and_vectorstore.files := ∅ |}.

(** A splitter that cuts a text into its words and fails on the empty
    text, and refuses an overlap larger than the chunk size. *)
Definition word_splitter (chunk_size chunk_overlap : nat) (separators : list string)
  : Py.outcome unit :=
  if Nat.ltb chunk_size chunk_overlap then Py.Raises Py.ValueError else Py.Returns tt.

Definition split_words (splitter : unit) (text : string) : Py.outcome (list string) :=
  match text with
  | EmptyString => Py.Raises Py.ValueError
  | _ => Py.Returns (Str.split text)
  end.

End Toy.

(* ===================================================================== *)
(** * The batch indexing pipeline *)
(* ===================================================================== *)

Module BatchEmbeddingProcessorSpec.
Import BatchEmbeddingProcessor.

Section Pipeline.

Context {Vec Meta : Type}.
Context (hub : string -> SentenceTransformer Vec).

Local Abbreviation World := (@World Vec Meta).
Local Abbreviation Disk := (@Disk Vec Meta).

Lemma checkpoint_written (o : t) (index : IndexFlatL2 Vec) now path (dk : Disk) :
  let dk' := apply_writes (checkpoint_writes o index now path) dk in
  dirs dk' !! path =
    Some {| vector_index_idx := Stored index;
            vector_metadata_pkl := Stored (metadata o);
            processing_state_pkl :=
              Stored {| processed_chunks := length (metadata o);
                        state_model_name := model_name o;
                        state_embedding_dim := embedding_dim o;
                        timestamp := now |} |}
  /\ final_vector_index_idx dk' = final_vector_index_idx dk
  /\ final_vector_metadata_pkl dk' = final_vector_metadata_pkl dk.
Proof.
  cbn -[alter]. unfold ensure_dir, exists_dir.
  destruct (dirs dk !! path) as [c|] eqn:E; cbn.
  - rewrite !lookup_alter_eq, E. cbn. auto.
  - rewrite !lookup_alter_eq, lookup_insert_eq. cbn. auto.
Qed.

Lemma length_slice {A} (xs : list A) lo hi :
  hi <= length xs -> length (Py.slice xs lo hi) = hi - lo.
Proof.
  intros Hhi. unfold Py.slice. rewrite length_firstn, length_skipn. lia.
Qed.

Lemma batch_step_runs m docs path clock bn (w : World) :
  model (self w) = Some m ->
  embedding_dim (self w) = Some (get_sentence_embedding_dimension m) ->
  dim_ok m (faiss_index (self w)) ->
  0 < chunk_batch_size (self w) ->
  bn * chunk_batch_size (self w) < length docs ->
  batch_step docs path clock bn w = (Py.Returns tt, after_step m docs path clock bn w).
Proof.
  intros Hm Hd Hok HB Hlt.
  destruct w as [[name bs B mo fi ms ed] dk]. cbn in Hm, Hd, Hok, HB, Hlt. subst mo ed.
  set (bdocs := Py.slice docs (bn * B) (Nat.min ((bn + 1) * B) (length docs))).
  assert (Hlen : 0 < length bdocs).
  { unfold bdocs. rewrite length_slice by lia. lia. }
  unfold batch_step, after_step, process_batch, add_to_index, create_faiss_index,
    save_checkpoint, divide_by, on_self, on_disk, Py.bind, Py.get, Py.modify, Py.ret.
  cbn -[apply_writes checkpoint_writes Nat.min Nat.mul Nat.add]. fold bdocs.
  destruct fi as [i|]; cbn -[apply_writes checkpoint_writes Nat.min Nat.mul Nat.add].
  - cbn in Hok. unfold index_add. cbn -[apply_writes checkpoint_writes Nat.min Nat.mul Nat.add].
    rewrite Hok, Nat.eqb_refl.
    cbn -[apply_writes checkpoint_writes Nat.min Nat.mul Nat.add].
    destruct (length docs) eqn:El; [lia|].
    rewrite length_app, length_map.
    destruct (length ms + length bdocs) eqn:E2; [lia|]. cbn -[apply_writes checkpoint_writes Nat.min Nat.mul Nat.add].
    reflexivity.
  - unfold index_add. cbn -[apply_writes checkpoint_writes Nat.min Nat.mul Nat.add].
    rewrite Nat.eqb_refl.
    cbn -[apply_writes checkpoint_writes Nat.min Nat.mul Nat.add].
    destruct (length docs) eqn:El; [lia|].
    rewrite length_app, length_map.
    destruct (length ms + length bdocs) eqn:E2; [lia|]. cbn -[apply_writes checkpoint_writes Nat.min Nat.mul Nat.add].
    reflexivity.
Qed.

Lemma slice_app {A} (xs : list A) lo mid hi :
  lo <= mid -> mid <= hi ->
  Py.slice xs lo mid ++ Py.slice xs mid hi = Py.slice xs lo hi.
Proof.
  intros H1 H2. unfold Py.slice.
  replace (hi - lo) with ((mid - lo) + (hi - mid)) by lia.
  replace (skipn mid xs) with (skipn (mid - lo) (skipn lo xs)).
  - apply take_take_drop.
  - rewrite drop_drop. f_equal. lia.
Qed.

Lemma slice_empty {A} (xs : list A) lo hi : hi <= lo -> Py.slice xs lo hi = [].
Proof. intros Hle. unfold Py.slice. replace (hi - lo) with 0 by lia. reflexivity. Qed.

Lemma slice_all {A} (xs : list A) lo : Py.slice xs lo (length xs) = skipn lo xs.
Proof.
  unfold Py.slice. apply firstn_all2. rewrite length_skipn. lia.
Qed.

Lemma slice_prefix {A} (xs : list A) hi : Py.slice xs 0 hi = firstn hi xs.
Proof. unfold Py.slice. rewrite Nat.sub_0_r. reflexivity. Qed.

Lemma progressed_step m docs path clock a (w : World) :
  0 < chunk_batch_size (self w) ->
  progressed m docs path clock a 1 w (after_step m docs path clock a w).
Proof.
  intros HB. unfold progressed, after_step.
  destruct (checkpoint_written
    {| model_name := model_name (self w); batch_size := batch_size (self w);
       chunk_batch_size := chunk_batch_size (self w); model := Some m;
       faiss_index := Some {| d := get_sentence_embedding_dimension m;
                              xb := rows_of (faiss_index (self w)) ++
                                    embed m (Py.slice docs (a * chunk_batch_size (self w))
                                      (Nat.min ((a + 1) * chunk_batch_size (self w)) (length docs))) |};
       metadata := metadata (self w) ++ map doc_metadata
                     (Py.slice docs (a * chunk_batch_size (self w))
                        (Nat.min ((a + 1) * chunk_batch_size (self w)) (length docs)));
       embedding_dim := Some (get_sentence_embedding_dimension m) |}
    {| d := get_sentence_embedding_dimension m;
       xb := rows_of (faiss_index (self w)) ++
             embed m (Py.slice docs (a * chunk_batch_size (self w))
                (Nat.min ((a + 1) * chunk_batch_size (self w)) (length docs))) |}
    (clock a) path (disk w)) as (Hc & Hf1 & Hf2).
  cbn -[apply_writes checkpoint_writes Nat.min Nat.mul Nat.add] in *.
  repeat split; try reflexivity; try assumption.
  - intros Hn. lia.
  - intros _. eexists. split; [reflexivity|].
    replace (a + 1 - 1) with a by lia. exact Hc.
Qed.

Lemma embed_app (m : SentenceTransformer Vec) (xs ys : list (Document Meta)) :
  embed m (xs ++ ys) = embed m xs ++ embed m ys.
Proof. unfold embed. rewrite !map_app. reflexivity. Qed.

Lemma progressed_refl m docs path clock a (w : World) :
  model (self w) = Some m ->
  embedding_dim (self w) = Some (get_sentence_embedding_dimension m) ->
  dim_ok m (faiss_index (self w)) ->
  progressed m docs path clock a 0 w w.
Proof.
  intros Hm Hd Hok. unfold progressed.
  rewrite slice_empty by lia. cbn. rewrite !app_nil_r.
  repeat split; auto. intros Hn. lia.
Qed.

Lemma progressed_trans m docs path clock a n (w w1 w2 : World) :
  0 < chunk_batch_size (self w) ->
  n = 0 \/ (a + n) * chunk_batch_size (self w) < length docs ->
  progressed m docs path clock a 1 w w1 ->
  progressed m docs path clock (S a) n w1 w2 ->
  progressed m docs path clock a (S n) w w2.
Proof.
  intros HB Hn (N1 & S1 & B1 & M1 & E1 & D1 & R1 & T1 & F1 & G1 & _ & C1)
    (N2 & S2 & B2 & M2 & E2 & D2 & R2 & T2 & F2 & G2 & Z2 & C2).
  set (B := chunk_batch_size (self w)) in *.
  rewrite B1 in *.
  assert (Hpart :
    Py.slice docs (a * B) (Nat.min ((a + 1) * B) (length docs)) ++
    Py.slice docs (S a * B) (Nat.min ((S a + n) * B) (length docs)) =
    Py.slice docs (a * B) (Nat.min ((a + S n) * B) (length docs))).
  { destruct n as [|n'].
    - rewrite (slice_empty docs (S a * B)) by lia.
      rewrite app_nil_r. reflexivity.
    - destruct Hn as [Hn | Hlt]; [discriminate|].
      assert (B <= S n' * B) by nia.
      replace (Nat.min ((a + 1) * B) (length docs)) with (S a * B) by lia.
      rewrite slice_app by lia. do 2 f_equal. lia. }
  unfold progressed. fold B.
  repeat split.
  - congruence.
  - congruence.
  - congruence.
  - assumption.
  - assumption.
  - assumption.
  - rewrite R2, R1, <- app_assoc, <- embed_app, Hpart. reflexivity.
  - rewrite T2, T1, <- app_assoc, <- map_app, Hpart. reflexivity.
  - congruence.
  - congruence.
  - intros Hz. lia.
  - intros _. destruct n as [|n'].
    + rewrite (Z2 eq_refl). destruct (C1 ltac:(lia)) as (ix & Hix & Hdir).
      exists ix. split; [assumption|].
      replace (a + 1 - 1) with (a + 1 - 1) in Hdir by lia. exact Hdir.
    + destruct (C2 ltac:(lia)) as (ix & Hix & Hdir).
      exists ix. split; [assumption|]. rewrite Hdir, N1.
      replace (S a + S n' - 1) with (a + S (S n') - 1) by lia. reflexivity.
Qed.

Lemma loop_runs m docs path clock n : forall a (w : World),
  model (self w) = Some m ->
  embedding_dim (self w) = Some (get_sentence_embedding_dimension m) ->
  dim_ok m (faiss_index (self w)) ->
  0 < chunk_batch_size (self w) ->
  n = 0 \/ (a + n - 1) * chunk_batch_size (self w) < length docs ->
  exists w',
    Py.for_each (seq a n) (batch_step docs path clock) w = (Py.Returns tt, w')
    /\ progressed m docs path clock a n w w'.
Proof.
  induction n as [|n IH]; intros a w Hm Hd Hok HB Hn.
  - exists w. split; [reflexivity|]. apply progressed_refl; assumption.
  - destruct Hn as [Hn | Hn]; [discriminate|].
    assert (Hstep := progressed_step m docs path clock a w HB).
    assert (Hrun : batch_step docs path clock a w =
                   (Py.Returns tt, after_step m docs path clock a w)).
    { apply batch_step_runs; auto.
      assert (a * chunk_batch_size (self w) <= (a + S n - 1) * chunk_batch_size (self w)) by nia.
      lia. }
    set (w1 := after_step m docs path clock a w) in *.
    pose proof Hstep as (N1 & S1 & B1 & M1 & E1 & D1 & _).
    assert (HB1 : 0 < chunk_batch_size (self w1)) by (rewrite B1; exact HB).
    assert (Hn1 : n = 0 \/ (S a + n - 1) * chunk_batch_size (self w1) < length docs).
    { rewrite B1. destruct n; [left; reflexivity | right].
      replace (S a + S n - 1) with (a + S (S n) - 1) by lia. exact Hn. }
    destruct (IH (S a) w1 M1 E1 D1 HB1 Hn1) as (w2 & Hloop & Hprog).
    exists w2. split.
    + cbn [seq Py.for_each]. unfold Py.bind at 1. rewrite Hrun. exact Hloop.
    + apply progressed_trans with (w1 := w1); auto.
      destruct n; [left; reflexivity | right].
      replace (a + S n) with (a + S (S n) - 1) by lia. exact Hn.
Qed.

Lemma total_batches_covers (docs : list (Document Meta)) B :
  0 < B -> length docs <= total_batches docs B * B.
Proof.
  intros HB. unfold total_batches.
  pose proof (Nat.div_mod_eq (length docs + B - 1) B) as E.
  pose proof (Nat.mod_upper_bound (length docs + B - 1) B ltac:(lia)) as U.
  nia.
Qed.

Lemma total_batches_tight (docs : list (Document Meta)) B :
  0 < B -> 0 < length docs -> (total_batches docs B - 1) * B < length docs.
Proof.
  intros HB Hl. unfold total_batches.
  pose proof (Nat.div_mod_eq (length docs + B - 1) B) as E.
  pose proof (Nat.mod_upper_bound (length docs + B - 1) B ltac:(lia)) as U.
  nia.
Qed.

Lemma total_batches_pos (docs : list (Document Meta)) B :
  0 < B -> 0 < length docs -> 0 < total_batches docs B.
Proof.
  intros HB Hl. pose proof (total_batches_covers docs B HB).
  destruct (total_batches docs B); lia.
Qed.

Lemma prepare_fresh name bs B docs path resume (dk : Disk) :
  0 < B ->
  resume = false \/ dirs dk !! path = None ->
  prepare hub docs path resume (start name bs B dk) =
    (Py.Returns (0, total_batches docs B),
     {| self := armed hub name bs B None []; disk := dk |}).
Proof.
  intros HB Hfresh.
  unfold prepare, start, floordiv, load_model, load_checkpoint, on_self,
    Py.bind, Py.get, Py.modify, Py.ret, __init__.
  cbn. destruct (Nat.eqb_spec B 0) as [->|_]; [lia|]. cbn.
  destruct Hfresh as [-> | Hnone].
  - reflexivity.
  - destruct resume; [|reflexivity]. cbn. rewrite Hnone. reflexivity.
Qed.

Lemma prepare_resumed name bs B docs path (dk : Disk) index ms st :
  0 < B ->
  dirs dk !! path = Some {| vector_index_idx := Stored index;
                            vector_metadata_pkl := Stored ms;
                            processing_state_pkl := Stored st |} ->
  prepare hub docs path true (start name bs B dk) =
    (Py.Returns (length ms / B, total_batches docs B),
     {| self := armed hub name bs B (Some index) ms; disk := dk |}).
Proof.
  intros HB Hdir.
  unfold prepare, start, floordiv, load_model, load_checkpoint, on_self,
    Py.bind, Py.get, Py.modify, Py.ret, __init__.
  cbn. destruct (Nat.eqb_spec B 0) as [->|_]; [lia|]. cbn.
  rewrite Hdir. cbn.
  destruct (Nat.eqb_spec B 0) as [->|_]; [lia|]. reflexivity.
Qed.

Lemma save_final_results_runs (w : World) index :
  faiss_index (self w) = Some index ->
  exists w',
    save_final_results w = (Py.Returns tt, w')
    /\ self w' = self w
    /\ final_vector_index_idx (disk w') = Stored index
    /\ final_vector_metadata_pkl (disk w') = Stored (metadata (self w))
    /\ dirs (disk w') = delete "checkpoint"%string (dirs (disk w)).
Proof.
  intros Hi. unfold save_final_results, on_disk, Py.bind, Py.get, Py.modify.
  rewrite Hi. cbn. unfold exists_dir. cbn.
  destruct (dirs (disk w) !! "checkpoint"%string) eqn:E.
  - eexists. split; [reflexivity|]. cbn. auto.
  - eexists. split; [reflexivity|]. cbn. repeat split; auto.
    symmetry. apply delete_id. exact E.
Qed.

(** The loop of an invocation that [prepare] left at batch [s] of [tb], run
    for [n] batches. *)
Lemma batches_run name bs B docs path clock (dk : Disk) fi ms s n :
  0 < B ->
  dim_ok (hub name) fi ->
  n = 0 \/ s + n <= total_batches docs B ->
  exists w',
    Py.for_each (seq s n) (batch_step docs path clock)
      {| self := armed hub name bs B fi ms; disk := dk |} = (Py.Returns tt, w')
    /\ progressed (hub name) docs path clock s n
         {| self := armed hub name bs B fi ms; disk := dk |} w'.
Proof.
  intros HB Hok Hn.
  apply loop_runs; auto.
  destruct n as [|n]; [left; reflexivity | right]. cbn.
  destruct Hn as [Hn | Hn]; [discriminate|].
  destruct (length docs) as [|l] eqn:El.
  - unfold total_batches in Hn. rewrite El in Hn.
    rewrite Nat.div_small in Hn by lia. lia.
  - pose proof (total_batches_tight docs B HB ltac:(lia)) as Ht.
    rewrite El in Ht.
    assert ((s + S n - 1) * B <= (total_batches docs B - 1) * B) by (apply Nat.mul_le_mono_r; lia).
    lia.
Qed.

Lemma killed_after_outcome name bs B docs path resume clock (dk : Disk) fi ms s j :
  0 < B ->
  dim_ok (hub name) fi ->
  prepare hub docs path resume (start name bs B dk) =
    (Py.Returns (s, total_batches docs B),
     {| self := armed hub name bs B fi ms; disk := dk |}) ->
  exists w',
    killed_after hub j docs path resume clock (start name bs B dk) = (Py.Returns tt, w')
    /\ progressed (hub name) docs path clock s (Nat.min j (total_batches docs B - s))
         {| self := armed hub name bs B fi ms; disk := dk |} w'.
Proof.
  intros HB Hok Hprep.
  unfold killed_after, Py.bind at 1. rewrite Hprep. cbn [fst snd].
  unfold Py.range. rewrite take_seq.
  apply batches_run; auto. lia.
Qed.

Lemma process_all_batches_outcome name bs B docs path resume clock (dk : Disk) fi ms s :
  0 < B ->
  dim_ok (hub name) fi ->
  prepare hub docs path resume (start name bs B dk) =
    (Py.Returns (s, total_batches docs B),
     {| self := armed hub name bs B fi ms; disk := dk |}) ->
  exists w',
    progressed (hub name) docs path clock s (total_batches docs B - s)
      {| self := armed hub name bs B fi ms; disk := dk |} w'
    /\ process_all_batches hub docs path resume clock (start name bs B dk) =
         save_final_results w'.
Proof.
  intros HB Hok Hprep.
  destruct (batches_run name bs B docs path clock dk fi ms s
              (total_batches docs B - s) HB Hok ltac:(lia)) as (w' & Hloop & Hprog).
  exists w'. split; [exact Hprog|].
  unfold process_all_batches, Py.bind at 1. rewrite Hprep. cbn [fst snd].
  unfold Py.bind. unfold Py.range. rewrite Hloop. reflexivity.
Qed.

(** The slice that a whole run adds, from batch [s] on. *)
Lemma slice_to_the_end (docs : list (Document Meta)) B s :
  0 < B ->
  Py.slice docs (s * B) (Nat.min ((s + (total_batches docs B - s)) * B) (length docs))
  = skipn (s * B) docs.
Proof.
  intros HB. pose proof (total_batches_covers docs B HB) as Hc.
  destruct (Nat.le_gt_cases s (total_batches docs B)) as [Hle | Hgt].
  - replace (s + (total_batches docs B - s)) with (total_batches docs B) by lia.
    rewrite Nat.min_r by lia. apply slice_all.
  - replace (s + (total_batches docs B - s)) with s by lia.
    rewrite slice_empty by lia.
    symmetry. apply skipn_all2.
    assert (total_batches docs B * B <= s * B) by (apply Nat.mul_le_mono_r; lia). lia.
Qed.

Lemma origin_prepare name bs B docs path resume (dk : Disk) ins0 :
  0 < B ->
  origin (hub name) dk path resume ins0 ->
  exists fi ms,
    prepare hub docs path resume (start name bs B dk) =
      (Py.Returns (length ins0 / B, total_batches docs B),
       {| self := armed hub name bs B fi ms; disk := dk |})
    /\ dim_ok (hub name) fi
    /\ rows_of fi = embed (hub name) ins0
    /\ ms = map doc_metadata ins0.
Proof.
  intros HB [Hfresh | index ms st ins -> Hdir Hd [Hx Hms]].
  - exists None, []. rewrite (prepare_fresh name bs B docs path resume dk HB Hfresh).
    cbn [length]. rewrite Nat.Div0.div_0_l. repeat split.
  - exists (Some index), ms.
    rewrite (prepare_resumed name bs B docs path dk index ms st HB Hdir).
    rewrite Hms at 1. rewrite length_map. repeat split; auto.
Qed.

Lemma row_aligned_length (m : SentenceTransformer Vec) index (ms : list Meta) ins :
  row_aligned m index ms ins -> ntotal index = length ms.
Proof.
  intros [Hx ->]. unfold ntotal, embed in *. rewrite Hx, !length_map. reflexivity.
Qed.

Lemma run_from_origin name bs B docs path resume clock (dk : Disk) ins0 :
  0 < B ->
  origin (hub name) dk path resume ins0 ->
  let s := length ins0 / B in
  (forall j, 1 <= j <= total_batches docs B - s ->
     exists w index ms st,
       killed_after hub j docs path resume clock (start name bs B dk) = (Py.Returns tt, w)
       /\ dirs (disk w) !! path =
            Some {| vector_index_idx := Stored index;
                    vector_metadata_pkl := Stored ms;
                    processing_state_pkl := Stored st |}
       /\ faiss_index (self w) = Some index
       /\ metadata (self w) = ms
       /\ d index = get_sentence_embedding_dimension (hub name)
       /\ ntotal index = length ms
       /\ processed_chunks st = length ms
       /\ row_aligned (hub name) index ms
            (ins0 ++ Py.slice docs (s * B) (Nat.min ((s + j) * B) (length docs))))
  /\ (docs <> [] ->
      exists w index ms,
        process_all_batches hub docs path resume clock (start name bs B dk)
          = (Py.Returns tt, w)
        /\ final_vector_index_idx (disk w) = Stored index
        /\ final_vector_metadata_pkl (disk w) = Stored ms
        /\ faiss_index (self w) = Some index
        /\ metadata (self w) = ms
        /\ d index = get_sentence_embedding_dimension (hub name)
        /\ ntotal index = length ms
        /\ row_aligned (hub name) index ms (ins0 ++ skipn (s * B) docs)).
Proof.
  intros HB Horigin s.
  destruct (origin_prepare name bs B docs path resume dk ins0 HB Horigin)
    as (fi & ms0 & Hprep & Hok & Hrows & Hms0).
  fold s in Hprep. split.
  - intros j Hj.
    destruct (killed_after_outcome name bs B docs path resume clock dk fi ms0 s j
                HB Hok Hprep) as (w & Hrun & Hprog).
    rewrite Nat.min_l in Hprog by lia.
    destruct Hprog as (_ & _ & _ & _ & _ & D & R & T & _ & _ & _ & C).
    destruct (C ltac:(lia)) as (index & Hix & Hdir).
    rewrite Hix in D. cbn [dim_ok] in D.
    cbn [self armed chunk_batch_size faiss_index metadata] in R, T.
    rewrite Hix in R. cbn [rows_of] in R.
    assert (Hal : row_aligned (hub name) index (metadata (self w))
              (ins0 ++ Py.slice docs (s * B) (Nat.min ((s + j) * B) (length docs)))).
    { split.
      - rewrite R, Hrows, embed_app. reflexivity.
      - rewrite T, Hms0, map_app. reflexivity. }
    eexists w, index, (metadata (self w)), _.
    split; [exact Hrun|]. split; [exact Hdir|].
    split; [exact Hix|]. split; [reflexivity|]. split; [exact D|].
    split; [exact (row_aligned_length _ _ _ _ Hal)|].
    split; [reflexivity | exact Hal].
  - intros Hdocs.
    destruct (process_all_batches_outcome name bs B docs path resume clock dk fi ms0 s
                HB Hok Hprep) as (w' & Hprog & Hrun).
    destruct Hprog as (_ & _ & _ & _ & _ & D & R & T & _ & _ & Z & C).
    cbn [self armed chunk_batch_size faiss_index metadata] in R, T.
    rewrite (slice_to_the_end docs B s HB) in R, T.
    assert (Hsome : exists index, faiss_index (self w') = Some index).
    { destruct (Nat.eq_dec (total_batches docs B - s) 0) as [E0 | Hpos].
      - rewrite (Z E0). cbn.
        destruct Horigin as [Hfresh | index ms st ins Hres Hdir _ _].
        + exfalso. subst s. cbn [length] in E0. rewrite Nat.Div0.div_0_l in E0.
          assert (0 < length docs) by (destruct docs; [congruence | cbn; lia]).
          pose proof (total_batches_pos docs B HB ltac:(lia)). lia.
        + subst resume.
          rewrite (prepare_resumed name bs B docs path dk index ms st HB Hdir) in Hprep.
          injection Hprep as _ <- _. eauto.
      - destruct (C ltac:(lia)) as (index & Hix & _). eauto. }
    destruct Hsome as (index & Hix).
    destruct (save_final_results_runs w' index Hix) as (w & Hsave & Hself & Hfi & Hfm & _).
    rewrite Hix in R, D. cbn [rows_of] in R. cbn [dim_ok] in D.
    assert (Hal : row_aligned (hub name) index (metadata (self w'))
              (ins0 ++ skipn (s * B) docs)).
    { split.
      - rewrite R, Hrows, embed_app. reflexivity.
      - rewrite T, Hms0, map_app. reflexivity. }
    exists w, index, (metadata (self w')).
    split; [rewrite Hrun; exact Hsave|].
    split; [exact Hfi|]. split; [exact Hfm|].
    split; [rewrite Hself; exact Hix|]. split; [rewrite Hself; reflexivity|].
    split; [exact D|].
    split; [exact (row_aligned_length _ _ _ _ Hal) | exact Hal].
Qed.

(** X30 (row alignment from a sound start).  When a run starts from
    nothing, or from a complete checkpoint of aligned rows that has the
    model's dimension, the checkpoint that [save_checkpoint] leaves after
    each of its batches holds an index and a metadata list of the same
    length, row [i] of the one and entry [i] of the other coming from the
    same chunk, the chunks being those of the start followed by the input
    chunks of the batches run, in input order; and so do the final artifacts
    when the run completes.  From nothing, these chunks are the first
    [min (j * B) (len docs)] input chunks. *)
Theorem checkpoints_row_aligned name bs B docs path resume clock (dk : Disk) ins0 :
  0 < B ->
  origin (hub name) dk path resume ins0 ->
  let s := length ins0 / B in
  (forall j, 1 <= j <= total_batches docs B - s ->
     exists w index ms st,
       killed_after hub j docs path resume clock (start name bs B dk) = (Py.Returns tt, w)
       /\ dirs (disk w) !! path =
            Some {| vector_index_idx := Stored index;
                    vector_metadata_pkl := Stored ms;
                    processing_state_pkl := Stored st |}
       /\ faiss_index (self w) = Some index
       /\ metadata (self w) = ms
       /\ ntotal index = length ms
       /\ processed_chunks st = length ms
       /\ row_aligned (hub name) index ms
            (ins0 ++ Py.slice docs (s * B) (Nat.min ((s + j) * B) (length docs))))
  /\ (docs <> [] ->
      exists w index ms,
        process_all_batches hub docs path resume clock (start name bs B dk)
          = (Py.Returns tt, w)
        /\ final_vector_index_idx (disk w) = Stored index
        /\ final_vector_metadata_pkl (disk w) = Stored ms
        /\ faiss_index (self w) = Some index
        /\ metadata (self w) = ms
        /\ ntotal index = length ms
        /\ row_aligned (hub name) index ms (ins0 ++ skipn (s * B) docs)).
Proof.
  intros HB Horigin s.
  destruct (run_from_origin name bs B docs path resume clock dk ins0 HB Horigin)
    as [Hcheckpoints Hfinal].
  split.
  - intros j Hj.
    destruct (Hcheckpoints j Hj) as (w & index & ms & st & H1 & H2 & H3 & H4 & _ & H5).
    exists w, index, ms, st. repeat (split; [assumption|]). assumption.
  - intros Hdocs.
    destruct (Hfinal Hdocs) as (w & index & ms & H1 & H2 & H3 & H4 & H5 & _ & H6).
    exists w, index, ms. repeat (split; [assumption|]). assumption.
Qed.

(** [prepare] over a checkpoint whose index deserializes and whose metadata
    does not: [load_checkpoint] has assigned the index when the metadata
    fails to load, and returns [False]. *)
Lemma prepare_half_read name bs B docs path (dk : Disk) c old :
  0 < B ->
  dirs dk !! path = Some c ->
  vector_index_idx c = Stored old ->
  vector_metadata_pkl c = Missing \/ vector_metadata_pkl c = Garbled ->
  prepare hub docs path true (start name bs B dk) =
    (Py.Returns (0, total_batches docs B),
     {| self := armed hub name bs B (Some old) []; disk := dk |}).
Proof.
  intros HB Hdir Hix Hms. destruct c as [fi fm fs]. cbn in Hix, Hms. subst fi.
  unfold prepare, start, floordiv, load_model, load_checkpoint, on_self,
    Py.bind, Py.get, Py.modify, Py.ret, __init__.
  cbn. destruct (Nat.eqb_spec B 0) as [->|_]; [lia|]. cbn.
  rewrite Hdir. destruct Hms as [-> | ->]; reflexivity.
Qed.

(** C2, where it fails.  A checkpoint whose index file deserializes and
    whose metadata file does not (as a save killed while it writes the
    metadata leaves it) makes [load_checkpoint] return [False] with the old
    index already assigned to the object.  The run then starts at batch 0
    on that index: every checkpoint it writes, and the final artifacts,
    hold the old rows followed by one row per chunk processed, beside a
    metadata list of one entry per chunk processed.  The index has as many
    rows more than the metadata has entries as the old index had, and row
    [i] is not the vector of the chunk of entry [i]. *)
Theorem half_read_checkpoint_breaks_row_alignment name bs B docs path clock
  (dk : Disk) c old :
  0 < B ->
  docs <> [] ->
  dirs dk !! path = Some c ->
  vector_index_idx c = Stored old ->
  vector_metadata_pkl c = Missing \/ vector_metadata_pkl c = Garbled ->
  d old = get_sentence_embedding_dimension (hub name) ->
  (forall j, 1 <= j <= total_batches docs B ->
     exists w index ms st,
       killed_after hub j docs path true clock (start name bs B dk) = (Py.Returns tt, w)
       /\ dirs (disk w) !! path =
            Some {| vector_index_idx := Stored index;
                    vector_metadata_pkl := Stored ms;
                    processing_state_pkl := Stored st |}
       /\ processed_chunks st = length ms
       /\ xb index
          = xb old ++ embed (hub name) (firstn (Nat.min (j * B) (length docs)) docs)
       /\ ms = map doc_metadata (firstn (Nat.min (j * B) (length docs)) docs)
       /\ ntotal index = ntotal old + length ms)
  /\ (exists w index ms,
        process_all_batches hub docs path true clock (start name bs B dk)
          = (Py.Returns tt, w)
        /\ final_vector_index_idx (disk w) = Stored index
        /\ final_vector_metadata_pkl (disk w) = Stored ms
        /\ xb index = xb old ++ embed (hub name) docs
        /\ ms = map doc_metadata docs
        /\ ntotal index = ntotal old + length ms).
Proof.
  intros HB Hdocs Hdir Hix Hms Hd.
  pose proof (prepare_half_read name bs B docs path dk c old HB Hdir Hix Hms) as Hprep.
  assert (Hlen : 0 < length docs) by (destruct docs; [congruence | cbn; lia]).
  pose proof (total_batches_pos docs B HB Hlen) as Hpos.
  assert (Hcount : forall (index : IndexFlatL2 Vec) (ms : list Meta) part,
            xb index = xb old ++ embed (hub name) part ->
            ms = map doc_metadata part ->
            ntotal index = ntotal old + length ms).
  { intros index ms part Hx ->. unfold ntotal. rewrite Hx. unfold embed.
    rewrite length_app, !length_map. reflexivity. }
  split.
  - intros j Hj.
    destruct (killed_after_outcome name bs B docs path true clock dk (Some old) [] 0 j
                HB Hd Hprep) as (w & Hrun & Hprog).
    rewrite Nat.sub_0_r, Nat.min_l in Hprog by lia.
    destruct Hprog as (_ & _ & _ & _ & _ & _ & R & T & _ & _ & _ & C).
    destruct (C ltac:(lia)) as (index & Hi & Hc).
    cbn [self armed chunk_batch_size faiss_index metadata rows_of app Nat.mul Nat.add] in R, T.
    rewrite Hi in R. cbn [rows_of] in R. rewrite slice_prefix in R, T.
    eexists w, index, (metadata (self w)), _.
    split; [exact Hrun|]. split; [exact Hc|]. split; [reflexivity|].
    split; [exact R|]. split; [exact T|]. exact (Hcount _ _ _ R T).
  - destruct (process_all_batches_outcome name bs B docs path true clock dk (Some old) [] 0
                HB Hd Hprep) as (w' & Hprog & Hrun).
    destruct Hprog as (_ & _ & _ & _ & _ & _ & R & T & _ & _ & _ & C).
    destruct (C ltac:(lia)) as (index & Hi & _).
    cbn [self armed chunk_batch_size faiss_index metadata rows_of app] in R, T.
    rewrite (slice_to_the_end docs B 0 HB) in R, T. cbn [Nat.mul skipn] in R, T.
    rewrite Hi in R. cbn [rows_of] in R.
    destruct (save_final_results_runs w' index Hi) as (w & Hsave & Hself & Hfi & Hfm & _).
    exists w, index, (metadata (self w')).
    split; [rewrite Hrun; exact Hsave|]. split; [exact Hfi|]. split; [exact Hfm|].
    split; [exact R|]. split; [exact T|]. exact (Hcount _ _ _ R T).
Qed.

(** A run from nothing, killed after its [j]-th batch and invoked again
    with [resume=True]: what the second invocation completes with. *)
Lemma resume_outcome name bs B docs path clock clock' (dk : Disk) j :
  0 < B ->
  dirs dk !! path = None ->
  1 <= j <= total_batches docs B ->
  let p := Nat.min (j * B) (length docs) in
  exists w_crash w_res index ms,
    killed_after hub j docs path true clock (start name bs B dk) = (Py.Returns tt, w_crash)
    /\ process_all_batches hub docs path true clock' (start name bs B (disk w_crash))
         = (Py.Returns tt, w_res)
    /\ final_vector_index_idx (disk w_res) = Stored index
    /\ final_vector_metadata_pkl (disk w_res) = Stored ms
    /\ faiss_index (self w_res) = Some index
    /\ metadata (self w_res) = ms
    /\ d index = get_sentence_embedding_dimension (hub name)
    /\ row_aligned (hub name) index ms (firstn p docs ++ skipn (p / B * B) docs).
Proof.
  intros HB Hnone Hj p.
  assert (Hdocs : docs <> []).
  { intros ->. unfold total_batches in Hj. cbn [length] in Hj.
    rewrite Nat.div_small in Hj by lia. lia. }
  destruct (run_from_origin name bs B docs path true clock dk []
              HB (origin_fresh _ _ _ _ (or_intror Hnone))) as [Hck _].
  cbn [length] in Hck. rewrite Nat.Div0.div_0_l in Hck.
  destruct (Hck j ltac:(lia)) as (wc & ix & ms & st & Hrun & Hdir & _ & _ & Hd & _ & _ & Hal).
  cbn [app Nat.mul Nat.add] in Hal. rewrite slice_prefix in Hal. fold p in Hal.
  assert (Hp : length (firstn p docs) = p).
  { rewrite length_firstn. unfold p. lia. }
  destruct (run_from_origin name bs B docs path true clock' (disk wc) (firstn p docs)
              HB (origin_checkpoint _ _ _ _ ix ms st _ eq_refl Hdir Hd Hal)) as [_ Hfin].
  rewrite Hp in Hfin.
  destruct (Hfin Hdocs) as (wr & ix' & ms' & H1 & H2 & H3 & H4 & H5 & H6 & _ & H7).
  exists wc, wr, ix', ms'. repeat (split; [assumption|]). assumption.
Qed.

Lemma uninterrupted_outcome name bs B docs path resume clock (dk : Disk) :
  0 < B ->
  docs <> [] ->
  resume = false \/ dirs dk !! path = None ->
  exists w index ms,
    process_all_batches hub docs path resume clock (start name bs B dk) = (Py.Returns tt, w)
    /\ final_vector_index_idx (disk w) = Stored index
    /\ final_vector_metadata_pkl (disk w) = Stored ms
    /\ faiss_index (self w) = Some index
    /\ metadata (self w) = ms
    /\ d index = get_sentence_embedding_dimension (hub name)
    /\ row_aligned (hub name) index ms docs.
Proof.
  intros HB Hdocs Hfresh.
  destruct (run_from_origin name bs B docs path resume clock dk []
              HB (origin_fresh _ _ _ _ Hfresh)) as [_ Hfin].
  cbn [length] in Hfin. rewrite Nat.Div0.div_0_l in Hfin.
  destruct (Hfin Hdocs) as (w & ix & ms & H1 & H2 & H3 & H4 & H5 & H6 & _ & H7).
  exists w, ix, ms. repeat (split; [assumption|]). exact H7.
Qed.

Lemma row_aligned_unique (m : SentenceTransformer Vec) index index' (ms ms' : list Meta) ins :
  d index = d index' ->
  row_aligned m index ms ins -> row_aligned m index' ms' ins ->
  index = index' /\ ms = ms'.
Proof.
  intros Hd [Hx ->] [Hx' ->]. split; [|reflexivity].
  destruct index, index'. cbn in *. congruence.
Qed.

(** X1 (resume equivalence at whole batches).  Resume equivalence where the
    checkpoint math is exact: a crash after a batch that ended on a multiple
    of the batch size. *)
Lemma resume_equivalence name bs B docs path clock clock' (dk : Disk) j :
  0 < B ->
  dirs dk !! path = None ->
  1 <= j ->
  j * B <= length docs ->
  exists w_full w_crash w_res,
    process_all_batches hub docs path true clock (start name bs B dk)
      = (Py.Returns tt, w_full)
    /\ killed_after hub j docs path true clock (start name bs B dk)
         = (Py.Returns tt, w_crash)
    /\ process_all_batches hub docs path true clock' (start name bs B (disk w_crash))
         = (Py.Returns tt, w_res)
    /\ final_vector_index_idx (disk w_res) = final_vector_index_idx (disk w_full)
    /\ final_vector_metadata_pkl (disk w_res) = final_vector_metadata_pkl (disk w_full)
    /\ faiss_index (self w_res) = faiss_index (self w_full)
    /\ metadata (self w_res) = metadata (self w_full).
Proof.
  intros HB Hnone Hj Hle.
  assert (Hdocs : docs <> []).
  { intros ->. cbn in Hle. nia. }
  assert (Htb : j <= total_batches docs B).
  { pose proof (total_batches_covers docs B HB).
    apply Nat.mul_le_mono_pos_r with (p := B); lia. }
  destruct (uninterrupted_outcome name bs B docs path true clock dk HB Hdocs
              (or_intror Hnone)) as (wf & ixf & msf & F1 & F2 & F3 & F4 & F5 & F6 & F7).
  destruct (resume_outcome name bs B docs path clock clock' dk j HB Hnone ltac:(lia))
    as (wc & wr & ixr & msr & R1 & R2 & R3 & R4 & R5 & R6 & R7 & R8).
  rewrite Nat.min_l in R8 by lia.
  rewrite Nat.div_mul in R8 by lia.
  rewrite firstn_skipn in R8.
  assert (Hd : d ixr = d ixf) by congruence.
  destruct (row_aligned_unique _ _ _ _ _ _ Hd R8 F7) as [-> ->].
  exists wf, wc, wr. repeat (split; [assumption|]).
  repeat split; congruence.
Qed.

(** C1 (resume equivalence), where it fails.  When the input length is not
    a multiple of the batch size, a run killed after its last batch was
    checkpointed (before the final artifacts replaced the checkpoint) and
    invoked again with [resume=True] starts again at batch
    [len docs // B], which is the last one, and appends its chunks a second
    time: the result has [len docs mod B] rows more than the uninterrupted
    run's. *)
Theorem resume_after_last_batch_repeats_it name bs B docs path clock clock' (dk : Disk) :
  0 < B ->
  dirs dk !! path = None ->
  length docs mod B <> 0 ->
  exists w_full w_crash w_res full_index full_ms res_index res_ms,
    process_all_batches hub docs path true clock (start name bs B dk)
      = (Py.Returns tt, w_full)
    /\ killed_after hub (total_batches docs B) docs path true clock (start name bs B dk)
         = (Py.Returns tt, w_crash)
    /\ process_all_batches hub docs path true clock' (start name bs B (disk w_crash))
         = (Py.Returns tt, w_res)
    /\ final_vector_index_idx (disk w_full) = Stored full_index
    /\ final_vector_metadata_pkl (disk w_full) = Stored full_ms
    /\ final_vector_index_idx (disk w_res) = Stored res_index
    /\ final_vector_metadata_pkl (disk w_res) = Stored res_ms
    /\ row_aligned (hub name) full_index full_ms docs
    /\ row_aligned (hub name) res_index res_ms
         (docs ++ skipn (length docs / B * B) docs)
    /\ length full_ms = length docs
    /\ length res_ms = length docs + length docs mod B.
Proof.
  intros HB Hnone Hmod.
  assert (Hlen : 0 < length docs).
  { destruct (length docs) eqn:E; [|lia]. rewrite Nat.Div0.mod_0_l in Hmod. congruence. }
  assert (Hdocs : docs <> []) by (intros ->; cbn in Hlen; lia).
  pose proof (total_batches_pos docs B HB Hlen) as Hpos.
  pose proof (total_batches_covers docs B HB) as Hcov.
  destruct (uninterrupted_outcome name bs B docs path true clock dk HB Hdocs
              (or_intror Hnone)) as (wf & ixf & msf & F1 & F2 & F3 & F4 & F5 & F6 & F7).
  destruct (resume_outcome name bs B docs path clock clock' dk (total_batches docs B)
              HB Hnone ltac:(lia))
    as (wc & wr & ixr & msr & R1 & R2 & R3 & R4 & R5 & R6 & R7 & R8).
  rewrite Nat.min_r in R8 by lia.
  rewrite firstn_all in R8.
  exists wf, wc, wr, ixf, msf, ixr, msr.
  repeat (split; [assumption|]).
  split; [destruct F7 as [_ ->]; apply length_map|].
  destruct R8 as [_ ->]. rewrite length_map, length_app, length_skipn.
  pose proof (Nat.div_mod_eq (length docs) B). lia.
Qed.

(** *** Loading a checkpoint *)

Lemma load_checkpoint_complete (w : World) path index ms st :
  dirs (disk w) !! path = Some {| vector_index_idx := Stored index;
                                  vector_metadata_pkl := Stored ms;
                                  processing_state_pkl := Stored st |} ->
  load_checkpoint path w =
    (Py.Returns true,
     {| self := set_metadata ms (set_faiss_index (Some index) (self w));
        disk := disk w |}).
Proof.
  intros Hdir. unfold load_checkpoint, Py.bind at 1, Py.get. rewrite Hdir.
  reflexivity.
Qed.

Lemma load_checkpoint_unreadable (w : World) path :
  (dirs (disk w) !! path = None
   \/ exists c, dirs (disk w) !! path = Some c
               /\ (vector_index_idx c = Missing \/ vector_index_idx c = Garbled)) ->
  load_checkpoint path w = (Py.Returns false, w).
Proof.
  intros [Hnone | (c & Hdir & Hix)];
    unfold load_checkpoint, Py.bind at 1, Py.get.
  - rewrite Hnone. reflexivity.
  - rewrite Hdir. unfold Py.try_except, Py.bind, read_index.
    destruct Hix as [-> | ->]; reflexivity.
Qed.

Lemma load_checkpoint_total (w : World) path :
  exists b w', load_checkpoint path w = (Py.Returns b, w') /\ disk w' = disk w.
Proof.
  unfold load_checkpoint, Py.bind at 1, Py.get.
  destruct (dirs (disk w) !! path) as [[fi fm fs]|].
  - unfold Py.try_except, Py.bind, read_index, unpickle, on_self, Py.modify, Py.ret, Py.raise.
    cbn. destruct fi, fm, fs; cbn; eauto.
  - eauto.
Qed.

(** A resumed run whose checkpoint has another dimension than the model
    stops at its first batch, in the index library's own check. *)
Lemma batch_step_dimension_mismatch name bs B docs path clock (dk : Disk) index ms bn :
  d index <> get_sentence_embedding_dimension (hub name) ->
  batch_step docs path clock bn {| self := armed hub name bs B (Some index) ms; disk := dk |}
  = (Py.Raises Py.AssertionError,
     {| self := armed hub name bs B (Some index) ms; disk := dk |}).
Proof.
  intros Hd.
  unfold batch_step, process_batch, add_to_index, Py.bind, Py.get, Py.ret, index_add.
  cbn. destruct (Nat.eqb_spec (get_sentence_embedding_dimension (hub name)) (d index)) as [E|_].
  - congruence.
  - reflexivity.
Qed.

(** C3, as the code has it.  [load_checkpoint] accepts every checkpoint
    whose three artifacts deserialize, whatever model name and dimension its
    state descriptor records: it installs the index and the metadata and
    returns [True].  When the loaded index has the dimension of the
    configured model, the resumed run completes and the vectors of the
    remaining batches are appended to the loaded rows.  Only a loaded index
    of another dimension stops the run, at the first batch it would add, by
    the assertion of the index library, the index and the final artifacts
    being left as they were. *)
Theorem checkpoint_model_not_compared name bs B docs path clock (dk : Disk) index ms st :
  0 < B ->
  dirs dk !! path = Some {| vector_index_idx := Stored index;
                            vector_metadata_pkl := Stored ms;
                            processing_state_pkl := Stored st |} ->
  load_checkpoint path {| self := armed hub name bs B None []; disk := dk |}
    = (Py.Returns true, {| self := armed hub name bs B (Some index) ms; disk := dk |})
  /\ (d index = get_sentence_embedding_dimension (hub name) ->
      exists w index',
        process_all_batches hub docs path true clock (start name bs B dk)
          = (Py.Returns tt, w)
        /\ final_vector_index_idx (disk w) = Stored index'
        /\ final_vector_metadata_pkl (disk w) =
             Stored (ms ++ map doc_metadata (skipn (length ms / B * B) docs))
        /\ xb index' = xb index ++ embed (hub name) (skipn (length ms / B * B) docs))
  /\ (d index <> get_sentence_embedding_dimension (hub name) ->
      length ms / B * B < length docs ->
      exists w,
        process_all_batches hub docs path true clock (start name bs B dk)
          = (Py.Raises Py.AssertionError, w)
        /\ faiss_index (self w) = Some index
        /\ metadata (self w) = ms
        /\ disk w = dk).
Proof.
  intros HB Hdir. split; [|split].
  - rewrite (load_checkpoint_complete {| self := armed hub name bs B None []; disk := dk |}
               path index ms st Hdir). reflexivity.
  - intros Hd.
    pose proof (prepare_resumed name bs B docs path dk index ms st HB Hdir) as Hprep.
    destruct (process_all_batches_outcome name bs B docs path true clock dk
                (Some index) ms (length ms / B) HB Hd Hprep) as (w' & Hprog & Hrun).
    destruct Hprog as (_ & _ & _ & _ & _ & _ & R & T & _ & _ & Z & C).
    cbn [self armed chunk_batch_size faiss_index metadata rows_of] in R, T.
    rewrite (slice_to_the_end docs B _ HB) in R, T.
    assert (Hsome : exists index', faiss_index (self w') = Some index').
    { destruct (Nat.eq_dec (total_batches docs B - length ms / B) 0) as [E0 | Hpos].
      - rewrite (Z E0). cbn. eauto.
      - destruct (C ltac:(lia)) as (index' & Hix & _). eauto. }
    destruct Hsome as (index' & Hix).
    destruct (save_final_results_runs w' index' Hix) as (w & Hsave & Hself & Hfi & Hfm & _).
    rewrite Hix in R. cbn [rows_of] in R.
    exists w, index'. split; [rewrite Hrun; exact Hsave|].
    split; [exact Hfi|]. split; [rewrite Hfm, T; reflexivity | exact R].
  - intros Hd Hmore.
    pose proof (prepare_resumed name bs B docs path dk index ms st HB Hdir) as Hprep.
    pose proof (total_batches_covers docs B HB) as Hcov.
    assert (Hs : length ms / B < total_batches docs B).
    { apply Nat.mul_lt_mono_pos_r with (p := B); lia. }
    exists {| self := armed hub name bs B (Some index) ms; disk := dk |}.
    split; [|cbn; auto].
    unfold process_all_batches, Py.bind at 1. rewrite Hprep. cbn [fst snd].
    unfold Py.range.
    destruct (total_batches docs B - length ms / B) as [|n] eqn:En; [lia|].
    cbn [seq Py.for_each]. unfold Py.bind.
    rewrite (batch_step_dimension_mismatch name bs B docs path clock dk index ms _ Hd).
    reflexivity.
Qed.

(** C4, as the code has it.  [load_checkpoint] never raises and never
    writes.  When the directory is missing, or its index artifact is missing
    or does not deserialize, it returns [False] and leaves the object
    untouched, and the run that asked for a resume then is the run that did
    not: it starts at batch 0 from the empty index and metadata.  It
    validates nothing: a directory whose three artifacts deserialize is
    accepted, whatever the row counts of its index and metadata. *)
Theorem load_checkpoint_recovers name bs B docs path clock (w : World) (dk : Disk) :
  (exists b w', load_checkpoint path w = (Py.Returns b, w') /\ disk w' = disk w)
  /\ ((dirs (disk w) !! path = None
       \/ exists c, dirs (disk w) !! path = Some c
                   /\ (vector_index_idx c = Missing \/ vector_index_idx c = Garbled)) ->
      load_checkpoint path w = (Py.Returns false, w))
  /\ ((dirs dk !! path = None
       \/ exists c, dirs dk !! path = Some c
                   /\ (vector_index_idx c = Missing \/ vector_index_idx c = Garbled)) ->
      process_all_batches hub docs path true clock (start name bs B dk)
      = process_all_batches hub docs path false clock (start name bs B dk))
  /\ (forall index ms st,
        dirs (disk w) !! path = Some {| vector_index_idx := Stored index;
                                        vector_metadata_pkl := Stored ms;
                                        processing_state_pkl := Stored st |} ->
        load_checkpoint path w =
          (Py.Returns true,
           {| self := set_metadata ms (set_faiss_index (Some index) (self w));
              disk := disk w |})).
Proof.
  split; [apply load_checkpoint_total|].
  split; [apply load_checkpoint_unreadable|].
  split; [|intros index ms st; apply load_checkpoint_complete].
  intros Hbad.
  unfold process_all_batches. unfold Py.bind at 1 3.
  assert (Hprep : prepare hub docs path true (start name bs B dk)
                  = prepare hub docs path false (start name bs B dk)).
  { unfold prepare, start, floordiv, load_model, on_self, Py.bind, Py.get,
      Py.modify, Py.ret, __init__.
    cbn -[load_checkpoint]. destruct (Nat.eqb B 0); [reflexivity|].
    cbn -[load_checkpoint].
    rewrite load_checkpoint_unreadable by (cbn; exact Hbad). reflexivity. }
  rewrite Hprep. reflexivity.
Qed.

(** *** Saving a checkpoint *)

(** What the checkpoint directory holds when [save_checkpoint] is killed
    after [k] of its seven writes. *)
Lemma crash_point_table (o : t) (index : IndexFlatL2 Vec) now path (dk : Disk) k :
  1 <= k <= 7 ->
  dirs (crash_point o index now path k dk) !! path =
    Some {| vector_index_idx :=
              if k <? 2 then vector_index_idx (old_dir path dk)
              else if k <? 3 then Garbled else Stored index;
            vector_metadata_pkl :=
              if k <? 4 then vector_metadata_pkl (old_dir path dk)
              else if k <? 5 then Garbled else Stored (metadata o);
            processing_state_pkl :=
              if k <? 6 then processing_state_pkl (old_dir path dk)
              else if k <? 7 then Garbled
              else Stored {| processed_chunks := length (metadata o);
                             state_model_name := model_name o;
                             state_embedding_dim := embedding_dim o;
                             timestamp := now |} |}.
Proof.
  intros Hk. unfold crash_point, old_dir.
  assert (Hcases : k = 1 \/ k = 2 \/ k = 3 \/ k = 4 \/ k = 5 \/ k = 6 \/ k = 7) by lia.
  destruct Hcases as [-> | [-> | [-> | [-> | [-> | [-> | ->]]]]]];
    cbn -[alter]; unfold ensure_dir, exists_dir;
    destruct (dirs dk !! path) as [[fi fm fs]|] eqn:E; cbn;
    rewrite ?lookup_alter_eq, ?E, ?lookup_insert_eq; try rewrite E; reflexivity.
Qed.

(** The save of a batch that follows a checkpoint, killed between its index
    write and its metadata write: the new index stands beside the metadata
    of the checkpoint before. *)
Lemma next_save_killed name bs B docs path resume clock (dk : Disk) j :
  0 < B ->
  resume = false \/ dirs dk !! path = None ->
  1 <= j ->
  j * B < length docs ->
  exists w w' index',
    killed_after hub j docs path resume clock (start name bs B dk) = (Py.Returns tt, w)
    /\ batch_step docs path clock j w = (Py.Returns tt, w')
    /\ faiss_index (self w') = Some index'
    /\ disk w' = crash_point (self w') index' (clock j) path 7 (disk w)
    /\ forall c,
         dirs (crash_point (self w') index' (clock j) path 3 (disk w)) !! path = Some c ->
         rows_disagree c.
Proof.
  intros HB Hfresh Hj Hlt.
  pose proof (total_batches_covers docs B HB) as Hcov.
  assert (Hjt : j < total_batches docs B).
  { apply Nat.mul_lt_mono_pos_r with (p := B); lia. }
  destruct (killed_after_outcome name bs B docs path resume clock dk None [] 0 j
              HB I (prepare_fresh name bs B docs path resume dk HB Hfresh))
    as (w & Hrun & Hprog).
  rewrite Nat.sub_0_r, Nat.min_l in Hprog by lia.
  destruct Hprog as (_ & _ & HcB & Hm & He & Hok & R & T & _ & _ & _ & C).
  destruct (C ltac:(lia)) as (index & Hi & Hc).
  cbn [self armed chunk_batch_size faiss_index metadata rows_of app Nat.mul Nat.add] in HcB, R, T.
  rewrite Hi in R. cbn [rows_of] in R. rewrite slice_prefix, Nat.min_l in R, T by lia.
  assert (Hstep : batch_step docs path clock j w
                  = (Py.Returns tt, after_step (hub name) docs path clock j w)).
  { apply batch_step_runs; auto; rewrite HcB; assumption. }
  set (bdocs := Py.slice docs (j * B) (Nat.min ((j + 1) * B) (length docs))).
  assert (Hb : 0 < length bdocs).
  { unfold bdocs. rewrite length_slice by lia. lia. }
  eexists w, (after_step (hub name) docs path clock j w), _.
  split; [exact Hrun|]. split; [exact Hstep|]. split; [reflexivity|].
  split; [reflexivity|].
  intros c0 Hc0. rewrite crash_point_table in Hc0 by lia.
  cbn [Nat.ltb Nat.leb] in Hc0. unfold old_dir in Hc0. rewrite Hc in Hc0.
  injection Hc0 as <-. eexists _, _. split; [reflexivity|]. split; [reflexivity|].
  unfold ntotal. cbn [xb]. rewrite Hi. cbn [rows_of]. rewrite HcB. fold bdocs.
  rewrite R, T. unfold embed. rewrite length_app, !length_map. lia.
Qed.

(** C5, as the code has it.  [save_checkpoint] overwrites the three files
    in place, the index first, then the metadata, then the state descriptor,
    each file being unreadable from its opening to the end of its write.
    Killed after [k] of its seven writes it leaves: the old index (k < 2),
    no readable index (k = 2) or the new index; the old metadata (k < 4),
    none readable (k = 4) or the new metadata; the old descriptor (k < 6),
    none readable (k = 6) or the new one.  From the end of the metadata
    write on (k >= 5) it leaves the index and the metadata of the object,
    which agree in row count when the object's do.  Killed between the end
    of the index write and the opening of the metadata file (k = 3) it
    leaves the new index beside the old metadata, which disagree in row
    count whenever the old metadata has another length than the new index;
    and so it is in every run from nothing, at each save that follows a
    checkpoint. *)
Theorem save_checkpoint_overwrites_in_place (w : World) index now path :
  faiss_index (self w) = Some index ->
  save_checkpoint now path w =
    (Py.Returns tt,
     {| self := self w; disk := crash_point (self w) index now path 7 (disk w) |})
  /\ (forall k, 1 <= k <= 7 ->
        dirs (crash_point (self w) index now path k (disk w)) !! path =
          Some {| vector_index_idx :=
                    if k <? 2 then vector_index_idx (old_dir path (disk w))
                    else if k <? 3 then Garbled else Stored index;
                  vector_metadata_pkl :=
                    if k <? 4 then vector_metadata_pkl (old_dir path (disk w))
                    else if k <? 5 then Garbled else Stored (metadata (self w));
                  processing_state_pkl :=
                    if k <? 6 then processing_state_pkl (old_dir path (disk w))
                    else if k <? 7 then Garbled
                    else Stored {| processed_chunks := length (metadata (self w));
                                   state_model_name := model_name (self w);
                                   state_embedding_dim := embedding_dim (self w);
                                   timestamp := now |} |})
  /\ (ntotal index = length (metadata (self w)) ->
      forall k c, 5 <= k <= 7 ->
                  dirs (crash_point (self w) index now path k (disk w)) !! path = Some c ->
                  vector_index_idx c = Stored index
                  /\ vector_metadata_pkl c = Stored (metadata (self w))
                  /\ ~ rows_disagree c)
  /\ (forall old_ms,
        vector_metadata_pkl (old_dir path (disk w)) = Stored old_ms ->
        length old_ms <> ntotal index ->
        forall c, dirs (crash_point (self w) index now path 3 (disk w)) !! path = Some c ->
                  rows_disagree c)
  /\ (forall name bs B docs resume clock (dk : Disk) j,
        0 < B ->
        resume = false \/ dirs dk !! path = None ->
        1 <= j ->
        j * B < length docs ->
        exists w_j w_next index_next,
          killed_after hub j docs path resume clock (start name bs B dk)
            = (Py.Returns tt, w_j)
          /\ batch_step docs path clock j w_j = (Py.Returns tt, w_next)
          /\ faiss_index (self w_next) = Some index_next
          /\ disk w_next
             = crash_point (self w_next) index_next (clock j) path 7 (disk w_j)
          /\ forall c,
               dirs (crash_point (self w_next) index_next (clock j) path 3 (disk w_j))
                 !! path = Some c ->
               rows_disagree c).
Proof.
  intros Hix.
  split; [|split; [|split; [|split]]].
  - unfold save_checkpoint, Py.bind, Py.get, on_disk, Py.modify. rewrite Hix.
    reflexivity.
  - intros k Hk. apply crash_point_table. exact Hk.
  - intros Hal k c Hk Hc.
    rewrite crash_point_table in Hc by lia.
    assert (Hcases : k = 5 \/ k = 6 \/ k = 7) by lia.
    assert (Hfiles : vector_index_idx c = Stored index
                     /\ vector_metadata_pkl c = Stored (metadata (self w))).
    { destruct Hcases as [-> | [-> | ->]]; cbn in Hc; injection Hc as <-; split; reflexivity. }
    destruct Hfiles as [Hi Hm]. split; [exact Hi|]. split; [exact Hm|].
    intros (i & ms & Hi' & Hm' & Hne).
    rewrite Hi in Hi'. rewrite Hm in Hm'. inversion Hi'; inversion Hm'; subst. contradiction.
  - intros old_ms Hold Hne c Hc.
    rewrite crash_point_table in Hc by lia. cbn in Hc. injection Hc as <-.
    exists index, old_ms. split; [reflexivity|]. split; [exact Hold|].
    intros E. apply Hne. symmetry. exact E.
  - intros name bs B docs resume clock dk j HB Hfresh Hj Hlt.
    exact (next_save_killed name bs B docs path resume clock dk j HB Hfresh Hj Hlt).
Qed.

(** *** Edges of a run *)

Lemma total_batches_covered (docs : list (Document Meta)) B s :
  0 < B -> length docs <= s * B -> total_batches docs B <= s.
Proof.
  intros HB Hle. unfold total_batches.
  apply Nat.lt_succ_r. apply Nat.Div0.div_lt_upper_bound. nia.
Qed.

(** X2 (no chunk).  On an empty chunk list, with no checkpoint to resume
    from, [process_all_batches] has no batch to process: all it does before
    [save_final_results] leaves the disk as it was and the object with the
    model loaded, no index and no metadata.  The run is the final save of
    that object: [faiss.write_index] is handed [None]. *)
Lemma empty_input_saves_no_index name bs B path resume clock (dk : Disk) n :
  0 < B ->
  resume = false \/ dirs dk !! path = None ->
  let w := {| self := armed hub name bs B None []; disk := dk |} in
  killed_after hub n [] path resume clock (start name bs B dk) = (Py.Returns tt, w)
  /\ faiss_index (self w) = None
  /\ metadata (self w) = []
  /\ process_all_batches hub [] path resume clock (start name bs B dk)
     = save_final_results w.
Proof.
  intros HB Hfresh w.
  pose proof (prepare_fresh name bs B [] path resume dk HB Hfresh) as Hprep.
  assert (Hz : total_batches (@nil (Document Meta)) B = 0).
  { unfold total_batches. cbn [length]. apply Nat.div_small. lia. }
  rewrite Hz in Hprep.
  split; [|split; [reflexivity|split; [reflexivity|]]].
  - unfold killed_after, Py.bind at 1. rewrite Hprep. cbn [fst snd].
    unfold Py.range. cbn [Nat.sub seq]. rewrite firstn_nil. reflexivity.
  - unfold process_all_batches, Py.bind at 1. rewrite Hprep. reflexivity.
Qed.

(** X3 (batch size zero).  With [chunk_batch_size = 0] the batch count
    divides by zero: [process_all_batches] raises [ZeroDivisionError]
    before it loads the model or reads a checkpoint, whatever the chunks,
    the object and the disk, which it leaves as they were. *)
Lemma zero_chunk_batch_size_is_refused docs path resume clock (w : World) :
  chunk_batch_size (self w) = 0 ->
  process_all_batches hub docs path resume clock w = (Py.Raises Py.ZeroDivisionError, w).
Proof.
  intros HB. unfold process_all_batches, prepare, floordiv, Py.bind, Py.get.
  rewrite HB. reflexivity.
Qed.

(** X4 (checkpoint round trip).  What [save_checkpoint] writes,
    [load_checkpoint] reads back: after a save of an object that has an
    index, the directory holds that index, the object's metadata and a
    state descriptor that counts them, and any object that loads the
    directory gets this index and this metadata, and [True]. *)
Lemma checkpoint_round_trip (w : World) index now path :
  faiss_index (self w) = Some index ->
  exists w' st,
    save_checkpoint now path w = (Py.Returns tt, w')
    /\ self w' = self w
    /\ dirs (disk w') !! path =
         Some {| vector_index_idx := Stored index;
                 vector_metadata_pkl := Stored (metadata (self w));
                 processing_state_pkl := Stored st |}
    /\ processed_chunks st = length (metadata (self w))
    /\ forall o : t,
         load_checkpoint path {| self := o; disk := disk w' |}
         = (Py.Returns true,
            {| self := set_metadata (metadata (self w)) (set_faiss_index (Some index) o);
               disk := disk w' |}).
Proof.
  intros Hix.
  destruct (checkpoint_written (self w) index now path (disk w)) as (Hdir & _ & _).
  eexists _, _. split.
  { unfold save_checkpoint, Py.bind, Py.get, on_disk, Py.modify. rewrite Hix. reflexivity. }
  cbn [self disk]. split; [reflexivity|]. split; [exact Hdir|]. split; [reflexivity|].
  intros o. apply (load_checkpoint_complete {| self := o; disk := _ |} path _ _ _ Hdir).
Qed.


(** X6 (nothing left to do).  When the checkpoint already covers the input
    (its metadata, rounded down to whole batches, is at least as long as the
    chunk list; always so for an empty chunk list), the resumed run
    processes no batch and publishes the index and the metadata of the
    checkpoint as the final artifacts, whatever the dimension of that
    index. *)
Lemma covered_checkpoint_is_published name bs B docs path clock (dk : Disk) index ms st :
  0 < B ->
  dirs dk !! path = Some {| vector_index_idx := Stored index;
                            vector_metadata_pkl := Stored ms;
                            processing_state_pkl := Stored st |} ->
  length docs <= length ms / B * B ->
  exists w,
    process_all_batches hub docs path true clock (start name bs B dk) = (Py.Returns tt, w)
    /\ self w = armed hub name bs B (Some index) ms
    /\ final_vector_index_idx (disk w) = Stored index
    /\ final_vector_metadata_pkl (disk w) = Stored ms
    /\ dirs (disk w) = delete "checkpoint"%string (dirs dk).
Proof.
  intros HB Hdir Hcov.
  pose proof (prepare_resumed name bs B docs path dk index ms st HB Hdir) as Hprep.
  pose proof (total_batches_covered docs B _ HB Hcov) as Hle.
  destruct (save_final_results_runs
              {| self := armed hub name bs B (Some index) ms; disk := dk |} index eq_refl)
    as (w & Hsave & Hself & Hfi & Hfm & Hdirs).
  exists w. split.
  - unfold process_all_batches, Py.bind at 1. rewrite Hprep. cbn [fst snd].
    unfold Py.range. replace (total_batches docs B - length ms / B) with 0 by lia.
    cbn [seq Py.for_each]. exact Hsave.
  - auto.
Qed.

End Pipeline.

(** *** Three chunks, in batches of two *)

(** The uninterrupted run indexes the three chunks. *)
Example uninterrupted_run :
  Toy.artifacts (process_all_batches Toy.hub Toy.docs "checkpoint" true Toy.clock (Toy.fresh "model-A"))
  = (Py.Returns tt,
     Stored {| d := 384; xb := ["model-A:a"; "model-A:b"; "model-A:c"]%string |},
     Stored [0; 1; 2]).
Proof. vm_compute. reflexivity. Qed.

(** Killed after its first batch and resumed, the run gives the same. *)
Example resumed_after_first_batch :
  Toy.artifacts (process_all_batches Toy.hub Toy.docs "checkpoint" true Toy.clock
               (start "model-A" 128 2 (Toy.left_by "model-A" 1)))
  = (Py.Returns tt,
     Stored {| d := 384; xb := ["model-A:a"; "model-A:b"; "model-A:c"]%string |},
     Stored [0; 1; 2]).
Proof. vm_compute. reflexivity. Qed.

(** Killed after its second and last batch and resumed, it indexes the
    third chunk twice. *)
Example resumed_after_last_batch :
  Toy.artifacts (process_all_batches Toy.hub Toy.docs "checkpoint" true Toy.clock
               (start "model-A" 128 2 (Toy.left_by "model-A" 2)))
  = (Py.Returns tt,
     Stored {| d := 384;
               xb := ["model-A:a"; "model-A:b"; "model-A:c"; "model-A:c"]%string |},
     Stored [0; 1; 2; 2]).
Proof. vm_compute. reflexivity. Qed.

Lemma resume_after_last_batch_repeats_it_witness :
  exists w_full w_crash w_res full_index full_ms res_index res_ms,
    process_all_batches Toy.hub Toy.docs "checkpoint" true Toy.clock (Toy.fresh "model-A")
      = (Py.Returns tt, w_full)
    /\ killed_after Toy.hub (total_batches Toy.docs 2) Toy.docs "checkpoint" true Toy.clock
         (Toy.fresh "model-A") = (Py.Returns tt, w_crash)
    /\ process_all_batches Toy.hub Toy.docs "checkpoint" true Toy.clock
         (start "model-A" 128 2 (disk w_crash)) = (Py.Returns tt, w_res)
    /\ final_vector_index_idx (disk w_full) = Stored full_index
    /\ final_vector_metadata_pkl (disk w_full) = Stored full_ms
    /\ final_vector_index_idx (disk w_res) = Stored res_index
    /\ final_vector_metadata_pkl (disk w_res) = Stored res_ms
    /\ row_aligned (Toy.hub "model-A") full_index full_ms Toy.docs
    /\ row_aligned (Toy.hub "model-A") res_index res_ms
         (Toy.docs ++ skipn (length Toy.docs / 2 * 2) Toy.docs)
    /\ length full_ms = length Toy.docs
    /\ length res_ms = length Toy.docs + length Toy.docs mod 2.
Proof.
  apply (resume_after_last_batch_repeats_it Toy.hub "model-A" 128 2 Toy.docs
           "checkpoint" Toy.clock Toy.clock blank_disk).
  - lia.
  - reflexivity.
  - vm_compute. lia.
Defined.

Lemma resume_equivalence_witness :
  exists w_full w_crash w_res,
    process_all_batches Toy.hub Toy.docs "checkpoint" true Toy.clock (Toy.fresh "model-A")
      = (Py.Returns tt, w_full)
    /\ killed_after Toy.hub 1 Toy.docs "checkpoint" true Toy.clock (Toy.fresh "model-A")
         = (Py.Returns tt, w_crash)
    /\ process_all_batches Toy.hub Toy.docs "checkpoint" true Toy.clock
         (start "model-A" 128 2 (disk w_crash)) = (Py.Returns tt, w_res)
    /\ final_vector_index_idx (disk w_res) = final_vector_index_idx (disk w_full)
    /\ final_vector_metadata_pkl (disk w_res) = final_vector_metadata_pkl (disk w_full)
    /\ faiss_index (self w_res) = faiss_index (self w_full)
    /\ metadata (self w_res) = metadata (self w_full).
Proof.
  apply (resume_equivalence Toy.hub "model-A" 128 2 Toy.docs "checkpoint"
           Toy.clock Toy.clock blank_disk 1).
  - lia.
  - reflexivity.
  - lia.
  - vm_compute. lia.
Defined.

Lemma checkpoints_row_aligned_witness :
  (forall j, 1 <= j <= 2 ->
     exists w index ms st,
       killed_after Toy.hub j Toy.docs "checkpoint" true Toy.clock (Toy.fresh "model-A")
         = (Py.Returns tt, w)
       /\ dirs (disk w) !! "checkpoint"%string =
            Some {| vector_index_idx := Stored index;
                    vector_metadata_pkl := Stored ms;
                    processing_state_pkl := Stored st |}
       /\ faiss_index (self w) = Some index
       /\ metadata (self w) = ms
       /\ ntotal index = length ms
       /\ processed_chunks st = length ms
       /\ row_aligned (Toy.hub "model-A") index ms
            (Py.slice Toy.docs 0 (Nat.min (j * 2) 3)))
  /\ (Toy.docs <> [] ->
      exists w index ms,
        process_all_batches Toy.hub Toy.docs "checkpoint" true Toy.clock (Toy.fresh "model-A")
          = (Py.Returns tt, w)
        /\ final_vector_index_idx (disk w) = Stored index
        /\ final_vector_metadata_pkl (disk w) = Stored ms
        /\ faiss_index (self w) = Some index
        /\ metadata (self w) = ms
        /\ ntotal index = length ms
        /\ row_aligned (Toy.hub "model-A") index ms Toy.docs).
Proof.
  refine (checkpoints_row_aligned Toy.hub "model-A" 128 2 Toy.docs "checkpoint" true
            Toy.clock blank_disk [] _ _).
  - lia.
  - apply origin_fresh. right. reflexivity.
Defined.

Lemma half_read_checkpoint_breaks_row_alignment_witness :
  (forall j, 1 <= j <= total_batches Toy.docs 2 ->
     exists w index ms st,
       killed_after Toy.hub j Toy.docs "checkpoint" true Toy.clock
         (start "model-A" 128 2 Toy.half_readable_disk) = (Py.Returns tt, w)
       /\ dirs (disk w) !! "checkpoint"%string =
            Some {| vector_index_idx := Stored index;
                    vector_metadata_pkl := Stored ms;
                    processing_state_pkl := Stored st |}
       /\ processed_chunks st = length ms
       /\ xb index
          = ["model-A:a"; "model-A:b"]%string
            ++ embed (Toy.hub "model-A") (firstn (Nat.min (j * 2) (length Toy.docs)) Toy.docs)
       /\ ms = map doc_metadata (firstn (Nat.min (j * 2) (length Toy.docs)) Toy.docs)
       /\ ntotal index = 2 + length ms)
  /\ (exists w index ms,
        process_all_batches Toy.hub Toy.docs "checkpoint" true Toy.clock
          (start "model-A" 128 2 Toy.half_readable_disk) = (Py.Returns tt, w)
        /\ final_vector_index_idx (disk w) = Stored index
        /\ final_vector_metadata_pkl (disk w) = Stored ms
        /\ xb index = ["model-A:a"; "model-A:b"]%string ++ embed (Toy.hub "model-A") Toy.docs
        /\ ms = map doc_metadata Toy.docs
        /\ ntotal index = 2 + length ms).
Proof.
  refine (half_read_checkpoint_breaks_row_alignment Toy.hub "model-A" 128 2 Toy.docs
            "checkpoint" Toy.clock Toy.half_readable_disk _
            {| d := 384; xb := ["model-A:a"; "model-A:b"]%string |} _ _ _ _ _ _).
  - lia.
  - discriminate.
  - reflexivity.
  - reflexivity.
  - right. reflexivity.
  - reflexivity.
Defined.

(** C3, counterexample.  The checkpoint that a run of ["model-A"] left
    after its first batch records the model name ["model-A"].  The run of
    ["model-B"] that resumes from it raises nothing, and completes with an
    index that holds the two vectors of ["model-A"] followed by one of
    ["model-B"]. *)
Lemma mismatched_checkpoint_is_resumed :
  (exists c st,
     dirs (Toy.left_by "model-A" 1) !! "checkpoint"%string = Some c
     /\ processing_state_pkl c = Stored st
     /\ state_model_name st = "model-A"%string
     /\ state_model_name st <> "model-B"%string)
  /\ Toy.artifacts (process_all_batches Toy.hub Toy.docs "checkpoint" true Toy.clock
                  (start "model-B" 128 2 (Toy.left_by "model-A" 1)))
     = (Py.Returns tt,
        Stored {| d := 384; xb := ["model-A:a"; "model-A:b"; "model-B:c"]%string |},
        Stored [0; 1; 2]).
Proof.
  split.
  - eexists _, _. split; [vm_compute; reflexivity|].
    split; [reflexivity|]. split; [reflexivity | discriminate].
  - vm_compute. reflexivity.
Qed.

Lemma checkpoint_model_not_compared_witness :
  load_checkpoint "checkpoint" {| self := armed Toy.hub "model-B" 128 2 None []; disk := Toy.disk_A |}
    = (Py.Returns true,
       {| self := armed Toy.hub "model-B" 128 2
                    (Some {| d := 384; xb := ["model-A:a"; "model-A:b"]%string |}) [0; 1];
          disk := Toy.disk_A |})
  /\ (384 = get_sentence_embedding_dimension (Toy.hub "model-B") ->
      exists w index',
        process_all_batches Toy.hub Toy.docs "checkpoint" true Toy.clock
          (start "model-B" 128 2 Toy.disk_A) = (Py.Returns tt, w)
        /\ final_vector_index_idx (disk w) = Stored index'
        /\ final_vector_metadata_pkl (disk w) =
             Stored ([0; 1] ++ map doc_metadata (skipn 2 Toy.docs))
        /\ xb index' = ["model-A:a"; "model-A:b"]%string
                       ++ embed (Toy.hub "model-B") (skipn 2 Toy.docs))
  /\ (384 <> get_sentence_embedding_dimension (Toy.hub "model-B") ->
      2 < length Toy.docs ->
      exists w,
        process_all_batches Toy.hub Toy.docs "checkpoint" true Toy.clock
          (start "model-B" 128 2 Toy.disk_A) = (Py.Raises Py.AssertionError, w)
        /\ faiss_index (self w)
             = Some {| d := 384; xb := ["model-A:a"; "model-A:b"]%string |}
        /\ metadata (self w) = [0; 1]
        /\ disk w = Toy.disk_A).
Proof.
  refine (checkpoint_model_not_compared Toy.hub "model-B" 128 2 Toy.docs "checkpoint"
            Toy.clock Toy.disk_A _ _ _ _ _).
  - lia.
  - reflexivity.
Defined.

(** A checkpoint of another dimension stops the resumed run, in the index
    library. *)
Example other_dimension_stops_the_run :
  fst (process_all_batches Toy.hub Toy.docs "checkpoint" true Toy.clock
         (start "all-mpnet-base-v2" 128 2 Toy.disk_A))
  = Py.Raises Py.AssertionError.
Proof. vm_compute. reflexivity. Qed.

(** C4, counterexample.  A checkpoint whose index holds two vectors and
    whose metadata holds one entry is loaded as it is: [load_checkpoint]
    returns [True] and the object keeps both. *)
Lemma inconsistent_checkpoint_is_loaded :
  exists w index,
    load_checkpoint "checkpoint" (start "model-A" 128 2 Toy.torn_disk) = (Py.Returns true, w)
    /\ faiss_index (self w) = Some index
    /\ ntotal index = 2
    /\ length (metadata (self w)) = 1
    /\ Toy.artifacts (process_all_batches Toy.hub Toy.docs "checkpoint" true Toy.clock
                    (start "model-A" 128 2 Toy.torn_disk))
       = (Py.Returns tt,
          Stored {| d := 384;
                    xb := ["model-A:a"; "model-A:b";
                           "model-A:a"; "model-A:b"; "model-A:c"]%string |},
          Stored [0; 0; 1; 2]).
Proof.
  eexists _, _. split; [vm_compute; reflexivity|].
  split; [reflexivity|]. split; [reflexivity|]. split; [reflexivity|].
  vm_compute. reflexivity.
Qed.

(** C5, counterexample.  The object holds the three vectors and metadata
    entries of the finished second batch, the disk the checkpoint of the
    first.  Killed after three of its writes, [save_checkpoint] leaves an
    index file of three rows beside a metadata file of two entries; killed
    after two, an index file that does not deserialize. *)
Lemma killed_save_leaves_disagreement :
  (exists c, dirs Toy.disk_A !! "checkpoint"%string = Some c /\ ~ rows_disagree c)
  /\ (exists c,
        dirs (crash_point Toy.after_second_batch
                Toy.three_rows 1700000001 "checkpoint" 3 Toy.disk_A) !! "checkpoint"%string = Some c
        /\ rows_disagree c)
  /\ (exists c,
        dirs (crash_point Toy.after_second_batch
                Toy.three_rows 1700000001 "checkpoint" 2 Toy.disk_A) !! "checkpoint"%string = Some c
        /\ vector_index_idx c = Garbled).
Proof.
  split; [|split].
  - eexists. split; [vm_compute; reflexivity|].
    intros (i & ms & Hi & Hm & Hne). inversion Hi; inversion Hm; subst.
    apply Hne. reflexivity.
  - eexists. split; [vm_compute; reflexivity|].
    eexists _, _. split; [reflexivity|]. split; [reflexivity|]. cbn. lia.
  - eexists. split; [vm_compute; reflexivity | reflexivity].
Qed.

Lemma save_checkpoint_overwrites_in_place_witness :
  save_checkpoint 1700000001 "checkpoint" {| self := Toy.after_second_batch; disk := Toy.disk_A |}
  = (Py.Returns tt,
     {| self := Toy.after_second_batch;
        disk := crash_point Toy.after_second_batch
                  Toy.three_rows 1700000001 "checkpoint" 7 Toy.disk_A |}).
Proof.
  apply (save_checkpoint_overwrites_in_place Toy.hub
           {| self := Toy.after_second_batch; disk := Toy.disk_A |}
           Toy.three_rows 1700000001 "checkpoint").
  reflexivity.
Defined.

(** The slip of C2, on the three chunks.  When the index deserializes and
    the metadata does not, [load_checkpoint] returns [False] and the index
    stays loaded: the run then starts at batch 0 and adds every chunk after
    the two rows of the checkpoint.  Such a checkpoint is what the first
    save of a run leaves when it is killed while it writes the metadata. *)
Example half_read_checkpoint_is_kept :
  crash_point (armed Toy.hub "model-A" 128 2
                 (Some {| d := 384; xb := ["model-A:a"; "model-A:b"]%string |}) [0; 1])
    {| d := 384; xb := ["model-A:a"; "model-A:b"]%string |} 1700000000 "checkpoint" 4
    blank_disk = Toy.half_readable_disk
  /\ (exists w index,
     load_checkpoint "checkpoint" (start "model-A" 128 2 Toy.half_readable_disk)
       = (Py.Returns false, w)
     /\ faiss_index (self w) = Some index
     /\ ntotal index = 2
     /\ metadata (self w) = [])
  /\ Toy.artifacts (process_all_batches Toy.hub Toy.docs "checkpoint" true Toy.clock
                      (start "model-A" 128 2 Toy.half_readable_disk))
     = (Py.Returns tt,
        Stored {| d := 384;
                  xb := ["model-A:a"; "model-A:b";
                         "model-A:a"; "model-A:b"; "model-A:c"]%string |},
        Stored [0; 1; 2]).
Proof.
  split; [vm_compute; reflexivity|]. split.
  - eexists _, _. split; [vm_compute; reflexivity|]. repeat split.
  - vm_compute. reflexivity.
Qed.

(** *** The edges, on the three chunks *)

Lemma empty_input_saves_no_index_witness :
  let w := {| self := armed Toy.hub "model-A" 128 2 None []; disk := blank_disk |} in
  killed_after Toy.hub 1 [] "checkpoint" true Toy.clock
    (start "model-A" 128 2 (@blank_disk string nat)) = (Py.Returns tt, w)
  /\ faiss_index (self w) = None
  /\ metadata (self w) = []
  /\ process_all_batches Toy.hub [] "checkpoint" true Toy.clock
       (start "model-A" 128 2 (@blank_disk string nat))
     = save_final_results w.
Proof.
  apply (empty_input_saves_no_index Toy.hub "model-A" 128 2 "checkpoint" true Toy.clock
           blank_disk 1).
  - lia.
  - right. reflexivity.
Defined.

Lemma zero_chunk_batch_size_is_refused_witness :
  process_all_batches Toy.hub Toy.docs "checkpoint" true Toy.clock
    (start "model-A" 128 0 Toy.disk_A)
  = (Py.Raises Py.ZeroDivisionError, start "model-A" 128 0 Toy.disk_A).
Proof.
  apply (zero_chunk_batch_size_is_refused Toy.hub Toy.docs "checkpoint" true Toy.clock
           (start "model-A" 128 0 Toy.disk_A)).
  reflexivity.
Defined.

Lemma checkpoint_round_trip_witness :
  exists w' st,
    save_checkpoint 1700000001 "checkpoint"
      {| self := Toy.after_second_batch; disk := Toy.disk_A |} = (Py.Returns tt, w')
    /\ self w' = Toy.after_second_batch
    /\ dirs (disk w') !! "checkpoint"%string =
         Some {| vector_index_idx := Stored Toy.three_rows;
                 vector_metadata_pkl := Stored [0; 1; 2];
                 processing_state_pkl := Stored st |}
    /\ processed_chunks st = 3
    /\ forall o : t,
         load_checkpoint "checkpoint" {| self := o; disk := disk w' |}
         = (Py.Returns true,
            {| self := set_metadata [0; 1; 2] (set_faiss_index (Some Toy.three_rows) o);
               disk := disk w' |}).
Proof.
  apply (checkpoint_round_trip {| self := Toy.after_second_batch; disk := Toy.disk_A |}
           Toy.three_rows 1700000001 "checkpoint").
  reflexivity.
Defined.


(** The run that resumes under the path ["progress"] after a completed run
    finds the checkpoint that run left, and indexes the third chunk again. *)
Example left_checkpoint_is_resumed :
  let first := process_all_batches Toy.hub Toy.docs "progress" true Toy.clock
                 (start "model-A" 128 2 blank_disk) in
  Toy.artifacts (process_all_batches Toy.hub Toy.docs "progress" true Toy.clock
                   (start "model-A" 128 2 (disk (snd first))))
  = (Py.Returns tt,
     Stored {| d := 384;
               xb := ["model-A:a"; "model-A:b"; "model-A:c"; "model-A:c"]%string |},
     Stored [0; 1; 2; 2]).
Proof. vm_compute. reflexivity. Qed.

Lemma covered_checkpoint_is_published_witness :
  exists w,
    process_all_batches Toy.hub (firstn 2 Toy.docs) "checkpoint" true Toy.clock
      (start "all-mpnet-base-v2" 128 2 Toy.disk_A) = (Py.Returns tt, w)
    /\ self w = armed Toy.hub "all-mpnet-base-v2" 128 2
                  (Some {| d := 384; xb := ["model-A:a"; "model-A:b"]%string |}) [0; 1]
    /\ final_vector_index_idx (disk w)
       = Stored {| d := 384; xb := ["model-A:a"; "model-A:b"]%string |}
    /\ final_vector_metadata_pkl (disk w) = Stored [0; 1]
    /\ dirs (disk w) = delete "checkpoint"%string (dirs Toy.disk_A).
Proof.
  refine (covered_checkpoint_is_published Toy.hub "all-mpnet-base-v2" 128 2
            (firstn 2 Toy.docs) "checkpoint" Toy.clock Toy.disk_A _ _ _ _ _ _).
  - lia.
  - reflexivity.
  - vm_compute. lia.
Defined.

End BatchEmbeddingProcessorSpec.

(* ===================================================================== *)
(** * The grounding verifier *)
(* ===================================================================== *)

Module RAGVerificationSystemSpec.
Import RAGVerificationSystem.

Section Verifier.

Context {F : Type} `{Arith F}.
Context (md5_hexdigest : string -> string).

Lemma same_settings_refl (o : @t F) : same_settings o o.
Proof. repeat split. Qed.

Lemma same_settings_trans (o1 o2 o3 : @t F) :
  same_settings o1 o2 -> same_settings o2 o3 -> same_settings o1 o3.
Proof. unfold same_settings. intuition congruence. Qed.

Lemma _get_source_content_returns path (w : @World F) :
  exists content w',
    _get_source_content path w = (Py.Returns content, w')
    /\ same_settings (self w) (self w')
    /\ files w' = files w.
Proof.
  unfold _get_source_content, Py.bind at 1, Py.get.
  destruct (source_content_cache (self w) !! path) as [c|].
  - exists c, w. repeat split.
  - unfold Py.try_except.
    destruct (files w !! path) as [[| |content]|]; cbn.
    + exists EmptyString, w. repeat split.
    + exists EmptyString, w. repeat split.
    + eexists content, _. split; [reflexivity|]. repeat split.
    + exists EmptyString, w. repeat split.
Qed.

Lemma _calculate_semantic_similarity_returns response content (w : @World F) :
  exists x, _calculate_semantic_similarity response content w = (Py.Returns x, w).
Proof.
  unfold _calculate_semantic_similarity, Py.try_except.
  destruct (cosine (embedder (self w)) response content); cbn; eauto.
Qed.

Lemma verify_source_grounding_returns response meta (w : @World F) :
  exists sv w',
    verify_source_grounding md5_hexdigest response meta w = (Py.Returns sv, w')
    /\ same_settings (self w) (self w')
    /\ files w' = files w
    /\ ((exact_matches sv = [] /\ similarity_score sv = lit 0.0
         /\ verification_confidence sv = lit 0.0 /\ is_verified sv = false)
        \/ (verification_confidence sv
              = confidence_of (length (exact_matches sv)) (similarity_score sv)
            /\ is_verified sv
              = verified_of (self w) (length (exact_matches sv)) (similarity_score sv))).
Proof.
  unfold verify_source_grounding, Py.bind at 1.
  destruct (_get_source_content_returns (get_or "source" EmptyString meta) w)
    as (content & w1 & -> & Hs & Hf).
  destruct content as [|c content].
  - eexists _, w1. split; [reflexivity|]. split; [exact Hs|]. split; [exact Hf|].
    left. repeat split.
  - unfold Py.bind at 1.
    destruct (_calculate_semantic_similarity_returns response (String c content) w1)
      as (x & ->).
    unfold Py.bind, Py.get, Py.ret.
    eexists _, w1. split; [reflexivity|]. split; [exact Hs|]. split; [exact Hf|].
    right. cbn. split; [reflexivity|].
    unfold verified_of, confidence_of.
    destruct Hs as (_ & _ & -> & ->). reflexivity.
Qed.

(** A source whose content can be read: it is in the cache, or its file
    is there and holds it. *)
Lemma _get_source_content_readable path content (w : @World F) :
  source_content_cache (self w) !! path = Some content
  \/ (source_content_cache (self w) !! path = None
      /\ files w !! path = Some (Stored content)) ->
  exists w',
    _get_source_content path w = (Py.Returns content, w')
    /\ same_settings (self w) (self w')
    /\ files w' = files w
    /\ source_content_cache (self w') !! path = Some content.
Proof.
  intros [Hc | [Hc Hf]]; unfold _get_source_content, Py.bind at 1, Py.get; rewrite Hc.
  - exists w. repeat split. exact Hc.
  - unfold Py.try_except. rewrite Hf.
    eexists. split; [reflexivity|]. cbn. repeat split.
    apply lookup_insert_eq.
Qed.

(** What [verify_source_grounding] makes of a source whose content can be
    read and is not empty. *)
Lemma verify_source_grounding_readable response meta content (w : @World F) :
  let source_path := get_or "source" EmptyString meta in
  source_content_cache (self w) !! source_path = Some content
  \/ (source_content_cache (self w) !! source_path = None
      /\ files w !! source_path = Some (Stored content)) ->
  content <> EmptyString ->
  exists sv w',
    verify_source_grounding md5_hexdigest response meta w = (Py.Returns sv, w')
    /\ _get_source_content source_path w = (Py.Returns content, w')
    /\ same_settings (self w) (self w')
    /\ _calculate_semantic_similarity response content w'
       = (Py.Returns (similarity_score sv), w')
    /\ exact_matches sv = _find_exact_matches response content
    /\ content_hash sv = md5_hexdigest content
    /\ verification_confidence sv
       = confidence_of (length (exact_matches sv)) (similarity_score sv)
    /\ is_verified sv
       = verified_of (self w) (length (exact_matches sv)) (similarity_score sv).
Proof.
  intros source_path Hread Hne.
  destruct (_get_source_content_readable source_path content w Hread)
    as (w1 & Hget & Hs & _ & _).
  destruct (_calculate_semantic_similarity_returns response content w1) as (x & Hsim).
  unfold verify_source_grounding. fold source_path. unfold Py.bind at 1. rewrite Hget.
  destruct content as [|c content]; [congruence|].
  unfold Py.bind at 1. rewrite Hsim. unfold Py.bind, Py.get, Py.ret.
  eexists _, w1. split; [reflexivity|]. split; [reflexivity|]. split; [exact Hs|].
  cbn. split; [exact Hsim|]. split; [reflexivity|]. split; [reflexivity|].
  split; [reflexivity|].
  unfold verified_of, confidence_of. destruct Hs as (_ & _ & -> & ->). reflexivity.
Qed.

Lemma verify_each_returns response docs : forall (w : @World F),
  exists svs w',
    verify_each md5_hexdigest response docs w = (Py.Returns svs, w')
    /\ same_settings (self w) (self w')
    /\ length svs = length docs.
Proof.
  induction docs as [|doc docs IH]; intros w.
  - exists [], w. repeat split.
  - cbn [verify_each]. unfold Py.bind at 1.
    destruct (verify_source_grounding_returns response (rd_metadata doc) w)
      as (sv & w1 & -> & Hs1 & _ & _).
    unfold Py.bind at 1.
    destruct (IH w1) as (svs & w2 & -> & Hs2 & Hl).
    exists (sv :: svs), w2. split; [reflexivity|].
    split; [eapply same_settings_trans; eauto|]. cbn. congruence.
Qed.

Lemma verify_response_returns query response docs (w : @World F) :
  exists svs w',
    verify_each md5_hexdigest response docs w = (Py.Returns svs, w')
    /\ length svs = length docs
    /\ same_settings (self w) (self w')
    /\ verify_response md5_hexdigest query response docs w =
       (Py.Returns
          {| query := query; response := response; sources_used := svs;
             total_verification_score := total_score_of svs;
             is_grounded :=
               fgt (total_score_of svs) (GROUNDING_THRESHOLD (self w'))
               && fgt (verification_ratio_of svs) (lit 0.3);
             hallucination_risk :=
               if fgt (total_score_of svs) (lit 0.8)
                  && fgt (verification_ratio_of svs) (lit 0.6)
               then "LOW"%string
               else if fgt (total_score_of svs) (lit 0.5)
                       && fgt (verification_ratio_of svs) (lit 0.3)
                    then "MEDIUM"%string else "HIGH"%string;
             verification_details :=
               {| total_sources := length docs;
                  verified_sources := count_verified svs;
                  total_exact_matches :=
                    list_sum (map (fun sv => length (exact_matches sv)) svs);
                  thresholds_used := (EXACT_MATCH_THRESHOLD (self w'),
                                      SEMANTIC_SIMILARITY_THRESHOLD (self w'),
                                      GROUNDING_THRESHOLD (self w')) |} |}, w').
Proof.
  destruct (verify_each_returns response docs w) as (svs & w' & Hrun & Hs & Hl).
  exists svs, w'. split; [exact Hrun|]. split; [exact Hl|]. split; [exact Hs|].
  unfold verify_response, Py.bind at 1. rewrite Hrun.
  reflexivity.
Qed.

End Verifier.

(** *** On the doubles the code runs on *)

Lemma SFmul_comm prec emax x y : SFmul prec emax x y = SFmul prec emax y x.
Proof.
  destruct x as [sx|sx| |sx mx ex], y as [sy|sy| |sy my ey]; cbn; try reflexivity;
    try (rewrite (xorb_comm sx sy); reflexivity).
  rewrite (xorb_comm sx sy), (Pos.mul_comm mx my), (Z.add_comm ex ey). reflexivity.
Qed.

Lemma float_mul_comm (x y : float) : PrimFloat.mul x y = PrimFloat.mul y x.
Proof. apply Prim2SF_inj. rewrite !mul_spec. apply SFmul_comm. Qed.

(** C7.  For every response and every source whose content can be read
    (from the cache, or from its file) and is not empty,
    [verify_source_grounding] returns a record whose [exact_matches] are
    those that [_find_exact_matches] finds of the response in that content,
    whose [similarity_score] is what [_calculate_semantic_similarity] returns
    for the two, whose [verification_confidence] is
    [0.4 * min(len(exact_matches) * 0.2, 1.0) + 0.6 * semantic_similarity]
    and whose [is_verified] is
    [(len(exact_matches) > 0 and semantic_similarity > 0.7) or
     verification_confidence > 0.6], in binary64 arithmetic. *)
Theorem confidence_and_verified_flag md5_hexdigest (e : @Embedder float)
  (cache : gmap string string) (fs : gmap string (file string)) response meta content :
  let source_path := get_or "source" EmptyString meta in
  cache !! source_path = Some content
  \/ (cache !! source_path = None /\ fs !! source_path = Some (Stored content)) ->
  content <> EmptyString ->
  exists sv w' semantic_similarity,
    verify_source_grounding md5_hexdigest response meta
      {| self := set_cache cache (__init__ e); files := fs |} = (Py.Returns sv, w')
    /\ _calculate_semantic_similarity response content w'
       = (Py.Returns semantic_similarity, w')
    /\ exact_matches sv = _find_exact_matches response content
    /\ similarity_score sv = semantic_similarity
    /\ verification_confidence sv =
         fadd (fmul (lit 0.4)
                 (fmin (fmul (of_int (length (_find_exact_matches response content)))
                          (lit 0.2)) (lit 1.0)))
              (fmul (lit 0.6) semantic_similarity)
    /\ is_verified sv =
         (Nat.ltb 0 (length (_find_exact_matches response content))
          && fgt semantic_similarity (lit 0.7))
         || fgt (verification_confidence sv) (lit 0.6).
Proof.
  intros source_path Hread Hne.
  destruct (verify_source_grounding_readable md5_hexdigest response meta content
              {| self := set_cache cache (__init__ e); files := fs |} Hread Hne)
    as (sv & w' & Hrun & _ & _ & Hsim & Hm & _ & Hc & Hv).
  exists sv, w', (similarity_score sv).
  split; [exact Hrun|]. split; [exact Hsim|]. split; [exact Hm|]. split; [reflexivity|].
  rewrite <- Hm. split.
  - rewrite Hc. unfold confidence_of. cbn [fadd fmul binary64].
    rewrite (float_mul_comm (fmin _ _)), (float_mul_comm (similarity_score sv)).
    reflexivity.
  - rewrite Hv. unfold verified_of. rewrite <- Hc. reflexivity.
Qed.


(** *** A similarity below zero *)

(** Adding to [0.0] does not change the sign. *)
Lemma float_add_zero_ltb (x : float) :
  PrimFloat.ltb (PrimFloat.add 0 x) 0 = PrimFloat.ltb x 0.
Proof.
  rewrite !ltb_spec, add_spec.
  change (Prim2SF 0) with (S754_zero false).
  destruct (Prim2SF x) as [[|]|[|]| |sx mx ex]; reflexivity.
Qed.

(** C9, where it fails.  [_calculate_semantic_similarity] returns the
    cosine as the embedder gives it, and [verify_source_grounding] clamps
    neither it nor the confidence.  For a readable source that shares no
    phrase with the response and whose cosine [s] with it gives a product
    [s * 0.6] below zero (a negative cosine, as [-0.5]), the record has
    the similarity [s] and the confidence [0.0 * 0.4 + s * 0.6], which is
    below zero, in binary64 arithmetic. *)
Theorem negative_similarity_negative_confidence md5_hexdigest (e : @Embedder float)
  (cache : gmap string string) (fs : gmap string (file string)) response meta content s :
  let source_path := get_or "source" EmptyString meta in
  cache !! source_path = Some content
  \/ (cache !! source_path = None /\ fs !! source_path = Some (Stored content)) ->
  content <> EmptyString ->
  cosine e response content = Py.Returns s ->
  _find_exact_matches response content = [] ->
  flt (fmul s (lit 0.6)) (lit 0.0) = true ->
  exists sv w',
    verify_source_grounding md5_hexdigest response meta
      {| self := set_cache cache (__init__ e); files := fs |} = (Py.Returns sv, w')
    /\ _calculate_semantic_similarity response content w' = (Py.Returns s, w')
    /\ similarity_score sv = s
    /\ exact_matches sv = []
    /\ verification_confidence sv
       = fadd (fmul (lit 0.0) (lit 0.4)) (fmul s (lit 0.6))
    /\ flt (verification_confidence sv) (lit 0.0) = true.
Proof.
  intros source_path Hread Hne Hcos Hnone Hneg.
  destruct (verify_source_grounding_readable md5_hexdigest response meta content
              {| self := set_cache cache (__init__ e); files := fs |} Hread Hne)
    as (sv & w' & Hrun & _ & Hs & Hsim & Hm & _ & Hc & _).
  assert (Hsim' : _calculate_semantic_similarity response content w' = (Py.Returns s, w')).
  { unfold _calculate_semantic_similarity, Py.try_except.
    destruct Hs as (-> & _). cbn. rewrite Hcos. reflexivity. }
  assert (Hscore : similarity_score sv = s) by congruence.
  rewrite Hnone in Hm.
  assert (Hconf : verification_confidence sv
                  = fadd (fmul (lit 0.0) (lit 0.4)) (fmul s (lit 0.6))).
  { rewrite Hc, Hm, Hscore. reflexivity. }
  exists sv, w'. repeat (split; [assumption|]).
  rewrite Hconf. cbn [fadd fmul flt binary64] in *.
  change (PrimFloat.mul (lit 0.0) (lit 0.4)) with 0%float.
  change (lit 0.0) with 0%float in *.
  rewrite float_add_zero_ltb. exact Hneg.
Qed.

(** *** Exact matches *)

Lemma append_nil_l (s : string) : String.append EmptyString s = s.
Proof. reflexivity. Qed.

Lemma append_cons (c : ascii) (a b : string) :
  String.append (String c a) b = String c (String.append a b).
Proof. reflexivity. Qed.

Lemma append_assoc (a b c : string) :
  String.append (String.append a b) c = String.append a (String.append b c).
Proof.
  induction a as [|x a IH]; [reflexivity|].
  rewrite !append_cons, IH. reflexivity.
Qed.

Lemma prefix_spec p : forall s,
  String.prefix p s = true <-> exists post, s = String.append p post.
Proof.
  induction p as [|c p IH]; intros s.
  - split; [intros _; exists s; reflexivity | intros _; destruct s; reflexivity].
  - destruct s as [|c' s]; cbn [String.prefix].
    + split; [discriminate | intros [post Hp]; rewrite append_cons in Hp; discriminate].
    + destruct (Ascii.ascii_dec c c') as [->|Hne].
      * rewrite IH. split; intros [post Hp]; exists post.
        -- rewrite append_cons, Hp. reflexivity.
        -- rewrite append_cons in Hp. injection Hp as Hp. exact Hp.
      * split; [discriminate|].
        intros [post Hp]. rewrite append_cons in Hp. injection Hp. congruence.
Qed.

Lemma contains_spec s : forall p, Str.contains s p = true <-> Substring p s.
Proof.
  induction s as [|c s IH]; intros p; cbn [Str.contains].
  - rewrite orb_false_r, prefix_spec. split.
    + intros [post Hp]. exists EmptyString, post. exact Hp.
    + intros ([|x pre] & post & Hp).
      * rewrite append_nil_l in Hp. eauto.
      * rewrite append_cons in Hp. discriminate.
  - rewrite orb_true_iff, prefix_spec, IH. split.
    + intros [[post Hp] | (pre & post & Hp)].
      * exists EmptyString, post. exact Hp.
      * exists (String c pre), post. rewrite append_cons, Hp. reflexivity.
    + intros ([|x pre] & post & Hp).
      * left. rewrite append_nil_l in Hp. eauto.
      * right. rewrite append_cons in Hp. injection Hp as _ Hp.
        exists pre, post. exact Hp.
Qed.

Lemma word_run_at_spec {ws} : forall src,
  Str.word_run_at ws src = true <-> exists post, src = ws ++ post.
Proof.
  induction ws as [|w ws IH]; intros src; cbn.
  - split; [intros _; exists src; reflexivity | reflexivity].
  - destruct src as [|x src].
    + split; [discriminate | intros [post Hp]; discriminate].
    + rewrite andb_true_iff, String.eqb_eq, IH. split.
      * intros [-> [post ->]]. exists post. reflexivity.
      * intros [post Hp]. injection Hp as -> ->. eauto.
Qed.

Lemma word_run_in_spec ws : forall src,
  Str.word_run_in ws src = true <-> Sublist ws src.
Proof.
  induction src as [|x src IH]; cbn [Str.word_run_in].
  - rewrite orb_false_r, word_run_at_spec. split.
    + intros [post Hp]. exists [], post. exact Hp.
    + intros ([|y pre] & post & Hp); cbn in Hp; [eauto | discriminate].
  - rewrite orb_true_iff, word_run_at_spec, IH. split.
    + intros [[post Hp] | (pre & post & Hp)].
      * exists [], post. exact Hp.
      * exists (x :: pre), post. cbn. now rewrite Hp.
    + intros ([|y pre] & post & Hp); cbn in Hp.
      * left. eauto.
      * right. injection Hp as _ Hp. exists pre, post. exact Hp.
Qed.

Lemma join_cons w ws :
  ws <> [] -> Str.join (w :: ws) = String.append w (String " " (Str.join ws)).
Proof. destruct ws; [congruence | reflexivity]. Qed.

Lemma join_app xs ys :
  xs <> [] -> ys <> [] ->
  Str.join (xs ++ ys) = String.append (Str.join xs) (String " " (Str.join ys)).
Proof.
  intros Hx Hy. induction xs as [|x xs IH]; [congruence|].
  destruct xs as [|x' xs].
  - cbn [app]. apply join_cons. exact Hy.
  - change ((x :: x' :: xs) ++ ys) with (x :: ((x' :: xs) ++ ys)).
    rewrite join_cons by discriminate.
    rewrite IH by discriminate.
    rewrite (join_cons x (x' :: xs)) by discriminate.
    rewrite append_assoc. reflexivity.
Qed.

Lemma append_empty_r (s : string) : String.append s EmptyString = s.
Proof.
  induction s as [|c s IH]; [reflexivity|]. rewrite append_cons, IH. reflexivity.
Qed.

(** A run of words of the source is a run of characters of the joined
    source. *)
Lemma sublist_join ws src :
  ws <> [] -> Sublist ws src -> Substring (Str.join ws) (Str.join src).
Proof.
  intros Hws (pre & post & ->).
  destruct pre as [|a pre], post as [|b post].
  - cbn [app]. rewrite app_nil_r. exists EmptyString, EmptyString.
    rewrite append_nil_l, append_empty_r. reflexivity.
  - cbn [app]. rewrite join_app by (auto; discriminate).
    exists EmptyString, (String " " (Str.join (b :: post))). reflexivity.
  - rewrite app_nil_r. rewrite join_app by (auto; discriminate).
    exists (String.append (Str.join (a :: pre)) (String " " EmptyString)), EmptyString.
    rewrite append_empty_r, append_assoc. reflexivity.
  - assert (Hne : ws ++ b :: post <> []) by (destruct ws; discriminate).
    rewrite (join_app (a :: pre) (ws ++ b :: post)) by (auto; discriminate).
    rewrite (join_app ws (b :: post)) by (auto; discriminate).
    exists (String.append (Str.join (a :: pre)) (String " " EmptyString)),
           (String " " (Str.join (b :: post))).
    rewrite !append_assoc. reflexivity.
Qed.

Lemma in_phrases_found rw sw L phrase :
  In phrase (phrases_found rw sw L) <->
  exists i, i + L <= length rw
            /\ phrase = Str.join (Py.slice rw i (i + L))
            /\ Substring phrase (Str.join sw).
Proof.
  unfold phrases_found, Py.range. rewrite in_flat_map. split.
  - intros (i & Hi & Hin). apply in_seq in Hi.
    destruct (Str.contains _ _) eqn:E; [|contradiction].
    destruct Hin as [<- | []]. exists i. split; [lia|]. split; [reflexivity|].
    apply contains_spec. exact E.
  - intros (i & Hi & -> & Hsub). exists i. split; [apply in_seq; lia|].
    apply contains_spec in Hsub. rewrite Hsub. left. reflexivity.
Qed.

Lemma in_phrases_found_as_words rw sw L phrase :
  In phrase (phrases_found_as_words rw sw L) <->
  exists i, i + L <= length rw
            /\ phrase = Str.join (Py.slice rw i (i + L))
            /\ Sublist (Py.slice rw i (i + L)) sw.
Proof.
  unfold phrases_found_as_words, Py.range. rewrite in_flat_map. split.
  - intros (i & Hi & Hin). apply in_seq in Hi.
    destruct (Str.word_run_in _ _) eqn:E; [|contradiction].
    destruct Hin as [<- | []]. exists i. split; [lia|]. split; [reflexivity|].
    apply word_run_in_spec. exact E.
  - intros (i & Hi & -> & Hsub). exists i. split; [apply in_seq; lia|].
    apply word_run_in_spec in Hsub. rewrite Hsub. left. reflexivity.
Qed.

Lemma in_list_set xs x : In x (list_set xs) <-> In x xs.
Proof.
  unfold list_set. rewrite <- !list_elem_of_In. apply elem_of_remove_dups.
Qed.

Lemma in_range_3_6 L : In L (Py.range 3 6) <-> 3 <= L <= 5.
Proof. unfold Py.range. rewrite in_seq. lia. Qed.

(** C8, as the code has it.  The result of [_find_exact_matches] has no
    duplicates, and holds exactly the phrases that are the space-joined
    window of 3, 4 or 5 consecutive words of the normalized response and
    occur as a run of characters of the space-joined words of the
    normalized source.  A window that occurs as a run of words of the source
    is such a phrase; a phrase may also start or end inside a word of the
    source. *)
Theorem exact_matches_are_substrings response source_content :
  let response_words := Str.split (Str.strip_punctuation (Str.lower response)) in
  let source_words := Str.split (Str.strip_punctuation (Str.lower source_content)) in
  List.NoDup (_find_exact_matches response source_content)
  /\ (forall phrase,
        In phrase (_find_exact_matches response source_content) <->
        exists L i,
          3 <= L <= 5
          /\ i + L <= length response_words
          /\ phrase = Str.join (Py.slice response_words i (i + L))
          /\ Substring phrase (Str.join source_words))
  /\ (forall phrase,
        In phrase (exact_matches_as_words response source_content) ->
        In phrase (_find_exact_matches response source_content)).
Proof.
  intros rw sw.
  assert (Hchar : forall phrase,
        In phrase (_find_exact_matches response source_content) <->
        exists L i,
          3 <= L <= 5 /\ i + L <= length rw
          /\ phrase = Str.join (Py.slice rw i (i + L))
          /\ Substring phrase (Str.join sw)).
  { intros phrase. unfold _find_exact_matches. fold rw sw.
    rewrite in_list_set, in_flat_map. split.
    - intros (L & HL & Hin). apply in_range_3_6 in HL.
      apply in_phrases_found in Hin. destruct Hin as (i & Hin). exists L, i. tauto.
    - intros (L & i & HL & Hin). exists L. split; [apply in_range_3_6; exact HL|].
      apply in_phrases_found. exists i. exact Hin. }
  split; [|split].
  - unfold _find_exact_matches, list_set. apply NoDup_ListNoDup, NoDup_remove_dups.
  - exact Hchar.
  - intros phrase. unfold exact_matches_as_words. fold rw sw.
    rewrite in_list_set, in_flat_map. intros (L & HL & Hin).
    apply in_range_3_6 in HL. apply in_phrases_found_as_words in Hin.
    destruct Hin as (i & Hi & -> & Hsub).
    apply Hchar. exists L, i. repeat split; try lia.
    apply sublist_join; [|exact Hsub].
    intros Hnil. apply (f_equal (@length string)) in Hnil.
    unfold Py.slice in Hnil. rewrite length_firstn, length_skipn in Hnil.
    cbn in Hnil. lia.
Qed.

(** C8, counterexample.  The response words "he is at" do not occur as
    consecutive words of the source "the is ate", and the code reports the
    phrase, which occurs in it as a run of characters. *)
Lemma partial_words_match :
  _find_exact_matches "he is at" "the is ate" = ["he is at"%string]
  /\ exact_matches_as_words "he is at" "the is ate" = []
  /\ Str.word_run_in ["he"; "is"; "at"]%string ["the"; "is"; "ate"]%string = false
  /\ Str.contains "the is ate" "he is at" = true.
Proof. repeat split; vm_compute; reflexivity. Qed.

(** C7 at a source that is read from its file, shares two phrases with the
    response and has the cosine [0.75] with it. *)
Lemma confidence_and_verified_flag_witness :
  exists sv w' semantic_similarity,
    verify_source_grounding Toy.md5_stub "Diabetes is a chronic illness" Toy.source_metadata
      {| self := set_cache ∅ (__init__ Toy.aligned); files := Toy.one_source |}
    = (Py.Returns sv, w')
    /\ _calculate_semantic_similarity "Diabetes is a chronic illness"
         "Diabetes is a chronic condition." w'
       = (Py.Returns semantic_similarity, w')
    /\ exact_matches sv
       = _find_exact_matches "Diabetes is a chronic illness"
           "Diabetes is a chronic condition."
    /\ similarity_score sv = semantic_similarity
    /\ verification_confidence sv =
         fadd (fmul (lit 0.4)
                 (fmin (fmul (of_int (length (_find_exact_matches
                                                "Diabetes is a chronic illness"
                                                "Diabetes is a chronic condition.")))
                          (lit 0.2)) (lit 1.0)))
              (fmul (lit 0.6) semantic_similarity)
    /\ is_verified sv =
         (Nat.ltb 0 (length (_find_exact_matches "Diabetes is a chronic illness"
                               "Diabetes is a chronic condition."))
          && fgt semantic_similarity (lit 0.7))
         || fgt (verification_confidence sv) (lit 0.6).
Proof.
  apply (confidence_and_verified_flag Toy.md5_stub Toy.aligned ∅ Toy.one_source
           "Diabetes is a chronic illness" Toy.source_metadata
           "Diabetes is a chronic condition.").
  - right. split; reflexivity.
  - discriminate.
Defined.

(** What the code computes there: three matches, the cosine, the
    confidence [0.4 * 0.6 + 0.6 * 0.75] and the flag. *)
Example grounded_source :
  match fst (verify_source_grounding Toy.md5_stub "Diabetes is a chronic illness"
               Toy.source_metadata
               {| self := __init__ Toy.aligned; files := Toy.one_source |}) with
  | Py.Returns sv =>
      length (exact_matches sv) = 3
      /\ In "diabetes is a chronic"%string (exact_matches sv)
      /\ similarity_score sv = (0.75)%float
      /\ verification_confidence sv
         = PrimFloat.add (PrimFloat.mul (lit 0.4) (lit 0.6)) (PrimFloat.mul (lit 0.6) 0.75)
      /\ is_verified sv = true
  | Py.Raises _ => False
  end.
Proof. vm_compute. repeat split; auto. Qed.

(** C9 at a cosine of [-0.5], which lies in [-1, 1]: with no exact match
    the confidence is [0.0 * 0.4 + (-0.5) * 0.6], below zero. *)
Lemma negative_similarity_negative_confidence_witness :
  exists sv w',
    verify_source_grounding Toy.md5_stub "Eat more fruit" Toy.source_metadata
      {| self := set_cache ∅ (__init__ Toy.opposed); files := Toy.one_source |}
    = (Py.Returns sv, w')
    /\ _calculate_semantic_similarity "Eat more fruit" "Diabetes is a chronic condition." w'
       = (Py.Returns (-0.5)%float, w')
    /\ similarity_score sv = (-0.5)%float
    /\ exact_matches sv = []
    /\ verification_confidence sv
       = fadd (fmul (lit 0.0) (lit 0.4)) (fmul (-0.5)%float (lit 0.6))
    /\ flt (verification_confidence sv) (lit 0.0) = true.
Proof.
  apply (negative_similarity_negative_confidence Toy.md5_stub Toy.opposed ∅ Toy.one_source
           "Eat more fruit" Toy.source_metadata "Diabetes is a chronic condition."
           (-0.5)%float).
  - right. split; reflexivity.
  - discriminate.
  - reflexivity.
  - vm_compute. reflexivity.
  - vm_compute. reflexivity.
Defined.

(** *** The cache of source files *)

Section Accounting.

Context {F : Type} `{Arith F}.
Context (md5_hexdigest : string -> string).

Lemma _get_source_content_cached path content (w : @World F) :
  source_content_cache (self w) !! path = Some content ->
  _get_source_content path w = (Py.Returns content, w).
Proof.
  intros Hc. unfold _get_source_content, Py.bind, Py.get. rewrite Hc. reflexivity.
Qed.

Lemma _get_source_content_unreadable path (w : @World F) :
  source_content_cache (self w) !! path = None ->
  unreadable (files w) path ->
  _get_source_content path w = (Py.Returns EmptyString, w).
Proof.
  intros Hc Hf. unfold _get_source_content, Py.bind, Py.get. rewrite Hc.
  unfold Py.try_except. destruct Hf as [-> | [-> | ->]]; reflexivity.
Qed.

(** X7 (the cache of source files).  Once a source file has been read, or
    when its content is in the cache, [_get_source_content] returns that
    content and goes on returning it whatever becomes of the file: the files
    are not read again.  A file that cannot be read gives the empty string
    and nothing is cached, so that the next call looks at the files
    again. *)
Theorem source_content_cache_is_sticky path (w : @World F) :
  (forall content,
     source_content_cache (self w) !! path = Some content
     \/ (source_content_cache (self w) !! path = None
         /\ files w !! path = Some (Stored content)) ->
     exists w',
       _get_source_content path w = (Py.Returns content, w')
       /\ files w' = files w
       /\ source_content_cache (self w') !! path = Some content
       /\ forall fs,
            _get_source_content path {| self := self w'; files := fs |}
            = (Py.Returns content, {| self := self w'; files := fs |}))
  /\ (source_content_cache (self w) !! path = None ->
      unreadable (files w) path ->
      _get_source_content path w = (Py.Returns EmptyString, w)).
Proof.
  split; [|apply _get_source_content_unreadable].
  intros content [Hc | [Hc Hf]].
  - exists w. split; [apply _get_source_content_cached; exact Hc|].
    split; [reflexivity|]. split; [exact Hc|].
    intros fs. apply (_get_source_content_cached path content {| self := self w; files := fs |}).
    exact Hc.
  - set (w' := {| self := set_cache (<[path := content]> (source_content_cache (self w))) (self w);
                   files := files w |}).
    assert (Hin : source_content_cache (self w') !! path = Some content)
      by apply lookup_insert_eq.
    exists w'. split.
    { unfold _get_source_content, Py.bind at 1, Py.get. rewrite Hc.
      unfold Py.try_except. rewrite Hf. reflexivity. }
    split; [reflexivity|]. split; [exact Hin|].
    intros fs. apply (_get_source_content_cached path content {| self := self w'; files := fs |}).
    exact Hin.
Qed.

Lemma cache_kept_refl (o : @t F) : cache_kept o o.
Proof. intros p c Hc. exact Hc. Qed.

Lemma cache_kept_trans (o1 o2 o3 : @t F) :
  cache_kept o1 o2 -> cache_kept o2 o3 -> cache_kept o1 o3.
Proof. intros H12 H23 p c Hc. apply H23, H12, Hc. Qed.

Lemma _get_source_content_keeps_cache path (w : @World F) :
  cache_kept (self w) (self (snd (_get_source_content path w))).
Proof.
  unfold _get_source_content, Py.bind at 1, Py.get.
  destruct (source_content_cache (self w) !! path) as [c|] eqn:Hc.
  - apply cache_kept_refl.
  - unfold Py.try_except.
    destruct (files w !! path) as [[| |content]|]; cbn; try apply cache_kept_refl.
    intros p c Hp. cbn. rewrite lookup_insert_ne; [exact Hp|]. congruence.
Qed.

Lemma verify_source_grounding_names response meta (w : @World F) :
  exists sv w',
    verify_source_grounding md5_hexdigest response meta w = (Py.Returns sv, w')
    /\ source_id sv = get_or "id" "unknown" meta
    /\ source_file sv = Str.basename (get_or "source" EmptyString meta)
    /\ semantic_overlap sv = verification_confidence sv
    /\ files w' = files w
    /\ cache_kept (self w) (self w').
Proof.
  unfold verify_source_grounding, Py.bind at 1.
  pose proof (_get_source_content_keeps_cache (get_or "source" EmptyString meta) w) as Hk.
  destruct (_get_source_content_returns (get_or "source" EmptyString meta) w)
    as (content & w1 & E & _ & Hf).
  rewrite E in Hk |- *. cbn [snd] in Hk.
  destruct content as [|c content].
  - eexists _, w1. split; [reflexivity|]. cbn. auto.
  - unfold Py.bind at 1.
    destruct (_calculate_semantic_similarity_returns response (String c content) w1)
      as (x & ->).
    unfold Py.bind, Py.get, Py.ret.
    eexists _, w1. split; [reflexivity|]. cbn. auto.
Qed.

Lemma verify_source_grounding_unreadable response meta (w : @World F) :
  source_content_cache (self w) !! get_or "source" EmptyString meta = None ->
  unreadable (files w) (get_or "source" EmptyString meta) ->
  verify_source_grounding md5_hexdigest response meta w = (Py.Returns (unread md5_hexdigest meta), w).
Proof.
  intros Hc Hf. unfold verify_source_grounding, Py.bind at 1.
  rewrite (_get_source_content_unreadable _ w Hc Hf). reflexivity.
Qed.

Lemma verify_each_names response docs : forall (w : @World F),
  exists svs w',
    verify_each md5_hexdigest response docs w = (Py.Returns svs, w')
    /\ Forall2 (fun doc sv =>
                  source_id sv = get_or "id" "unknown" (rd_metadata doc)
                  /\ source_file sv
                     = Str.basename (get_or "source" EmptyString (rd_metadata doc))
                  /\ semantic_overlap sv = verification_confidence sv) docs svs
    /\ files w' = files w
    /\ cache_kept (self w) (self w').
Proof.
  induction docs as [|doc docs IH]; intros w.
  - exists [], w. split; [reflexivity|]. split; [constructor|].
    split; [reflexivity | apply cache_kept_refl].
  - cbn [verify_each]. unfold Py.bind at 1.
    destruct (verify_source_grounding_names response (rd_metadata doc) w)
      as (sv & w1 & -> & Hid & Hfile & Hov & Hf1 & Hk1).
    unfold Py.bind at 1.
    destruct (IH w1) as (svs & w2 & -> & Hall & Hf2 & Hk2).
    exists (sv :: svs), w2. split; [reflexivity|].
    split; [constructor; auto|].
    split; [congruence | eapply cache_kept_trans; eauto].
Qed.

Lemma verify_each_unreadable response docs (w : @World F) :
  Forall (fun doc =>
            source_content_cache (self w) !! get_or "source" EmptyString (rd_metadata doc) = None
            /\ unreadable (files w) (get_or "source" EmptyString (rd_metadata doc))) docs ->
  verify_each md5_hexdigest response docs w
  = (Py.Returns (map (fun doc => unread md5_hexdigest (rd_metadata doc)) docs), w).
Proof.
  induction 1 as [|doc docs [Hc Hf] _ IH]; [reflexivity|].
  cbn [verify_each map]. unfold Py.bind at 1.
  rewrite (verify_source_grounding_unreadable response _ w Hc Hf).
  unfold Py.bind. rewrite IH. reflexivity.
Qed.

Lemma count_verified_le (svs : list (@SourceVerification F)) :
  count_verified svs <= length svs.
Proof. unfold count_verified. apply length_filter. Qed.

(** X8 (one record per document).  [verify_response] returns one source
    record per retrieved document, in the order of the documents, each
    named after its document (the ['id'] and the base name of the
    ['source'] of its metadata, ["unknown"] and the empty name when they are
    missing); the counts of its details are those of these records, the
    thresholds reported are the verifier's; it changes no file and no
    setting, and what was cached before stays cached. *)
Theorem verify_response_accounts_for_every_document query response docs (w : @World F) :
  exists rv w',
    verify_response md5_hexdigest query response docs w = (Py.Returns rv, w')
    /\ RAGVerificationSystem.query rv = query
    /\ RAGVerificationSystem.response rv = response
    /\ Forall2 (fun doc sv =>
                  source_id sv = get_or "id" "unknown" (rd_metadata doc)
                  /\ source_file sv
                     = Str.basename (get_or "source" EmptyString (rd_metadata doc))
                  /\ semantic_overlap sv = verification_confidence sv)
               docs (sources_used rv)
    /\ total_sources (verification_details rv) = length docs
    /\ verified_sources (verification_details rv) = count_verified (sources_used rv)
    /\ verified_sources (verification_details rv) <= total_sources (verification_details rv)
    /\ thresholds_used (verification_details rv)
       = (EXACT_MATCH_THRESHOLD (self w), SEMANTIC_SIMILARITY_THRESHOLD (self w),
          GROUNDING_THRESHOLD (self w))
    /\ files w' = files w
    /\ same_settings (self w) (self w')
    /\ cache_kept (self w) (self w').
Proof.
  destruct (verify_each_names response docs w) as (svs & w' & Hrun & Hall & Hf & Hk).
  destruct (verify_response_returns md5_hexdigest query response docs w)
    as (svs' & w'' & Hrun' & Hl & Hs & Hres).
  rewrite Hrun in Hrun'. injection Hrun' as <- <-.
  eexists _, w'. split; [exact Hres|]. cbn.
  split; [reflexivity|]. split; [reflexivity|]. split; [exact Hall|].
  split; [reflexivity|]. split; [reflexivity|].
  split; [rewrite <- Hl; apply count_verified_le|].
  pose proof Hs as (_ & E1 & E2 & E3). rewrite E1, E2, E3.
  split; [reflexivity|]. split; [exact Hf|]. split; [exact Hs | exact Hk].
Qed.

(** X9 (the API response).  The API response that
    [create_verification_api_response] makes of the result of
    [verify_response] has one source detail per retrieved document, in
    order; its ['total_sources'] is their number, its ['sources_verified']
    the number of details flagged verified, its ['exact_matches_found'] the
    sum of their match counts; every detail shows the first three of its
    matches at most, and the flags of the summary are those of the
    verification. *)
Theorem api_response_is_consistent query response docs (w : @World F) :
  exists rv w',
    verify_response md5_hexdigest query response docs w = (Py.Returns rv, w')
    /\ let api := create_verification_api_response rv in
       length (source_details api) = length docs
       /\ summary_total_sources (verification api) = length (source_details api)
       /\ sources_verified (verification api)
          = length (List.filter detail_is_verified (source_details api))
       /\ exact_matches_found (verification api)
          = list_sum (map exact_matches_count (source_details api))
       /\ Forall (fun sd => length (sample_matches sd) = Nat.min 3 (exact_matches_count sd))
                 (source_details api)
       /\ Forall2 (fun sv sd => sample_matches sd = firstn 3 (exact_matches sv)
                                /\ confidence sd = verification_confidence sv
                                /\ detail_source_file sd = source_file sv)
                  (sources_used rv) (source_details api)
       /\ summary_hallucination_risk (verification api) = hallucination_risk rv
       /\ summary_is_grounded (verification api) = is_grounded rv.
Proof.
  destruct (verify_response_returns md5_hexdigest query response docs w)
    as (svs & w' & _ & Hl & _ & Hres).
  eexists _, w'. split; [exact Hres|].
  cbn -[firstn Nat.min]. rewrite length_map.
  split; [exact Hl|]. split; [symmetry; exact Hl|].
  split.
  { unfold count_verified. clear. induction svs as [|sv svs IH]; [reflexivity|].
    rewrite filter_cons. cbn [map List.filter detail_is_verified].
    destruct (is_verified sv); cbn.
    - destruct (decide True) as [_|n]; [|destruct n; exact I]. cbn. rewrite IH. reflexivity.
    - destruct (decide False) as [[]|_]. exact IH. }
  split.
  { rewrite map_map. reflexivity. }
  split.
  { apply Forall_map. apply Forall_forall. intros sv _. cbn -[firstn Nat.min].
    apply length_firstn. }
  split.
  { clear. induction svs as [|sv svs IH]; constructor; auto. }
  split; reflexivity.
Qed.

End Accounting.

(** *** Comparisons of doubles *)

Lemma SFltb_trans x y z : SFltb x y = true -> SFltb y z = true -> SFltb x z = true.
Proof.
  unfold SFltb.
  destruct x as [sx|sx| |sx mx ex], y as [sy|sy| |sy my ey], z as [sz|sz| |sz mz ez];
    cbn; try discriminate; try reflexivity;
    repeat match goal with s : bool |- _ => destruct s end;
    cbn; try discriminate; try reflexivity.
  - destruct (Z.compare_spec ex ey), (Z.compare_spec ey ez), (Z.compare_spec ex ez);
      try discriminate; try reflexivity; try lia; subst.
    all: fold (Pos.compare mx my); fold (Pos.compare my mz); fold (Pos.compare mx mz).
    all: destruct (Pos.compare_spec mx my), (Pos.compare_spec my mz), (Pos.compare_spec mx mz);
      cbn; try discriminate; try reflexivity; lia.
  - destruct (Z.compare_spec ex ey), (Z.compare_spec ey ez), (Z.compare_spec ex ez);
      try discriminate; try reflexivity; try lia; subst.
    all: fold (Pos.compare mx my); fold (Pos.compare my mz); fold (Pos.compare mx mz).
    all: destruct (Pos.compare_spec mx my), (Pos.compare_spec my mz), (Pos.compare_spec mx mz);
      cbn; try discriminate; try reflexivity; lia.
Qed.

Lemma float_ltb_trans (x y z : float) :
  PrimFloat.ltb x y = true -> PrimFloat.ltb y z = true -> PrimFloat.ltb x z = true.
Proof. rewrite !ltb_spec. apply SFltb_trans. Qed.

(** [0.0 / y] is a zero or not a number, and no positive number is below it. *)
Lemma nothing_below_zero_quotient (c y : float) :
  PrimFloat.ltb 0%float c = true ->
  PrimFloat.ltb c (PrimFloat.div 0%float y) = false.
Proof.
  rewrite !ltb_spec, div_spec.
  change (Prim2SF 0%float) with (S754_zero false).
  unfold SFltb.
  destruct (Prim2SF c) as [sc|sc| |sc mc ec], (Prim2SF y) as [sy|sy| |sy my ey];
    cbn; try discriminate; try reflexivity;
    destruct sc; cbn; try discriminate; reflexivity.
Qed.

Lemma fsum_zeros (n : nat) :
  fsum (repeat (lit 0.0 : float) n) = 0%float.
Proof.
  unfold fsum. change (of_int 0 : float) with 0%float.
  induction n as [|n IH]; [reflexivity|]. cbn [repeat fold_left]. exact IH.
Qed.

Lemma fgt_zero_quotient (c y : float) :
  PrimFloat.ltb 0%float c = true -> fgt (fdiv 0%float y) c = false.
Proof. intros Hc. unfold fgt. cbn [flt fdiv binary64]. apply nothing_below_zero_quotient, Hc. Qed.

(** X10 (no readable source).  When none of the retrieved documents has a
    source that can be read (the file is missing or unreadable, and not in
    the cache), [verify_response] consults neither the embedder nor the
    matcher: every record is the empty one, the answer is not grounded and
    the risk is ["HIGH"], for any number of documents and any positive
    grounding threshold, and the verifier is left as it was. *)
Theorem unreadable_sources_are_high_risk md5_hexdigest query response docs (w : @World float) :
  Forall (fun doc =>
            source_content_cache (self w) !! get_or "source" EmptyString (rd_metadata doc) = None
            /\ unreadable (files w) (get_or "source" EmptyString (rd_metadata doc))) docs ->
  PrimFloat.ltb 0%float (GROUNDING_THRESHOLD (self w)) = true ->
  exists rv,
    verify_response md5_hexdigest query response docs w = (Py.Returns rv, w)
    /\ sources_used rv = map (fun doc => unread md5_hexdigest (rd_metadata doc)) docs
    /\ is_grounded rv = false
    /\ hallucination_risk rv = "HIGH"%string
    /\ verified_sources (verification_details rv) = 0
    /\ total_exact_matches (verification_details rv) = 0.
Proof.
  intros Hall Hg.
  pose proof (verify_each_unreadable md5_hexdigest response docs w Hall) as Hrun.
  eexists. split.
  { unfold verify_response, Py.bind at 1. rewrite Hrun. reflexivity. }
  cbn [sources_used is_grounded hallucination_risk verification_details
         verified_sources total_exact_matches].
  set (svs := map (fun doc => unread md5_hexdigest (rd_metadata doc)) docs).
  assert (Hcount : count_verified svs = 0).
  { unfold svs, count_verified. clear. induction docs as [|doc docs IH]; [reflexivity|].
    cbn [map]. rewrite filter_cons. cbn. destruct (decide False) as [[]|_]. exact IH. }
  assert (Hscore : forall c, PrimFloat.ltb 0%float c = true -> fgt (total_score_of svs) c = false).
  { intros c Hc. unfold total_score_of. destruct svs as [|sv svs'] eqn:E.
    - unfold fgt. cbn. change (0 / 1)%float with 0%float.
      rewrite ltb_spec in Hc |- *. unfold SFltb in *.
      change (Prim2SF 0%float) with (S754_zero false) in *.
      destruct (Prim2SF c) as [sc|sc| |sc mc ec]; cbn in *; try discriminate; try reflexivity;
        destruct sc; cbn in *; try discriminate; reflexivity.
    - rewrite <- E. unfold svs. rewrite map_map. cbn [unread verification_confidence].
      replace (map (fun _ : RelevantDoc => (lit 0.0 : float)) docs)
        with (repeat (lit 0.0 : float) (length docs)).
      + rewrite fsum_zeros. apply fgt_zero_quotient, Hc.
      + clear. induction docs as [|doc docs IH]; [reflexivity|].
        cbn [repeat map length]. f_equal. exact IH. }
  split; [reflexivity|].
  split; [rewrite (Hscore _ Hg); reflexivity|].
  split; [rewrite !Hscore by reflexivity; reflexivity|].
  split; [exact Hcount|].
  unfold svs. clear. induction docs; cbn; auto.
Qed.

(** X11 (risk and grounding agree).  For a verifier with the thresholds
    of [__init__], on doubles: an answer of ["LOW"] risk is grounded, a
    grounded answer is never of ["HIGH"] risk, and an answer of ["HIGH"]
    risk is not grounded. *)
Theorem low_risk_is_grounded md5_hexdigest (e : @Embedder float) cache fs query response docs :
  exists rv w',
    verify_response md5_hexdigest query response docs
      {| self := set_cache cache (__init__ e); files := fs |} = (Py.Returns rv, w')
    /\ (hallucination_risk rv = "LOW"%string -> is_grounded rv = true)
    /\ (is_grounded rv = true -> hallucination_risk rv <> "HIGH"%string)
    /\ (hallucination_risk rv = "HIGH"%string -> is_grounded rv = false).
Proof.
  destruct (verify_response_returns md5_hexdigest query response docs
              {| self := set_cache cache (__init__ e); files := fs |})
    as (svs & w' & _ & _ & (_ & _ & _ & Hg) & Hres).
  eexists _, w'. split; [exact Hres|].
  cbn [hallucination_risk is_grounded].
  set (ts := total_score_of svs). set (vr := verification_ratio_of svs).
  replace (fgt ts (GROUNDING_THRESHOLD (self w'))) with (fgt ts (lit 0.6))
    by (rewrite Hg; reflexivity).
  assert (H86 : fgt ts (lit 0.8) = true -> fgt ts (lit 0.6) = true).
  { unfold fgt. cbn [flt binary64]. apply float_ltb_trans. vm_compute. reflexivity. }
  assert (H65 : fgt ts (lit 0.6) = true -> fgt ts (lit 0.5) = true).
  { unfold fgt. cbn [flt binary64]. apply float_ltb_trans. vm_compute. reflexivity. }
  assert (H63 : fgt vr (lit 0.6) = true -> fgt vr (lit 0.3) = true).
  { unfold fgt. cbn [flt binary64]. apply float_ltb_trans. vm_compute. reflexivity. }
  destruct (fgt ts (lit 0.8)) eqn:E8, (fgt vr (lit 0.6)) eqn:E6,
           (fgt ts (lit 0.6)) eqn:E66, (fgt ts (lit 0.5)) eqn:E5, (fgt vr (lit 0.3)) eqn:E3;
    try (specialize (H86 eq_refl); discriminate H86);
    try (specialize (H65 eq_refl); discriminate H65);
    try (specialize (H63 eq_refl); discriminate H63);
    cbn; repeat split; intros; congruence.
Qed.

(** *** The words of the matches *)

Lemma map_chars_map_chars f g s :
  Str.map_chars f (Str.map_chars g s) = Str.map_chars (fun c => f (g c)) s.
Proof. induction s as [|c s IH]; [reflexivity|]. cbn. rewrite IH. reflexivity. Qed.

Lemma map_chars_ext f g s :
  (forall c, f c = g c) -> Str.map_chars f s = Str.map_chars g s.
Proof. intros E. induction s as [|c s IH]; [reflexivity|]. cbn. rewrite E, IH. reflexivity. Qed.

Lemma normalized_lower s : normalized (Str.lower s) = normalized s.
Proof.
  unfold normalized, Str.lower, Str.strip_punctuation. rewrite !map_chars_map_chars.
  apply map_chars_ext. intros c.
  destruct c as [[] [] [] [] [] [] [] []]; vm_compute; reflexivity.
Qed.

Lemma normalized_strip_punctuation s : normalized (Str.strip_punctuation s) = normalized s.
Proof.
  unfold normalized, Str.lower, Str.strip_punctuation. rewrite !map_chars_map_chars.
  apply map_chars_ext. intros c.
  destruct c as [[] [] [] [] [] [] [] []]; vm_compute; reflexivity.
Qed.

Lemma _find_exact_matches_normalized r s :
  _find_exact_matches r s
  = list_set (flat_map (phrases_found (Str.split (normalized r)) (Str.split (normalized s)))
                (Py.range 3 6)).
Proof. reflexivity. Qed.

(** X13 (case and punctuation).  On ASCII texts, the exact-match evidence
    does not change when the response or the source is put in lower case,
    or has its punctuation replaced by spaces, before the call. *)
Theorem matches_ignore_case_and_punctuation response source_content :
  is_ascii response = true ->
  is_ascii source_content = true ->
  _find_exact_matches (Str.lower response) source_content
    = _find_exact_matches response source_content
  /\ _find_exact_matches response (Str.lower source_content)
    = _find_exact_matches response source_content
  /\ _find_exact_matches (Str.strip_punctuation response) source_content
    = _find_exact_matches response source_content
  /\ _find_exact_matches response (Str.strip_punctuation source_content)
    = _find_exact_matches response source_content.
Proof.
  intros _ _.
  rewrite !_find_exact_matches_normalized, !normalized_lower, !normalized_strip_punctuation.
  repeat split.
Qed.

Lemma join_two_nonempty w w' ws : Str.join (w :: w' :: ws) <> EmptyString.
Proof.
  rewrite join_cons by discriminate. destruct w; cbn; discriminate.
Qed.

Lemma contains_empty p : Str.contains EmptyString p = true -> p = EmptyString.
Proof. destruct p; [reflexivity | cbn; discriminate]. Qed.

Lemma flat_map_nil {A B} (f : A -> list B) xs :
  (forall x, In x xs -> f x = []) -> flat_map f xs = [].
Proof.
  induction xs as [|x xs IH]; [reflexivity|]. intros Hf. cbn.
  rewrite (Hf x) by (left; reflexivity). apply IH. intros y Hy. apply Hf. right. exact Hy.
Qed.

(** X14 (too few words).  A response of fewer than three words, or a
    source without a word, has no exact match. *)
Theorem no_match_without_three_words response source_content :
  length (Str.split (normalized response)) < 3
  \/ Str.split (normalized source_content) = [] ->
  _find_exact_matches response source_content = [].
Proof.
  intros Hshort. rewrite _find_exact_matches_normalized.
  set (rw := Str.split (normalized response)) in *.
  set (sw := Str.split (normalized source_content)) in *.
  replace (flat_map (phrases_found rw sw) (Py.range 3 6)) with (@nil string); [reflexivity|].
  symmetry. apply flat_map_nil. intros L HL. apply in_range_3_6 in HL.
  unfold phrases_found. apply flat_map_nil. intros i Hi.
  unfold Py.range in Hi. apply in_seq in Hi.
  destruct Hshort as [Hlen | Hsw]; [lia|].
  rewrite Hsw. cbn [Str.join].
  destruct (Str.contains EmptyString _) eqn:E; [|reflexivity].
  apply contains_empty in E. exfalso.
  assert (Hl : length (Py.slice rw i (i + L)) = L).
  { rewrite BatchEmbeddingProcessorSpec.length_slice by lia. lia. }
  destruct (Py.slice rw i (i + L)) as [|w [|w' ws]]; cbn in Hl; try lia.
  exact (join_two_nonempty w w' ws E).
Qed.

Lemma all_chars_app p a b :
  all_chars p (String.append a b) = all_chars p a && all_chars p b.
Proof.
  induction a as [|c a IH]; [reflexivity|].
  rewrite append_cons. cbn. rewrite IH, andb_assoc. reflexivity.
Qed.

Lemma all_chars_weaken (p q : ascii -> bool) s :
  (forall c, p c = true -> q c = true) -> all_chars p s = true -> all_chars q s = true.
Proof.
  intros Hpq. induction s as [|c s IH]; [reflexivity|]. cbn.
  rewrite !andb_true_iff. intros [Hc Hs]. auto.
Qed.

Lemma split_from_wordlike p s : forall word,
  all_chars p s = true ->
  all_chars (fun c => p c && negb (Str.is_space c)) word = true ->
  Forall (wordlike p) (Str.split_from word s).
Proof.
  induction s as [|c s IH]; intros word Hs Hw; cbn [Str.split_from].
  - destruct word; cbn; constructor; [|constructor]. split; [discriminate | exact Hw].
  - cbn in Hs. apply andb_true_iff in Hs. destruct Hs as [Hc Hs].
    destruct (Str.is_space c) eqn:E.
    + apply Forall_app. split.
      * destruct word; cbn; constructor; [|constructor]. split; [discriminate | exact Hw].
      * apply IH; [exact Hs | reflexivity].
    + apply IH; [exact Hs|]. rewrite all_chars_app, Hw. cbn. rewrite Hc, E. reflexivity.
Qed.

Lemma split_from_word p w : forall acc s,
  all_chars (fun c => p c && negb (Str.is_space c)) w = true ->
  Str.split_from acc (String.append w s) = Str.split_from (String.append acc w) s.
Proof.
  induction w as [|c w IH]; intros acc s Hw.
  - rewrite append_nil_l, append_empty_r. reflexivity.
  - cbn in Hw. rewrite !andb_true_iff, negb_true_iff in Hw. destruct Hw as [[_ Hc] Hw].
    rewrite append_cons. cbn [Str.split_from]. rewrite Hc.
    rewrite IH by exact Hw. rewrite append_assoc. reflexivity.
Qed.

Lemma split_join p ws :
  Forall (wordlike p) ws -> Str.split (Str.join ws) = ws.
Proof.
  unfold Str.split. induction 1 as [|w ws [Hne Hw] Hws IH]; [reflexivity|].
  destruct ws as [|w' ws].
  - cbn [Str.join]. rewrite <- (append_empty_r w) at 1.
    rewrite (split_from_word p) by exact Hw. rewrite append_nil_l. cbn.
    destruct w; [congruence | reflexivity].
  - rewrite join_cons by discriminate.
    rewrite (split_from_word p) by exact Hw. rewrite append_nil_l.
    cbn [Str.split_from]. change (Str.is_space " ") with true. cbv iota.
    rewrite IH. destruct w; [congruence | reflexivity].
Qed.

Lemma join_all_chars p ws :
  Forall (wordlike p) ws ->
  all_chars (fun c => p c && negb (Str.is_space c) || Ascii.eqb c " ") (Str.join ws) = true.
Proof.
  induction 1 as [|w ws [_ Hw] Hws IH]; [reflexivity|].
  assert (Hw' : all_chars (fun c => p c && negb (Str.is_space c) || Ascii.eqb c " ") w = true).
  { revert Hw. apply all_chars_weaken. intros c ->. reflexivity. }
  destruct ws as [|w' ws]; [exact Hw'|].
  rewrite join_cons by discriminate. rewrite all_chars_app, Hw'. cbn [all_chars andb].
  rewrite IH. rewrite orb_true_r. reflexivity.
Qed.

Lemma map_chars_fixed (q : ascii -> bool) f s :
  (forall c, q c = true -> f c = c) -> all_chars q s = true -> Str.map_chars f s = s.
Proof.
  intros Hq. induction s as [|c s IH]; [reflexivity|]. cbn.
  rewrite andb_true_iff. intros [Hc Hs]. rewrite (Hq c Hc), (IH Hs). reflexivity.
Qed.

Lemma normalized_chars s :
  all_chars (fun c => is_lower_word c || Str.is_space c) (normalized s) = true.
Proof.
  unfold normalized, Str.lower, Str.strip_punctuation. rewrite map_chars_map_chars.
  induction s as [|c s IH]; [reflexivity|]. cbn [Str.map_chars all_chars].
  rewrite IH, andb_true_r.
  destruct c as [[] [] [] [] [] [] [] []]; vm_compute; reflexivity.
Qed.

Lemma normalized_words s :
  Forall (wordlike (fun c => is_lower_word c || Str.is_space c)) (Str.split (normalized s)).
Proof.
  apply split_from_wordlike; [apply normalized_chars | reflexivity].
Qed.

Lemma Forall_slice {A} (P : A -> Prop) xs lo hi :
  Forall P xs -> Forall P (Py.slice xs lo hi).
Proof. intros Hxs. unfold Py.slice. apply Forall_take, Forall_drop, Hxs. Qed.

(** X15 (what a match is made of).  On ASCII texts, every exact match is
    a phrase of three to five words in normal form: lower-case letters,
    digits and underscores, the words separated by single spaces, so that
    normalizing it changes nothing and splitting it gives its words back. *)
Theorem matches_are_normalized_phrases response source_content :
  is_ascii response = true ->
  is_ascii source_content = true ->
  Forall (fun phrase =>
            normalized phrase = phrase
            /\ Str.join (Str.split phrase) = phrase
            /\ 3 <= length (Str.split phrase) <= 5
            /\ all_chars (fun c => is_lower_word c || Ascii.eqb c " ") phrase = true)
         (_find_exact_matches response source_content).
Proof.
  intros _ _.
  apply List.Forall_forall. intros phrase Hin.
  rewrite _find_exact_matches_normalized, in_list_set, in_flat_map in Hin.
  destruct Hin as (L & HL & Hin). apply in_range_3_6 in HL.
  apply in_phrases_found in Hin. destruct Hin as (i & Hi & -> & _).
  set (ws := Py.slice (Str.split (normalized response)) i (i + L)).
  assert (Hws : Forall (wordlike (fun c => is_lower_word c || Str.is_space c)) ws).
  { apply Forall_slice, normalized_words. }
  assert (Hlen : length ws = L).
  { unfold ws. rewrite BatchEmbeddingProcessorSpec.length_slice by lia. lia. }
  pose proof (join_all_chars _ ws Hws) as Hj.
  rewrite (split_join _ ws Hws), Hlen.
  split; [|split; [reflexivity | split; [exact HL|]]].
  - unfold normalized, Str.lower, Str.strip_punctuation. rewrite map_chars_map_chars.
    eapply map_chars_fixed; [|exact Hj].
    intros c. destruct c as [[] [] [] [] [] [] [] []]; vm_compute; intros E;
      try reflexivity; discriminate E.
  - revert Hj. apply all_chars_weaken.
    intros c. destruct c as [[] [] [] [] [] [] [] []]; vm_compute; intros E;
      try reflexivity; discriminate E.
Qed.

(** *** On the small instance *)

(** A file that has been read is not read again. *)
Example cached_source_outlives_its_file :
  let path := "data/raw/diabetes.txt"%string in
  let first := _get_source_content path
                 {| self := __init__ Toy.opposed; files := Toy.one_source |} in
  fst first = Py.Returns "Diabetes is a chronic condition."%string
  /\ fst (_get_source_content path {| self := self (snd first); files := ∅ |})
     = Py.Returns "Diabetes is a chronic condition."%string
  /\ fst (_get_source_content path {| self := __init__ Toy.opposed; files := ∅ |})
     = Py.Returns EmptyString.
Proof. repeat split; vm_compute; reflexivity. Qed.

Lemma unreadable_sources_are_high_risk_witness :
  exists rv,
    verify_response Toy.md5_stub "What is diabetes?" "Eat more fruit" Toy.lost_docs
      {| self := __init__ Toy.opposed; files := ∅ |}
    = (Py.Returns rv, {| self := __init__ Toy.opposed; files := ∅ |})
    /\ sources_used rv
       = map (fun doc => unread Toy.md5_stub (rd_metadata doc)) Toy.lost_docs
    /\ is_grounded rv = false
    /\ hallucination_risk rv = "HIGH"%string
    /\ verified_sources (verification_details rv) = 0
    /\ total_exact_matches (verification_details rv) = 0.
Proof.
  apply (unreadable_sources_are_high_risk Toy.md5_stub "What is diabetes?" "Eat more fruit"
           Toy.lost_docs {| self := __init__ Toy.opposed; files := ∅ |}).
  - repeat constructor.
  - vm_compute. reflexivity.
Defined.

Lemma matches_ignore_case_and_punctuation_witness :
  let response := "Diabetes, IS a Chronic illness!"%string in
  let source_content := "Diabetes is a chronic condition."%string in
  _find_exact_matches (Str.lower response) source_content
    = _find_exact_matches response source_content
  /\ _find_exact_matches response (Str.lower source_content)
    = _find_exact_matches response source_content
  /\ _find_exact_matches (Str.strip_punctuation response) source_content
    = _find_exact_matches response source_content
  /\ _find_exact_matches response (Str.strip_punctuation source_content)
    = _find_exact_matches response source_content.
Proof.
  apply (matches_ignore_case_and_punctuation "Diabetes, IS a Chronic illness!"
           "Diabetes is a chronic condition."); reflexivity.
Defined.

Lemma matches_are_normalized_phrases_witness :
  Forall (fun phrase =>
            normalized phrase = phrase
            /\ Str.join (Str.split phrase) = phrase
            /\ 3 <= length (Str.split phrase) <= 5
            /\ all_chars (fun c => is_lower_word c || Ascii.eqb c " ") phrase = true)
         (_find_exact_matches "Diabetes, IS a Chronic illness!"
            "Diabetes is a chronic condition.").
Proof.
  apply (matches_are_normalized_phrases "Diabetes, IS a Chronic illness!"
           "Diabetes is a chronic condition."); reflexivity.
Defined.

(** The three phrases of that response, whatever its case and its
    punctuation. *)
Example matches_of_a_shouted_response :
  length (_find_exact_matches "Diabetes, IS a Chronic illness!"
            "Diabetes is a chronic condition.") = 3
  /\ In "diabetes is a chronic"%string
        (_find_exact_matches "Diabetes, IS a Chronic illness!"
           "Diabetes is a chronic condition.").
Proof. vm_compute. auto. Qed.

Lemma no_match_without_three_words_witness :
  _find_exact_matches "Drink water." "Drink water every day." = [].
Proof.
  apply (no_match_without_three_words "Drink water." "Drink water every day.").
  left. vm_compute. lia.
Defined.

End RAGVerificationSystemSpec.

(* ===================================================================== *)
(** * The retrieval engine *)
(* ===================================================================== *)

Module RetrievalSpec.

Lemma getitem_in_range {A} (xs : list A) (l : Z) :
  (- 1 <= l < Z.of_nat (length xs))%Z -> xs <> [] ->
  exists x, getitem xs l = Py.Returns x /\ xs !! row_read (length xs) l = Some x.
Proof.
  intros Hl Hne. unfold getitem, row_read.
  assert (0 < length xs) by (destruct xs; [congruence | cbn; lia]).
  destruct (l <? 0)%Z eqn:E.
  - apply Z.ltb_lt in E. assert (l = (-1)%Z) by lia. subst l.
    destruct (Z.ltb_spec (Z.of_nat (length xs) + -1) 0); [lia|].
    destruct (xs !! Z.to_nat (Z.of_nat (length xs) + -1)) as [x|] eqn:En.
    + exists x. split; reflexivity.
    + apply lookup_ge_None in En. lia.
  - apply Z.ltb_ge in E. destruct (Z.ltb_spec l 0); [lia|].
    destruct (xs !! Z.to_nat l) as [x|] eqn:En.
    + exists x. split; reflexivity.
    + apply lookup_ge_None in En. lia.
Qed.

Lemma collect_in_range {Meta Score R} (entry : Score -> Z -> Meta -> R)
  (metadata : list Meta) (hits : list (Score * Z)) :
  metadata <> [] ->
  Forall (fun h => (- 1 <= snd h < Z.of_nat (length metadata))%Z) hits ->
  forall results,
  exists new,
    collect entry metadata hits results = Py.Returns (results ++ new)
    /\ Forall2 (fun h r => exists m,
                  metadata !! row_read (length metadata) (snd h) = Some m
                  /\ r = entry (fst h) (snd h) m) hits new.
Proof.
  intros Hne Hall. induction Hall as [|[s l] hits Hl Hall IH]; intros results.
  - exists []. split; [cbn; now rewrite app_nil_r | constructor].
  - cbn [collect]. cbn [snd] in Hl.
    destruct (Z.ltb_spec l (Z.of_nat (length metadata))); [|lia].
    destruct (getitem_in_range metadata l Hl Hne) as (m & -> & Hm).
    destruct (IH (results ++ [entry s l m])) as (new & -> & Hnew).
    exists (entry s l m :: new). split; [now rewrite <- app_assoc|].
    constructor; [|exact Hnew]. exists m. split; [exact Hm | reflexivity].
Qed.

Lemma padded_in_range {Score} n k (hits : list (Score * Z)) :
  0 < n -> padded n k hits ->
  Forall (fun h => (- 1 <= snd h < Z.of_nat n)%Z) hits.
Proof.
  intros Hn [_ Hp]. apply Forall_lookup_2. intros i [s l] Hi. cbn.
  specialize (Hp i s l Hi). destruct (i <? Nat.min k n); lia.
Qed.

Lemma collect_padded {Meta Score R} (entry : Score -> Z -> Meta -> R)
  (metadata : list Meta) k (hits : list (Score * Z)) :
  metadata <> [] ->
  padded (length metadata) k hits ->
  exists results,
    collect entry metadata hits [] = Py.Returns results
    /\ length results = k
    /\ (forall i s l, hits !! i = Some (s, l) ->
          exists m, results !! i = Some (entry s l m)
                    /\ metadata !! row_read (length metadata) l = Some m)
    /\ (forall i s l, hits !! i = Some (s, l) -> Nat.min k (length metadata) <= i ->
          exists m, results !! i = Some (entry s (-1)%Z m) /\ last metadata = Some m).
Proof.
  intros Hne Hp.
  assert (Hn : 0 < length metadata) by (destruct metadata; [congruence | cbn; lia]).
  destruct (collect_in_range entry metadata hits Hne
              (padded_in_range _ _ _ Hn Hp) []) as (results & Hrun & Hres).
  cbn [app] in Hrun. exists results. split; [exact Hrun|].
  assert (Hlen : length results = k).
  { rewrite <- (Forall2_length _ _ _ Hres). exact (proj1 Hp). }
  assert (Hat : forall i s l, hits !! i = Some (s, l) ->
          exists m, results !! i = Some (entry s l m)
                    /\ metadata !! row_read (length metadata) l = Some m).
  { intros i s l Hi.
    destruct (Forall2_lookup_l _ _ _ _ _ Hres Hi) as (r & Hr & m & Hm & ->).
    exists m. split; [exact Hr | exact Hm]. }
  split; [exact Hlen|]. split; [exact Hat|].
  intros i s l Hi Hi'. destruct (Hat i s l Hi) as (m & Hr & Hm).
  pose proof (proj2 Hp i s l Hi) as Hl.
  destruct (Nat.ltb_spec i (Nat.min k (length metadata))); [lia|]. subst l.
  exists m. split; [exact Hr|].
  unfold row_read in Hm. cbn in Hm.
  rewrite last_lookup.
  replace (Init.Nat.pred (length metadata))
    with (Z.to_nat (Z.of_nat (length metadata) + -1)) by lia.
  exact Hm.
Qed.

Section Search.

Context {Index Vec Meta Score : Type}.
Context (faiss_search : Index -> Vec -> nat -> list (Score * Z)).
Context (hub : string -> string -> Vec).

Lemma search_not_ready query k (o : @HealthVectorStore.t Index Vec Meta) :
  HealthVectorStore.faiss_index o = None ->
  HealthVectorStore.search faiss_search hub query k o = (Py.Raises Py.ValueError, o).
Proof.
  intros Hn. unfold HealthVectorStore.search, Py.bind, Py.get. rewrite Hn. reflexivity.
Qed.

Lemma search_relevant_documents_not_ready query k (o : @HealthRAGSystem.t Index Vec Meta) :
  HealthRAGSystem.faiss_index o = None ->
  HealthRAGSystem.search_relevant_documents faiss_search query k o
  = (Py.Raises Py.ValueError, o).
Proof.
  intros Hn. unfold HealthRAGSystem.search_relevant_documents, Py.bind, Py.get.
  rewrite Hn. reflexivity.
Qed.

(** C10, where it fails.  On an index that FAISS pads (it returns [k]
    pairs, those beyond the rows of the index labelled [-1]) and a metadata
    list as long as the index and not empty, both search methods return
    exactly [k] results, also when the index has fewer than [k] rows: the
    guard [idx < len(self.metadata)] lets the label [-1] through, and
    [self.metadata[-1]] is the last entry, so each padded result carries
    the metadata of the last row.  Before the index is loaded both raise
    [ValueError]. *)
Theorem search_pads_to_k query k index
  (o : @HealthVectorStore.t Index Vec Meta) (r : @HealthRAGSystem.t Index Vec Meta) :
  HealthVectorStore.metadata o <> [] ->
  HealthRAGSystem.metadata r = HealthVectorStore.metadata o ->
  (forall x, padded (length (HealthVectorStore.metadata o)) k (faiss_search index x k)) ->
  let n := length (HealthVectorStore.metadata o) in
  (forall o0 : @HealthVectorStore.t Index Vec Meta,
     HealthVectorStore.faiss_index o0 = None ->
     HealthVectorStore.search faiss_search hub query k o0 = (Py.Raises Py.ValueError, o0))
  /\ (forall r0 : @HealthRAGSystem.t Index Vec Meta,
       HealthRAGSystem.faiss_index r0 = None ->
       HealthRAGSystem.search_relevant_documents faiss_search query k r0
       = (Py.Raises Py.ValueError, r0))
  /\ (HealthVectorStore.faiss_index o = Some index ->
      exists results o',
        HealthVectorStore.search faiss_search hub query k o = (Py.Returns results, o')
        /\ length results = k
        /\ forall i, Nat.min k n <= i < k ->
             exists s m, results !! i = Some (s, m)
                         /\ last (HealthVectorStore.metadata o) = Some m)
  /\ (HealthRAGSystem.faiss_index r = Some index ->
      forall encode_query, HealthRAGSystem.embedder r = Some encode_query ->
      exists results,
        HealthRAGSystem.search_relevant_documents faiss_search query k r
        = (Py.Returns results, r)
        /\ length results = k
        /\ forall i, Nat.min k n <= i < k ->
             exists s m, results !! i
                         = Some {| HealthRAGSystem.score := s;
                                   HealthRAGSystem.hit_metadata := m;
                                   HealthRAGSystem.index := (-1)%Z |}
                         /\ last (HealthVectorStore.metadata o) = Some m).
Proof.
  intros Hne Hsame Hpad n.
  split; [intros o0; apply search_not_ready|].
  split; [intros r0; apply search_relevant_documents_not_ready|].
  split.
  - intros Hix.
    unfold HealthVectorStore.search, Py.bind at 1, Py.get. rewrite Hix.
    unfold Py.bind at 1.
    set (o1 := snd (match HealthVectorStore.embedder o with
                    | Some _ => Py.ret tt
                    | None => HealthVectorStore.load_embedding_model hub
                    end o)).
    assert (Hstep : match HealthVectorStore.embedder o with
                    | Some _ => Py.ret tt
                    | None => HealthVectorStore.load_embedding_model hub
                    end o = (Py.Returns tt, o1)
                    /\ HealthVectorStore.metadata o1 = HealthVectorStore.metadata o
                    /\ exists enc, HealthVectorStore.embedder o1 = Some enc).
    { unfold o1. destruct (HealthVectorStore.embedder o) eqn:E; cbn.
      - rewrite E. eauto.
      - eauto. }
    destruct Hstep as (-> & Hm & enc & Henc).
    unfold Py.bind, Py.get. rewrite Henc, Hm.
    destruct (collect_padded HealthVectorStore.entry (HealthVectorStore.metadata o) k
                (faiss_search index (enc query) k) Hne (Hpad _))
      as (results & Hrun & Hlen & _ & Hlast).
    exists results, o1. split; [now rewrite Hrun|]. split; [exact Hlen|].
    intros i Hi.
    destruct (lookup_lt_is_Some_2 (faiss_search index (enc query) k) i) as [[s l] Hl].
    { rewrite (proj1 (Hpad _)). lia. }
    destruct (Hlast i s l Hl ltac:(lia)) as (m & Hr & Hm').
    exists s, m. split; [exact Hr | exact Hm'].
  - intros Hix enc Henc.
    unfold HealthRAGSystem.search_relevant_documents, Py.bind, Py.get.
    rewrite Hix, Henc, Hsame.
    destruct (collect_padded HealthRAGSystem.entry (HealthVectorStore.metadata o) k
                (faiss_search index (enc query) k) Hne (Hpad _))
      as (results & Hrun & Hlen & _ & Hlast).
    exists results. split; [now rewrite Hrun|]. split; [exact Hlen|].
    intros i Hi.
    destruct (lookup_lt_is_Some_2 (faiss_search index (enc query) k) i) as [[s l] Hl].
    { rewrite (proj1 (Hpad _)). lia. }
    destruct (Hlast i s l Hl ltac:(lia)) as (m & Hr & Hm').
    exists s, m. split; [exact Hr | exact Hm'].
Qed.

End Search.

(** *** An index of one row, asked for two results *)

Example search_one_row_for_two :
  fst (HealthVectorStore.search Toy.faiss_search Toy.query_hub "thirst" 2 Toy.one_row_store)
  = Py.Returns [(0%Z, "diabetes.txt"%string); (Toy.FLT_MAX, "diabetes.txt"%string)]
  /\ fst (HealthRAGSystem.search_relevant_documents Toy.faiss_search "thirst" 2 Toy.one_row_rag)
     = Py.Returns
         [ {| HealthRAGSystem.score := 0%Z;
              HealthRAGSystem.hit_metadata := "diabetes.txt"%string;
              HealthRAGSystem.index := 0%Z |};
           {| HealthRAGSystem.score := Toy.FLT_MAX;
              HealthRAGSystem.hit_metadata := "diabetes.txt"%string;
              HealthRAGSystem.index := (-1)%Z |} ].
Proof. split; vm_compute; reflexivity. Qed.

Lemma toy_search_padded x : padded 1 2 (Toy.faiss_search 1 x 2).
Proof.
  split; [reflexivity|].
  intros i s l Hi. destruct i as [|[|i]]; cbn in Hi; inversion Hi; subst; cbn; lia.
Qed.

Lemma search_pads_to_k_witness :
  exists results o',
    HealthVectorStore.search Toy.faiss_search Toy.query_hub "thirst" 2 Toy.one_row_store
    = (Py.Returns results, o')
    /\ length results = 2
    /\ forall i, Nat.min 2 1 <= i < 2 ->
         exists s m, results !! i = Some (s, m)
                     /\ last ["diabetes.txt"%string] = Some m.
Proof.
  refine (proj1 (proj2 (proj2 (search_pads_to_k Toy.faiss_search Toy.query_hub "thirst" 2 1
            Toy.one_row_store Toy.one_row_rag _ _ _))) _).
  - discriminate.
  - reflexivity.
  - exact toy_search_padded.
  - reflexivity.
Defined.

(** *** The guard of the result loop *)

Lemma collect_kept {Meta Score R} (entry : Score -> Z -> Meta -> R)
  (metadata : list Meta) (hits : list (Score * Z)) :
  metadata <> [] ->
  Forall (fun h => (- 1 <= snd h)%Z) hits ->
  forall results,
  exists new,
    collect entry metadata hits results = Py.Returns (results ++ new)
    /\ Forall2 (fun h r => exists m,
                  metadata !! row_read (length metadata) (snd h) = Some m
                  /\ r = entry (fst h) (snd h) m) (kept (length metadata) hits) new.
Proof.
  intros Hne Hall. induction Hall as [|[s l] hits Hl Hall IH]; intros results.
  - exists []. split; [cbn; now rewrite app_nil_r | constructor].
  - cbn [collect kept List.filter snd]. cbn [snd] in Hl.
    destruct (Z.ltb_spec l (Z.of_nat (length metadata))) as [Hlt | Hge].
    + destruct (getitem_in_range metadata l ltac:(lia) Hne) as (m & -> & Hm).
      destruct (IH (results ++ [entry s l m])) as (new & -> & Hnew).
      exists (entry s l m :: new). split; [now rewrite <- app_assoc|].
      constructor; [|exact Hnew]. exists m. split; [exact Hm | reflexivity].
    + apply IH.
Qed.

Lemma collect_without_metadata {Meta Score R} (entry : Score -> Z -> Meta -> R)
  (hits : list (Score * Z)) :
  forall results,
  collect entry [] hits results
  = if existsb (fun h => (snd h <? 0)%Z) hits
    then Py.Raises Py.IndexError else Py.Returns results.
Proof.
  induction hits as [|[s l] hits IH]; intros results; [reflexivity|].
  cbn [collect existsb snd length]. change (Z.of_nat 0) with 0%Z.
  destruct (Z.ltb_spec l 0) as [Hlt | Hge]; cbn [orb].
  - unfold getitem. cbn [length]. change (Z.of_nat 0) with 0%Z.
    destruct (Z.ltb_spec l 0); [|lia].
    destruct (Z.ltb_spec (0 + l) 0); [reflexivity | lia].
  - apply IH.
Qed.

Section Guard.

Context {Index Vec Meta Score : Type}.
Context (faiss_search : Index -> Vec -> nat -> list (Score * Z)).
Context (hub : string -> string -> Vec).

Lemma search_loads_the_embedder query k index (o : @HealthVectorStore.t Index Vec Meta) :
  HealthVectorStore.faiss_index o = Some index ->
  exists enc o',
    HealthVectorStore.embedder o' = Some enc
    /\ (HealthVectorStore.embedder o = None ->
        enc = hub (HealthVectorStore.model_name o))
    /\ (forall enc0, HealthVectorStore.embedder o = Some enc0 -> enc = enc0 /\ o' = o)
    /\ HealthVectorStore.model_name o' = HealthVectorStore.model_name o
    /\ HealthVectorStore.faiss_index o' = Some index
    /\ HealthVectorStore.metadata o' = HealthVectorStore.metadata o
    /\ HealthVectorStore.search faiss_search hub query k o
       = (collect HealthVectorStore.entry (HealthVectorStore.metadata o)
            (faiss_search index (enc query) k) [], o').
Proof.
  intros Hix.
  unfold HealthVectorStore.search, Py.bind at 1, Py.get. rewrite Hix.
  unfold Py.bind at 1.
  destruct (HealthVectorStore.embedder o) as [enc0|] eqn:E.
  - exists enc0, o. cbn. unfold Py.bind, Py.get. rewrite E.
    split; [reflexivity|]. split; [discriminate|].
    split; [intros ? [= <-]; auto|]. auto.
  - exists (hub (HealthVectorStore.model_name o)),
           {| HealthVectorStore.model_name := HealthVectorStore.model_name o;
              HealthVectorStore.embedder := Some (hub (HealthVectorStore.model_name o));
              HealthVectorStore.faiss_index := HealthVectorStore.faiss_index o;
              HealthVectorStore.metadata := HealthVectorStore.metadata o |}.
    cbn. split; [reflexivity|]. split; [reflexivity|].
    split; [discriminate|]. auto.
Qed.

(** X16 (labels beyond the metadata).  On a store or system whose
    metadata is not empty, for every result of the index search whose
    labels are at least [-1]: both search methods return, in rank order,
    one result for each hit whose label is below the length of the
    metadata, with the score of the hit and the metadata entry that the
    label reads; the hits that name a row beyond the metadata are dropped
    without an error. *)
Theorem search_keeps_the_labels_below_len query k index enc
  (o : @HealthVectorStore.t Index Vec Meta) (r : @HealthRAGSystem.t Index Vec Meta) :
  HealthVectorStore.faiss_index o = Some index ->
  HealthVectorStore.embedder o = Some enc ->
  HealthRAGSystem.faiss_index r = Some index ->
  HealthRAGSystem.embedder r = Some enc ->
  HealthRAGSystem.metadata r = HealthVectorStore.metadata o ->
  HealthVectorStore.metadata o <> [] ->
  Forall (fun h => (- 1 <= snd h)%Z) (faiss_search index (enc query) k) ->
  let ms := HealthVectorStore.metadata o in
  let hits := kept (length ms) (faiss_search index (enc query) k) in
  exists results found,
    HealthVectorStore.search faiss_search hub query k o = (Py.Returns results, o)
    /\ HealthRAGSystem.search_relevant_documents faiss_search query k r
       = (Py.Returns found, r)
    /\ Forall2 (fun h res => exists m,
                  ms !! row_read (length ms) (snd h) = Some m
                  /\ res = (fst h, m)) hits results
    /\ Forall2 (fun h hit => exists m,
                  ms !! row_read (length ms) (snd h) = Some m
                  /\ hit = {| HealthRAGSystem.score := fst h;
                              HealthRAGSystem.hit_metadata := m;
                              HealthRAGSystem.index := snd h |}) hits found
    /\ length results = length hits
    /\ length found = length hits
    /\ length hits <= length (faiss_search index (enc query) k).
Proof.
  intros Hix Henc Hrix Hrenc Hsame Hne Hlab ms hits.
  destruct (collect_kept HealthVectorStore.entry ms _ Hne Hlab []) as (results & Hrun & Hres).
  destruct (collect_kept HealthRAGSystem.entry ms _ Hne Hlab []) as (found & Hrun' & Hfound).
  cbn [app] in Hrun, Hrun'.
  exists results, found.
  split.
  { destruct (search_loads_the_embedder query k index o Hix)
      as (enc' & o' & _ & _ & Hsame' & _ & _ & _ & ->).
    destruct (Hsame' enc Henc) as [-> ->]. fold ms. rewrite Hrun. reflexivity. }
  split.
  { unfold HealthRAGSystem.search_relevant_documents, Py.bind, Py.get.
    rewrite Hrix, Hrenc, Hsame. fold ms. rewrite Hrun'. reflexivity. }
  split; [exact Hres|]. split; [exact Hfound|].
  split; [symmetry; exact (Forall2_length _ _ _ Hres)|].
  split; [symmetry; exact (Forall2_length _ _ _ Hfound)|].
  unfold hits, kept. apply List.filter_length_le.
Qed.

(** X17 (no metadata).  On a store or system that has an index and an
    empty metadata list, both search methods return no result when every
    label of the index search is non-negative, and raise [IndexError] as
    soon as one label is negative, as the padding label [-1] is: it passes
    the guard [idx < len(self.metadata)] and indexes the empty list. *)
Theorem search_without_metadata query k index enc
  (o : @HealthVectorStore.t Index Vec Meta) (r : @HealthRAGSystem.t Index Vec Meta) :
  HealthVectorStore.faiss_index o = Some index ->
  HealthVectorStore.embedder o = Some enc ->
  HealthVectorStore.metadata o = [] ->
  HealthRAGSystem.faiss_index r = Some index ->
  HealthRAGSystem.embedder r = Some enc ->
  HealthRAGSystem.metadata r = [] ->
  let padded_hit := existsb (fun h => (snd h <? 0)%Z) (faiss_search index (enc query) k) in
  HealthVectorStore.search faiss_search hub query k o
    = (if padded_hit then Py.Raises Py.IndexError else Py.Returns [], o)
  /\ HealthRAGSystem.search_relevant_documents faiss_search query k r
    = (if padded_hit then Py.Raises Py.IndexError else Py.Returns [], r).
Proof.
  intros Hix Henc Hms Hrix Hrenc Hrms padded_hit. split.
  - destruct (search_loads_the_embedder query k index o Hix)
      as (enc' & o' & _ & _ & Hsame' & _ & _ & _ & ->).
    destruct (Hsame' enc Henc) as [-> ->]. rewrite Hms.
    rewrite collect_without_metadata. fold padded_hit. destruct padded_hit; reflexivity.
  - unfold HealthRAGSystem.search_relevant_documents, Py.bind, Py.get.
    rewrite Hrix, Hrenc, Hrms. rewrite collect_without_metadata. fold padded_hit.
    destruct padded_hit; reflexivity.
Qed.

End Guard.

(** *** An index of two rows, and a metadata list that is shorter *)

Lemma toy_labels (n : nat) x k :
  Forall (fun h : Z * Z => (- 1 <= snd h)%Z) (Toy.faiss_search n x k).
Proof.
  unfold Toy.faiss_search. apply Forall_app. split.
  - apply Forall_map. apply Forall_forall. intros i _. cbn. lia.
  - apply Forall_forall. intros h Hh. apply list_elem_of_In, repeat_spec in Hh.
    subst h. cbn. lia.
Qed.

Lemma search_keeps_the_labels_below_len_witness :
  let hits := kept 1 (Toy.faiss_search 2 "all-MiniLM-L6-v2:thirst" 3) in
  exists results found,
    HealthVectorStore.search Toy.faiss_search Toy.query_hub "thirst" 3
      (Toy.ready_store ["diabetes.txt"%string])
    = (Py.Returns results, Toy.ready_store ["diabetes.txt"%string])
    /\ HealthRAGSystem.search_relevant_documents Toy.faiss_search "thirst" 3
         (Toy.ready_rag ["diabetes.txt"%string])
       = (Py.Returns found, Toy.ready_rag ["diabetes.txt"%string])
    /\ Forall2 (fun h res => exists m,
                  ["diabetes.txt"%string] !! row_read 1 (snd h) = Some m
                  /\ res = (fst h, m)) hits results
    /\ Forall2 (fun h hit => exists m,
                  ["diabetes.txt"%string] !! row_read 1 (snd h) = Some m
                  /\ hit = {| HealthRAGSystem.score := fst h;
                              HealthRAGSystem.hit_metadata := m;
                              HealthRAGSystem.index := snd h |}) hits found
    /\ length results = length hits
    /\ length found = length hits
    /\ length hits <= length (Toy.faiss_search 2 "all-MiniLM-L6-v2:thirst" 3).
Proof.
  refine (search_keeps_the_labels_below_len Toy.faiss_search Toy.query_hub "thirst" 3 2
            (Toy.query_hub "all-MiniLM-L6-v2")
            (Toy.ready_store ["diabetes.txt"%string])
            (Toy.ready_rag ["diabetes.txt"%string]) _ _ _ _ _ _ _).
  - reflexivity.
  - reflexivity.
  - reflexivity.
  - reflexivity.
  - reflexivity.
  - discriminate.
  - apply toy_labels.
Defined.

(** Of the three hits (row 0, row 1, padding), the second is dropped and
    the padding reads the only entry. *)
Example search_beyond_the_metadata :
  fst (HealthVectorStore.search Toy.faiss_search Toy.query_hub "thirst" 3
         (Toy.ready_store ["diabetes.txt"%string]))
  = Py.Returns [(0%Z, "diabetes.txt"%string); (Toy.FLT_MAX, "diabetes.txt"%string)].
Proof. vm_compute. reflexivity. Qed.

Lemma search_without_metadata_witness :
  let padded_hit :=
    existsb (fun h : Z * Z => (snd h <? 0)%Z)
            (Toy.faiss_search 2 "all-MiniLM-L6-v2:thirst" 3) in
  HealthVectorStore.search Toy.faiss_search Toy.query_hub "thirst" 3 (Toy.ready_store [])
    = (if padded_hit then Py.Raises Py.IndexError else Py.Returns [], Toy.ready_store [])
  /\ HealthRAGSystem.search_relevant_documents Toy.faiss_search "thirst" 3 (Toy.ready_rag [])
    = (if padded_hit then Py.Raises Py.IndexError else Py.Returns [], Toy.ready_rag []).
Proof.
  refine (search_without_metadata Toy.faiss_search Toy.query_hub "thirst" 3 2
            (Toy.query_hub "all-MiniLM-L6-v2") (Toy.ready_store []) (Toy.ready_rag [])
            _ _ _ _ _ _); reflexivity.
Defined.

(** Asked for two results the index of two rows does not pad, and the
    search returns nothing; asked for three it pads, and the search
    raises. *)
Example search_with_no_metadata :
  fst (HealthRAGSystem.search_relevant_documents Toy.faiss_search "thirst" 2 (Toy.ready_rag []))
  = Py.Returns []
  /\ fst (HealthRAGSystem.search_relevant_documents Toy.faiss_search "thirst" 3
            (Toy.ready_rag []))
     = Py.Raises Py.IndexError.
Proof. split; vm_compute; reflexivity. Qed.

End RetrievalSpec.

(* ===================================================================== *)
(** * The RAG system *)
(* ===================================================================== *)

Module RagSystemSpec.
Import rag_system.

Section System.

Context {Index Vec Score : Type}.
Context (faiss_search : Index -> Vec -> nat -> list (Score * Z)).
Context (hub : string -> SentenceTransformer Vec).
Context (format_3f : Score -> string).

Local Abbreviation World := (@World Index Vec).
Local Abbreviation t := (@t Index Vec).

Lemma request_loop_outcome (o : t) client query prompt docs max_retries : forall n a,
  a + n = max_retries -> 0 < n ->
  (exists b text,
      a <= b < max_retries
      /\ completions_create client (groq_model o) prompt b = Py.Returns text
      /\ (forall b', a <= b' < b ->
            exists e, completions_create client (groq_model o) prompt b' = Py.Raises e)
      /\ request_loop o client query prompt docs max_retries (seq a n)
         = Py.Returns (Some (answer o query docs b text)))
  \/ (exists e,
        (forall b', a <= b' < max_retries ->
           exists e', completions_create client (groq_model o) prompt b' = Py.Raises e')
        /\ completions_create client (groq_model o) prompt (max_retries - 1) = Py.Raises e
        /\ request_loop (Score := Score) o client query prompt docs max_retries (seq a n)
           = Py.Raises e).
Proof.
  induction n as [|n IH]; intros a Ha Hn; [lia|].
  cbn [seq request_loop].
  destruct (completions_create client (groq_model o) prompt a) as [text|e] eqn:E.
  - left. exists a, text. split; [lia|]. split; [exact E|].
    split; [intros b' Hb'; lia | reflexivity].
  - destruct (Nat.eqb_spec a (max_retries - 1)) as [Hlast | Hmore].
    + right. exists e. split; [|split; [rewrite <- Hlast; exact E | reflexivity]].
      intros b' Hb'. assert (b' = a) by lia. subst b'. eauto.
    + destruct (IH (S a) ltac:(lia) ltac:(lia))
        as [(b & text & Hb & Htext & Hbefore & Hrun) | (e' & Hall & Hlast & Hrun)].
      * left. exists b, text. split; [lia|]. split; [exact Htext|].
        split; [|exact Hrun].
        intros b' Hb'. destruct (Nat.eq_dec b' a) as [->|Hne]; [eauto|].
        apply Hbefore. lia.
      * right. exists e'. split; [|split; [exact Hlast | exact Hrun]].
        intros b' Hb'. destruct (Nat.eq_dec b' a) as [->|Hne]; [eauto|].
        apply Hall. lia.
Qed.

Lemma search_relevant_documents_reads query k (w : World) :
  snd (search_relevant_documents faiss_search query k w) = w.
Proof. reflexivity. Qed.

Lemma generate_response_outcome query max_retries client (w : World) :
  groq_client (self w) = Some client ->
  exists result,
    generate_response faiss_search format_3f query max_retries w = (Py.Returns result, w)
    /\ ((exists e,
           search_relevant_documents faiss_search query 5 w = (Py.Raises e, w)
           /\ result = Some (apologize (self w) query e))
        \/ exists docs,
             search_relevant_documents faiss_search query 5 w = (Py.Returns docs, w)
             /\ let ask := completions_create client (groq_model (self w))
                             (create_health_prompt format_3f query docs) in
                (max_retries = 0 /\ result = None)
                \/ (exists a text,
                      a < max_retries
                      /\ ask a = Py.Returns text
                      /\ (forall b, b < a -> exists e, ask b = Py.Raises e)
                      /\ result = Some (answer (self w) query docs a text))
                \/ (exists e,
                      0 < max_retries
                      /\ (forall b, b < max_retries -> exists e', ask b = Py.Raises e')
                      /\ ask (max_retries - 1) = Py.Raises e
                      /\ result = Some (apologize (self w) query e))).
Proof.
  intros Hc.
  unfold generate_response, Py.bind at 1, Py.get. rewrite Hc.
  unfold Py.try_except, Py.bind at 1.
  destruct (search_relevant_documents faiss_search query 5 w) as [[docs|e] w1] eqn:Es.
  - assert (w1 = w) by (pose proof (search_relevant_documents_reads query 5 w) as Hr;
                        rewrite Es in Hr; exact Hr). subst w1.
    unfold Py.bind, Py.get, call, Py.ret. unfold Py.range. rewrite Nat.sub_0_r.
    destruct max_retries as [|n].
    { eexists. split; [reflexivity|]. right. exists docs. split; [reflexivity|].
      left. split; reflexivity. }
    destruct (request_loop_outcome (self w) client query
                (create_health_prompt format_3f query docs) docs (S n)
                (S n) 0 ltac:(lia) ltac:(lia))
      as [(b & text & Hb & Htext & Hbefore & ->) | (e & Hall & Hlast & ->)].
    + eexists. split; [reflexivity|]. right. exists docs. split; [reflexivity|].
      right. left. exists b, text.
      split; [lia|]. split; [exact Htext|].
      split; [intros b' Hb'; apply Hbefore; lia | reflexivity].
    + eexists. split; [reflexivity|]. right. exists docs. split; [reflexivity|].
      right. right. exists e. split; [lia|].
      split; [intros b Hb; apply Hall; lia|]. split; [exact Hlast | reflexivity].
  - assert (w1 = w) by (pose proof (search_relevant_documents_reads query 5 w) as Hr;
                        rewrite Es in Hr; exact Hr). subst w1.
    unfold Py.bind, Py.get, Py.ret.
    eexists. split; [reflexivity|]. left. exists e. split; reflexivity.
Qed.

(** X18 (an answer, the apology or nothing).  With a Groq client,
    [generate_response] never raises and leaves the system as it is.  When
    the search raises, it returns the apology with no document, and the
    client is not asked.  Otherwise it returns the text of the first
    request that succeeds among the [max_retries] it may make, with the
    number of that attempt, the documents found and their count; the
    apology, with the exception of the last request, when all of them fail;
    and [None] when [max_retries] is 0, since the loop then ends without a
    [return]. *)
Theorem generate_response_answers_or_apologizes query max_retries client (w : World) :
  groq_client (self w) = Some client ->
  exists result,
    generate_response faiss_search format_3f query max_retries w = (Py.Returns result, w)
    /\ ((exists e,
           search_relevant_documents faiss_search query 5 w = (Py.Raises e, w)
           /\ result = Some (apologize (self w) query e))
        \/ exists docs,
             search_relevant_documents faiss_search query 5 w = (Py.Returns docs, w)
             /\ let ask := completions_create client (groq_model (self w))
                             (create_health_prompt format_3f query docs) in
                (max_retries = 0 /\ result = None)
                \/ (exists a text,
                      a < max_retries
                      /\ ask a = Py.Returns text
                      /\ (forall b, b < a -> exists e, ask b = Py.Raises e)
                      /\ result = Some (answer (self w) query docs a text))
                \/ (exists e,
                      0 < max_retries
                      /\ (forall b, b < max_retries -> exists e', ask b = Py.Raises e')
                      /\ ask (max_retries - 1) = Py.Raises e
                      /\ result = Some (apologize (self w) query e))).
Proof. apply generate_response_outcome. Qed.

(** X19 (chat).  [chat] raises [ValueError] on a system without a Groq
    client.  With a client it always returns a text and leaves the system
    as it is: the apology when the index is not loaded, and otherwise the
    apology or the text of one of the first three requests. *)
Theorem chat_always_answers message (w : World) :
  (groq_client (self w) = None ->
   chat faiss_search format_3f message w = (Py.Raises Py.ValueError, w))
  /\ (forall client,
        groq_client (self w) = Some client ->
        exists text,
          chat faiss_search format_3f message w = (Py.Returns text, w)
          /\ (faiss_index (self w) = None -> text = apology)
          /\ (text = apology
              \/ exists docs a,
                   a < 3
                   /\ completions_create client (groq_model (self w))
                        (create_health_prompt format_3f message docs) a
                      = Py.Returns text)).
Proof.
  split.
  - intros Hc. unfold chat, generate_response, Py.bind, Py.get. rewrite Hc. reflexivity.
  - intros client Hc.
    destruct (generate_response_outcome message 3 client w Hc) as (result & Hrun & Hr).
    assert (Hsome : exists r,
              result = Some r
              /\ (faiss_index (self w) = None -> response r = apology)
              /\ (response r = apology
                  \/ exists docs a,
                       a < 3
                       /\ completions_create client (groq_model (self w))
                            (create_health_prompt format_3f message docs) a
                          = Py.Returns (response r))).
    { destruct Hr as [(e & _ & ->) | (docs & Hs & [[Hz _] | [(a & text & Ha & Hask & _ & ->)
                                                            | (e & _ & _ & _ & ->)]])].
      - eexists. split; [reflexivity|]. cbn. auto.
      - discriminate Hz.
      - eexists. split; [reflexivity|]. cbn [response answer]. split.
        + intros Hix. exfalso.
          unfold search_relevant_documents, HealthRAGSystem.search_relevant_documents,
            Py.bind, Py.get in Hs. cbn in Hs. rewrite Hix in Hs. discriminate Hs.
        + right. exists docs, a. split; [exact Ha | exact Hask].
      - eexists. split; [reflexivity|]. cbn. auto. }
    destruct Hsome as (r & -> & Hix & Htext).
    exists (response r). split; [|split; [exact Hix | exact Htext]].
    unfold chat, Py.bind. rewrite Hrun. reflexivity.
Qed.

Lemma load_search_system_cases (w : World) :
  let o := self w in
  let m := hub (model_name o) in
  match faiss_read_index (files w !! index_path o),
        pickle_load (files w !! metadata_path o) with
  | Py.Returns index, Py.Returns ms =>
      load_search_system hub w
      = (Py.Returns tt,
         {| self := set_metadata ms (set_faiss_index (Some index) (set_embedder (Some m) o));
            files := files w |})
  | Py.Returns index, Py.Raises e =>
      load_search_system hub w
      = (Py.Raises e,
         {| self := set_faiss_index (Some index) (set_embedder (Some m) o);
            files := files w |})
  | Py.Raises e, _ =>
      load_search_system hub w
      = (Py.Raises e, {| self := set_embedder (Some m) o; files := files w |})
  end.
Proof.
  cbn zeta. unfold load_search_system, Py.bind, Py.get, on_self, Py.modify, call. cbn.
  destruct (faiss_read_index _) as [index|e]; [|reflexivity].
  destruct (pickle_load _) as [ms|e]; reflexivity.
Qed.

(** X20 (loading is not atomic).  [load_search_system] installs the
    embedder, then the index, then the metadata, and an exception leaves
    what was installed before it: when the index file cannot be read the
    system keeps the index and the metadata it had, with the new embedder;
    when the index is read and the metadata file is not, it has the new
    index beside the metadata it had.  It writes no file. *)
Theorem load_search_system_is_not_atomic (w : World) :
  let o := self w in
  let m := hub (model_name o) in
  (forall e,
     faiss_read_index (files w !! index_path o) = Py.Raises e ->
     load_search_system hub w
     = (Py.Raises e, {| self := set_embedder (Some m) o; files := files w |}))
  /\ (forall index e,
        faiss_read_index (files w !! index_path o) = Py.Returns index ->
        pickle_load (files w !! metadata_path o) = Py.Raises e ->
        load_search_system hub w
        = (Py.Raises e,
           {| self := set_faiss_index (Some index) (set_embedder (Some m) o);
              files := files w |}))
  /\ (forall index ms,
        faiss_read_index (files w !! index_path o) = Py.Returns index ->
        pickle_load (files w !! metadata_path o) = Py.Returns ms ->
        load_search_system hub w
        = (Py.Returns tt,
           {| self := set_metadata ms
                        (set_faiss_index (Some index) (set_embedder (Some m) o));
              files := files w |})).
Proof.
  intros o m. pose proof (load_search_system_cases w) as Hcases. cbn zeta in Hcases.
  fold o m in Hcases.
  split; [|split].
  - intros e He. rewrite He in Hcases. exact Hcases.
  - intros index e Hi He. rewrite Hi, He in Hcases. exact Hcases.
  - intros index ms Hi Hm. rewrite Hi, Hm in Hcases. exact Hcases.
Qed.

End System.

Section Build.

Context {Vec Score : Type}.
Context (hub : string -> SentenceTransformer Vec).
Context (faiss_search : IndexFlatL2 Vec -> Vec -> nat -> list (Score * Z)).

Local Abbreviation Meta := (gmap string string).

Lemma working_directory_index {M} (dk : @BatchEmbeddingProcessor.Disk Vec M) index :
  BatchEmbeddingProcessor.final_vector_index_idx dk = Stored index ->
  working_directory dk !! "vector_index.idx"%string = Some (Stored (IndexFile index)).
Proof.
  intros E. unfold working_directory. rewrite lookup_insert_eq, E. reflexivity.
Qed.

Lemma working_directory_metadata {M} (dk : @BatchEmbeddingProcessor.Disk Vec M) ms :
  BatchEmbeddingProcessor.final_vector_metadata_pkl dk = Stored ms ->
  working_directory dk !! "vector_metadata.pkl"%string = Some (Stored (MetadataPickle ms)).
Proof.
  intros E. unfold working_directory.
  rewrite lookup_insert_ne by discriminate. rewrite lookup_singleton_eq, E. reflexivity.
Qed.

Lemma row_aligned_lookup {M} (m : SentenceTransformer Vec) index (ms : list M) docs i x :
  BatchEmbeddingProcessor.row_aligned m index ms docs ->
  ms !! i = Some x ->
  exists doc,
    docs !! i = Some doc
    /\ x = doc_metadata doc
    /\ xb index !! i = Some (encode_text m (page_content doc)).
Proof.
  intros [Hx ->] Hi. rewrite list_lookup_fmap in Hi.
  destruct (docs !! i) as [doc|] eqn:Ed; [|discriminate].
  injection Hi as <-. exists doc. split; [reflexivity|]. split; [reflexivity|].
  rewrite Hx. unfold BatchEmbeddingProcessor.embed.
  rewrite !list_lookup_fmap, Ed. reflexivity.
Qed.

(** X21 (from the pipeline to the search).  The artifacts that a complete
    run of the batch pipeline leaves in the working directory load into a
    RAG system of the same model and the default paths; its index and its
    metadata have one entry per chunk; and every hit of a search whose
    label names a row of the index carries the metadata of the chunk whose
    embedding that row is, with the score and the label the index gave. *)
Theorem indexed_chunks_are_found name bs B (docs : list (Document Meta)) path resume clock
  (dk : @BatchEmbeddingProcessor.Disk Vec Meta) (o : @rag_system.t (IndexFlatL2 Vec) Vec) :
  0 < B ->
  docs <> [] ->
  resume = false \/ BatchEmbeddingProcessor.dirs dk !! path = None ->
  model_name o = name ->
  index_path o = "vector_index.idx"%string ->
  metadata_path o = "vector_metadata.pkl"%string ->
  exists w_built index w,
    BatchEmbeddingProcessor.process_all_batches hub docs path resume clock
      (BatchEmbeddingProcessor.start name bs B dk) = (Py.Returns tt, w_built)
    /\ load_search_system hub
         {| self := o; files := working_directory (BatchEmbeddingProcessor.disk w_built) |}
       = (Py.Returns tt, w)
    /\ faiss_index (self w) = Some index
    /\ ntotal index = length docs
    /\ length (metadata (self w)) = length docs
    /\ forall query k,
         Forall (fun h => (0 <= snd h < Z.of_nat (ntotal index))%Z)
                (faiss_search index (encode_text (hub name) query) k) ->
         exists hits,
           search_relevant_documents faiss_search query k w = (Py.Returns hits, w)
           /\ Forall2 (fun h hit =>
                         exists doc,
                           docs !! Z.to_nat (snd h) = Some doc
                           /\ xb index !! Z.to_nat (snd h)
                              = Some (encode_text (hub name) (page_content doc))
                           /\ hit = {| HealthRAGSystem.score := fst h;
                                       HealthRAGSystem.hit_metadata := doc_metadata doc;
                                       HealthRAGSystem.index := snd h |})
                      (faiss_search index (encode_text (hub name) query) k) hits.
Proof.
  intros HB Hdocs Hfresh Hname Hip Hmp.
  destruct (BatchEmbeddingProcessorSpec.uninterrupted_outcome hub name bs B docs path resume
              clock dk HB Hdocs Hfresh)
    as (wb & index & ms & Hrun & Hfi & Hfm & _ & _ & _ & Hal).
  pose proof (BatchEmbeddingProcessorSpec.row_aligned_length _ _ _ _ Hal) as Hn.
  assert (Hms : length ms = length docs).
  { destruct Hal as [_ ->]. apply length_map. }
  pose proof (load_search_system_cases hub
                {| self := o;
                   files := working_directory (BatchEmbeddingProcessor.disk wb) |})
    as Hload.
  cbn [self files] in Hload. cbn zeta in Hload.
  rewrite Hip, Hmp in Hload.
  rewrite (working_directory_index _ _ Hfi), (working_directory_metadata _ _ Hfm) in Hload.
  cbn [faiss_read_index pickle_load] in Hload.
  eexists wb, index, _. split; [exact Hrun|]. split; [exact Hload|].
  cbn [self faiss_index metadata set_metadata set_faiss_index set_embedder].
  split; [reflexivity|]. split; [congruence|]. split; [exact Hms|].
  intros query k Hlab.
  assert (Hne : ms <> []).
  { intros ->. cbn in Hms. destruct docs; [congruence | discriminate]. }
  assert (Hlab' : Forall (fun h => (- 1 <= snd h < Z.of_nat (length ms))%Z)
                    (faiss_search index (encode_text (hub name) query) k)).
  { eapply Forall_impl; [exact Hlab|]. intros h Hh. cbn beta in Hh. lia. }
  destruct (RetrievalSpec.collect_in_range (@HealthRAGSystem.entry Meta Score) ms _ Hne
              Hlab' [])
    as (hits & Hcollect & Hres).
  cbn [app] in Hcollect.
  exists hits. split.
  - unfold search_relevant_documents,
      HealthRAGSystem.search_relevant_documents, Py.bind, Py.get.
    cbn. rewrite Hname, Hcollect. reflexivity.
  - clear Hcollect. induction Hres as [|h hit hs hits' (m & Hm & ->) _ IH]; [constructor|].
    inversion Hlab as [|? ? Hh Hlab1]; subst.
    inversion Hlab' as [|? ? _ Hlab1']; subst.
    constructor; [|exact (IH Hlab1 Hlab1')].
    unfold row_read in Hm. destruct (Z.ltb_spec (snd h) 0) as [|_]; [lia|].
    destruct (row_aligned_lookup _ _ _ _ _ _ Hal Hm) as (doc & Hd & -> & Hx).
    exists doc. split; [exact Hd|]. split; [exact Hx | reflexivity].
Qed.

End Build.

(** *** Three pages, a client that fails once *)

Lemma generate_response_answers_or_apologizes_witness :
  let w := Toy.loaded_rag (Some Toy.groq) in
  exists result,
    generate_response Toy.flat_search Toy.format_3f "thirst" 3 w = (Py.Returns result, w)
    /\ ((exists e,
           search_relevant_documents Toy.flat_search "thirst" 5 w = (Py.Raises e, w)
           /\ result = Some (apologize (self w) "thirst" e))
        \/ exists docs,
             search_relevant_documents Toy.flat_search "thirst" 5 w = (Py.Returns docs, w)
             /\ let ask := completions_create Toy.groq (groq_model (self w))
                             (create_health_prompt Toy.format_3f "thirst" docs) in
                (3 = 0 /\ result = None)
                \/ (exists a text,
                      a < 3
                      /\ ask a = Py.Returns text
                      /\ (forall b, b < a -> exists e, ask b = Py.Raises e)
                      /\ result = Some (answer (self w) "thirst" docs a text))
                \/ (exists e,
                      0 < 3
                      /\ (forall b, b < 3 -> exists e', ask b = Py.Raises e')
                      /\ ask (3 - 1) = Py.Raises e
                      /\ result = Some (apologize (self w) "thirst" e))).
Proof.
  apply (generate_response_answers_or_apologizes Toy.flat_search Toy.format_3f "thirst" 3
           Toy.groq (Toy.loaded_rag (Some Toy.groq))).
  vm_compute. reflexivity.
Defined.

(** The second request answers; a client that is down gets the apology;
    without any attempt there is no answer. *)
Example second_attempt_answers :
  let w := Toy.loaded_rag (Some Toy.groq) in
  exists r docs,
    fst (generate_response Toy.flat_search Toy.format_3f "thirst" 3 w) = Py.Returns (Some r)
    /\ response r = "Drink water and see a doctor."%string
    /\ response_metadata r
       = Answered "thirst" "llama-3.1-8b-instant" 3 (Some 0%Z) 2 29
    /\ relevant_docs r = docs
    /\ map (@HealthRAGSystem.index _ _) docs = [0%Z; 1%Z; 2%Z]
    /\ fst (chat Toy.flat_search Toy.format_3f "thirst" (Toy.loaded_rag (Some Toy.groq_down)))
       = Py.Returns apology
    /\ fst (generate_response Toy.flat_search Toy.format_3f "thirst" 0 w) = Py.Returns None.
Proof.
  eexists _, _. split; [vm_compute; reflexivity|].
  repeat split; vm_compute; reflexivity.
Qed.

(** The prompt of a question about one page. *)
Example prompt_of_one_page :
  create_health_prompt Toy.format_3f "Is thirst a symptom?"
    [ {| HealthRAGSystem.score := 0%Z;
         HealthRAGSystem.hit_metadata := {[ "source"%string := "data/raw/who/a.txt"%string ]};
         HealthRAGSystem.index := 0%Z |} ]
  = join_lines
      [ "";
        "IMPORTANT MEDICAL DISCLAIMER:";
        "- This is an AI assistant providing general health information";
        "- This is NOT a substitute for professional medical advice, diagnosis, or treatment";
        "- Always consult with qualified healthcare professionals for medical concerns";
        "- In case of medical emergency, call emergency services immediately";
        "- Do not delay seeking professional medical advice based on this information";
        "";
        "";
        "You are a helpful AI health assistant. Based on the provided medical information, please answer the user's health question accurately and responsibly.";
        "";
        "RELEVANT MEDICAL INFORMATION:";
        "[Source 1: WHO Health Guidelines]";
        "Relevance Score: 0.000";
        "File: a.txt";
        "---";
        "";
        "USER QUESTION: Is thirst a symptom?";
        "";
        "INSTRUCTIONS:";
        "1. Provide a clear, accurate answer based on the relevant information above";
        "2. If the information is insufficient, clearly state this limitation";
        "3. Always emphasize the importance of consulting healthcare professionals";
        "4. For emergency symptoms, immediately advise seeking emergency medical care";
        "5. Use clear, accessible language while maintaining medical accuracy";
        "6. Include relevant precautions and when to seek medical attention";
        "";
        "RESPONSE:" ]%string.
Proof. vm_compute. reflexivity. Qed.

Lemma toy_flat_search_labels (index : IndexFlatL2 string) x k :
  Forall (fun h : Z * Z => (0 <= snd h < Z.of_nat (ntotal index))%Z)
         (Toy.flat_search index x k).
Proof.
  unfold Toy.flat_search. apply Forall_map. apply Forall_forall. intros i Hi.
  apply list_elem_of_In, in_seq in Hi. cbn. lia.
Qed.

Lemma indexed_chunks_are_found_witness :
  exists w_built index w,
    BatchEmbeddingProcessor.process_all_batches Toy.hub Toy.pages "checkpoint" true Toy.clock
      (BatchEmbeddingProcessor.start "model-A" 128 2 BatchEmbeddingProcessor.blank_disk)
    = (Py.Returns tt, w_built)
    /\ load_search_system Toy.hub
         {| self := Toy.new_rag None;
            files := working_directory (BatchEmbeddingProcessor.disk w_built) |}
       = (Py.Returns tt, w)
    /\ faiss_index (self w) = Some index
    /\ ntotal index = length Toy.pages
    /\ length (metadata (self w)) = length Toy.pages
    /\ forall query k,
         Forall (fun h => (0 <= snd h < Z.of_nat (ntotal index))%Z)
                (Toy.flat_search index (encode_text (Toy.hub "model-A") query) k) ->
         exists hits,
           search_relevant_documents Toy.flat_search query k w = (Py.Returns hits, w)
           /\ Forall2 (fun h hit =>
                         exists doc,
                           Toy.pages !! Z.to_nat (snd h) = Some doc
                           /\ xb index !! Z.to_nat (snd h)
                              = Some (encode_text (Toy.hub "model-A") (page_content doc))
                           /\ hit = {| HealthRAGSystem.score := fst h;
                                       HealthRAGSystem.hit_metadata := doc_metadata doc;
                                       HealthRAGSystem.index := snd h |})
                      (Toy.flat_search index (encode_text (Toy.hub "model-A") query) k) hits.
Proof.
  refine (indexed_chunks_are_found Toy.hub Toy.flat_search "model-A" 128 2 Toy.pages
            "checkpoint" true Toy.clock BatchEmbeddingProcessor.blank_disk (Toy.new_rag None)
            _ _ _ _ _ _).
  - lia.
  - discriminate.
  - right. reflexivity.
  - reflexivity.
  - reflexivity.
  - reflexivity.
Defined.

End RagSystemSpec.

(* ===================================================================== *)
(** * The vector store *)
(* ===================================================================== *)

Module VectorStoreSpec.
Import embedding_and_vectorstore.

Section Store.

Context {Vec Meta IndexIVFFlat : Type}.
Context (hub : string -> SentenceTransformer Vec).
Context (ivf : nat -> nat -> ndarray Vec -> Py.outcome IndexIVFFlat).

Local Abbreviation World := (@World Vec Meta IndexIVFFlat).
Local Abbreviation t := (@t Vec Meta IndexIVFFlat).
Local Abbreviation Index := (@Index Vec IndexIVFFlat).

Lemma create_vector_store_flat docs name (w : World) :
  create_vector_store hub ivf docs name "flat" w
  = (Py.Returns tt, {| self := flat_store hub name docs; files := files w |}).
Proof.
  unfold create_vector_store, generate_embeddings, load_embedding_model, create_faiss_index,
    on_self, call, Py.bind, Py.get, Py.modify, Py.ret. cbn.
  unfold index_add. cbn. rewrite Nat.eqb_refl. reflexivity.
Qed.

Lemma save_vector_store_writes index_path metadata_path index (w : World) :
  faiss_index (self w) = Some index ->
  save_vector_store index_path metadata_path w
  = (Py.Returns tt,
     {| self := self w;
        files := <[metadata_path := Stored (MetadataPickle (metadata (self w)))]>
                   (<[index_path := Stored (IndexFile index)]> (files w)) |}).
Proof.
  intros Hix. unfold save_vector_store, write, Py.bind, Py.get, Py.modify.
  rewrite Hix. reflexivity.
Qed.

(** X22 (the vector store round trip).  [save_vector_store] changes the
    two files it is given and no other; when the two paths differ,
    [load_vector_store] reads back the index and the metadata that were
    saved, into any store; when the two paths are the same file, the
    metadata has overwritten the index and [load_vector_store] raises,
    leaving the store as it was. *)
Theorem vector_store_round_trip index_path metadata_path index (w : World) :
  faiss_index (self w) = Some index ->
  exists w',
    save_vector_store index_path metadata_path w = (Py.Returns tt, w')
    /\ self w' = self w
    /\ (forall path, path <> index_path -> path <> metadata_path ->
          files w' !! path = files w !! path)
    /\ (index_path <> metadata_path ->
        forall o : t,
          load_vector_store index_path metadata_path {| self := o; files := files w' |}
          = (Py.Returns tt,
             {| self := set_metadata (metadata (self w)) (set_faiss_index (Some index) o);
                files := files w' |}))
    /\ (index_path = metadata_path ->
        forall o : t,
          exists e,
            load_vector_store index_path metadata_path {| self := o; files := files w' |}
            = (Py.Raises e, {| self := o; files := files w' |})).
Proof.
  intros Hix. eexists. split; [apply save_vector_store_writes; exact Hix|].
  cbn [self files]. split; [reflexivity|]. split; [|split].
  - intros path H1 H2. rewrite !lookup_insert_ne by congruence. reflexivity.
  - intros Hne o. unfold load_vector_store, call, on_self, Py.bind, Py.get, Py.modify.
    cbn [files self]. rewrite lookup_insert_ne by congruence. rewrite !lookup_insert_eq.
    reflexivity.
  - intros <- o. exists Py.RuntimeError.
    unfold load_vector_store, call, on_self, Py.bind, Py.get, Py.modify.
    cbn [files self]. rewrite lookup_insert_eq. reflexivity.
Qed.

(** X23 (an unsupported index type).  On a chunk list that is not empty
    and with an index type other than ["flat"] and ["ivf"],
    [create_vector_store] raises [ValueError] once the embeddings are
    computed and the metadata is set: the store it leaves has the metadata
    of every chunk and no index, no file is written, and [save_vector_store]
    on it raises [ValueError]. *)
Theorem store_without_index_is_not_saved docs name index_type index_path metadata_path (w : World) :
  docs <> [] ->
  index_type <> "flat"%string ->
  index_type <> "ivf"%string ->
  exists w',
    create_vector_store hub ivf docs name index_type w = (Py.Raises Py.ValueError, w')
    /\ files w' = files w
    /\ faiss_index (self w') = None
    /\ metadata (self w') = map doc_metadata docs
    /\ save_vector_store index_path metadata_path w' = (Py.Raises Py.ValueError, w').
Proof.
  intros _ Hflat Hivf.
  apply String.eqb_neq in Hflat. apply String.eqb_neq in Hivf.
  eexists. split.
  { unfold create_vector_store, generate_embeddings, load_embedding_model, create_faiss_index,
      on_self, call, Py.bind, Py.get, Py.modify, Py.ret, Py.raise. cbn.
    rewrite Hflat, Hivf. reflexivity. }
  cbn. repeat split.
Qed.

End Store.

Section Agreement.

Context {Vec Meta IndexIVFFlat : Type}.
Context (hub : string -> SentenceTransformer Vec).
Context (ivf : nat -> nat -> ndarray Vec -> Py.outcome IndexIVFFlat).

(** X24 (in batches or in one go).  On a chunk list that is not empty,
    the batch pipeline of [batch_embedding_processor.py] and the one-shot
    [create_vector_store] followed by [save_vector_store], for the same
    model and a flat index, publish the same index under
    ["vector_index.idx"] and the same metadata under
    ["vector_metadata.pkl"], whatever the batch size. *)
Theorem batches_and_one_go_agree name bs B (docs : list (Document Meta)) path resume clock
  (dk : @BatchEmbeddingProcessor.Disk Vec Meta) (w0 : @World Vec Meta IndexIVFFlat) :
  0 < B ->
  docs <> [] ->
  resume = false \/ BatchEmbeddingProcessor.dirs dk !! path = None ->
  exists w_batches w_store index ms,
    BatchEmbeddingProcessor.process_all_batches hub docs path resume clock
      (BatchEmbeddingProcessor.start name bs B dk) = (Py.Returns tt, w_batches)
    /\ (create_vector_store hub ivf docs name "flat" ;;;
        save_vector_store "vector_index.idx" "vector_metadata.pkl")%py w0
       = (Py.Returns tt, w_store)
    /\ BatchEmbeddingProcessor.final_vector_index_idx (BatchEmbeddingProcessor.disk w_batches)
       = Stored index
    /\ BatchEmbeddingProcessor.final_vector_metadata_pkl (BatchEmbeddingProcessor.disk w_batches)
       = Stored ms
    /\ files w_store !! "vector_index.idx"%string = Some (Stored (IndexFile (Flat index)))
    /\ files w_store !! "vector_metadata.pkl"%string = Some (Stored (MetadataPickle ms))
    /\ faiss_index (self w_store) = Some (Flat index)
    /\ metadata (self w_store) = ms
    /\ BatchEmbeddingProcessor.faiss_index (BatchEmbeddingProcessor.self w_batches) = Some index
    /\ BatchEmbeddingProcessor.metadata (BatchEmbeddingProcessor.self w_batches) = ms.
Proof.
  intros HB Hdocs Hfresh.
  destruct (BatchEmbeddingProcessorSpec.uninterrupted_outcome hub name bs B docs path resume
              clock dk HB Hdocs Hfresh)
    as (wb & index & ms & Hrun & Hfi & Hfm & Hix & Hm & Hd & [Hx Hms]).
  assert (Hindex : index = {| d := get_sentence_embedding_dimension (hub name);
                              xb := BatchEmbeddingProcessor.embed (hub name) docs |}).
  { destruct index as [di xi]. cbn in Hd, Hx. congruence. }
  eexists wb, _, index, ms. split; [exact Hrun|]. split.
  { unfold Py.bind at 1. rewrite create_vector_store_flat.
    apply save_vector_store_writes. reflexivity. }
  cbn [self files flat_store faiss_index metadata].
  split; [exact Hfi|]. split; [exact Hfm|].
  split; [rewrite lookup_insert_ne by discriminate; rewrite lookup_insert_eq, Hindex; reflexivity|].
  split; [rewrite lookup_insert_eq, Hms; reflexivity|].
  split; [rewrite Hindex; reflexivity|]. split; [auto|]. split; [exact Hix | exact Hm].
Qed.

End Agreement.

(** *** The three rows *)

Lemma vector_store_round_trip_witness :
  exists w',
    save_vector_store "vector_index.idx" "vector_metadata.pkl" Toy.store_of_three
    = (Py.Returns tt, w')
    /\ self w' = self Toy.store_of_three
    /\ (forall path, path <> "vector_index.idx"%string -> path <> "vector_metadata.pkl"%string ->
          files w' !! path = files Toy.store_of_three !! path)
    /\ ("vector_index.idx"%string <> "vector_metadata.pkl"%string ->
        forall o,
          load_vector_store "vector_index.idx" "vector_metadata.pkl"
            {| self := o; files := files w' |}
          = (Py.Returns tt,
             {| self := set_metadata [0; 1; 2] (set_faiss_index (Some (Flat Toy.three_rows)) o);
                files := files w' |}))
    /\ ("vector_index.idx"%string = "vector_metadata.pkl"%string ->
        forall o,
          exists e,
            load_vector_store "vector_index.idx" "vector_metadata.pkl"
              {| self := o; files := files w' |}
            = (Py.Raises e, {| self := o; files := files w' |})).
Proof.
  apply (vector_store_round_trip "vector_index.idx" "vector_metadata.pkl"
           (Flat Toy.three_rows) Toy.store_of_three).
  reflexivity.
Defined.

(** Saved under one name, the store does not load. *)
Example one_file_for_both :
  let saved := snd (save_vector_store "store.bin" "store.bin" Toy.store_of_three) in
  fst (load_vector_store "store.bin" "store.bin" saved) = Py.Raises Py.RuntimeError.
Proof. vm_compute. reflexivity. Qed.

Lemma store_without_index_is_not_saved_witness :
  exists w',
    create_vector_store Toy.hub Toy.no_ivf Toy.docs "model-A" "hnsw" Toy.store_of_three
    = (Py.Raises Py.ValueError, w')
    /\ files w' = files Toy.store_of_three
    /\ faiss_index (self w') = None
    /\ metadata (self w') = map doc_metadata Toy.docs
    /\ save_vector_store "vector_index.idx" "vector_metadata.pkl" w'
       = (Py.Raises Py.ValueError, w').
Proof.
  apply (store_without_index_is_not_saved Toy.hub Toy.no_ivf Toy.docs "model-A" "hnsw"
           "vector_index.idx" "vector_metadata.pkl" Toy.store_of_three).
  - discriminate.
  - discriminate.
  - discriminate.
Defined.

Lemma batches_and_one_go_agree_witness :
  exists w_batches w_store index ms,
    BatchEmbeddingProcessor.process_all_batches Toy.hub Toy.docs "checkpoint" true Toy.clock
      (BatchEmbeddingProcessor.start "model-A" 128 2 BatchEmbeddingProcessor.blank_disk)
    = (Py.Returns tt, w_batches)
    /\ (create_vector_store Toy.hub Toy.no_ivf Toy.docs "model-A" "flat" ;;;
        save_vector_store "vector_index.idx" "vector_metadata.pkl")%py Toy.store_of_three
       = (Py.Returns tt, w_store)
    /\ BatchEmbeddingProcessor.final_vector_index_idx (BatchEmbeddingProcessor.disk w_batches)
       = Stored index
    /\ BatchEmbeddingProcessor.final_vector_metadata_pkl (BatchEmbeddingProcessor.disk w_batches)
       = Stored ms
    /\ files w_store !! "vector_index.idx"%string = Some (Stored (IndexFile (Flat index)))
    /\ files w_store !! "vector_metadata.pkl"%string = Some (Stored (MetadataPickle ms))
    /\ faiss_index (self w_store) = Some (Flat index)
    /\ metadata (self w_store) = ms
    /\ BatchEmbeddingProcessor.faiss_index (BatchEmbeddingProcessor.self w_batches) = Some index
    /\ BatchEmbeddingProcessor.metadata (BatchEmbeddingProcessor.self w_batches) = ms.
Proof.
  apply (batches_and_one_go_agree Toy.hub Toy.no_ivf "model-A" 128 2 Toy.docs "checkpoint"
           true Toy.clock BatchEmbeddingProcessor.blank_disk Toy.store_of_three).
  - lia.
  - discriminate.
  - right. reflexivity.
Defined.

End VectorStoreSpec.

(* ===================================================================== *)
(** * The input filters of the web server *)
(* ===================================================================== *)

Module WebSpec.
Import enhanced_web_chatbot RAGVerificationSystemSpec.

Lemma all_chars_take p n : forall s, all_chars p s = true -> all_chars p (take_chars n s) = true.
Proof.
  induction n as [|n IH]; intros [|c s]; cbn; try reflexivity.
  rewrite !andb_true_iff. intros [Hc Hs]. auto.
Qed.

Lemma length_take n : forall s, String.length (take_chars n s) <= n.
Proof.
  induction n as [|n IH]; intros [|c s]; cbn; try lia. specialize (IH s). lia.
Qed.

Lemma take_chars_all n : forall s, String.length s <= n -> take_chars n s = s.
Proof.
  induction n as [|n IH]; intros [|c s]; cbn; try reflexivity; try lia.
  intros Hl. rewrite IH by lia. reflexivity.
Qed.

Lemma length_take_chars n : forall s,
  String.length (take_chars n s) = Nat.min n (String.length s).
Proof.
  induction n as [|n IH]; intros [|c s]; cbn; try reflexivity. rewrite IH. reflexivity.
Qed.

Lemma all_chars_remove p class s :
  all_chars p s = true -> all_chars p (remove_chars class s) = true.
Proof.
  induction s as [|c s IH]; [reflexivity|]. cbn. rewrite andb_true_iff. intros [Hc Hs].
  destruct (class c); cbn; [auto|]. rewrite Hc. auto.
Qed.

Lemma remove_chars_removes class s :
  all_chars (fun c => negb (class c)) (remove_chars class s) = true.
Proof.
  induction s as [|c s IH]; [reflexivity|]. cbn.
  destruct (class c) eqn:E; [exact IH|]. cbn. rewrite E, IH. reflexivity.
Qed.

Lemma remove_chars_none class s :
  all_chars (fun c => negb (class c)) s = true -> remove_chars class s = s.
Proof.
  induction s as [|c s IH]; [reflexivity|]. cbn.
  rewrite andb_true_iff, negb_true_iff. intros [-> Hs]. rewrite IH by exact Hs. reflexivity.
Qed.

Lemma length_remove class s : String.length (remove_chars class s) <= String.length s.
Proof.
  induction s as [|c s IH]; [reflexivity|]. cbn. destruct (class c); cbn; lia.
Qed.

Lemma length_append a b : String.length (String.append a b) = String.length a + String.length b.
Proof.
  induction a as [|c a IH]; [reflexivity|]. rewrite append_cons. cbn. rewrite IH. reflexivity.
Qed.

Lemma all_chars_and (p q : ascii -> bool) s :
  all_chars p s = true -> all_chars q s = true ->
  all_chars (fun c => p c && q c) s = true.
Proof.
  induction s as [|c s IH]; [reflexivity|]. cbn. rewrite !andb_true_iff.
  intros [Hp Hs] [Hq Hs']. auto.
Qed.

(** [str(n)] is made of digits. *)
Lemma string_of_uint_digits (u : Decimal.uint) :
  all_chars (Str.between 48 57) (NilEmpty.string_of_uint u) = true.
Proof. induction u; cbn; auto. Qed.

Lemma str_of_nat_digits n : all_chars is_id_char (str_of_nat n) = true.
Proof.
  unfold str_of_nat. eapply all_chars_weaken; [|apply string_of_uint_digits].
  intros c Hc. unfold is_id_char. rewrite Hc. rewrite orb_true_r. reflexivity.
Qed.

(** X25 (session identifiers).  [validate_session_id] returns an
    identifier that is not empty and made of letters, digits, underscores
    and hyphens only; it is the generated ["session_<time>"] or has at most
    100 characters; and it is the identifier it was given exactly when that
    one is not empty, made of these characters and at most 100 characters
    long. *)
Theorem session_ids_are_clean now session_id :
  let valid s := s <> EmptyString /\ all_chars is_id_char s = true /\ String.length s <= 100 in
  validate_session_id now session_id <> EmptyString
  /\ all_chars is_id_char (validate_session_id now session_id) = true
  /\ (validate_session_id now session_id = String.append "session_" (str_of_nat now)
      \/ String.length (validate_session_id now session_id) <= 100)
  /\ (validate_session_id now session_id = session_id <-> valid session_id).
Proof.
  intros valid.
  assert (Hfallback : all_chars is_id_char (String.append "session_" (str_of_nat now)) = true).
  { rewrite all_chars_app, str_of_nat_digits. reflexivity. }
  assert (Hclean : all_chars is_id_char
                     (take_chars 100 (remove_chars (fun c => negb (is_id_char c)) session_id))
                   = true).
  { apply all_chars_take.
    pose proof (remove_chars_removes (fun c => negb (is_id_char c)) session_id) as Hr.
    revert Hr. apply all_chars_weaken. intros c Hc. apply negb_true_iff in Hc.
    apply negb_false_iff in Hc. exact Hc. }
  assert (Hlen := length_take 100 (remove_chars (fun c => negb (is_id_char c)) session_id)).
  assert (Hvalid : valid session_id -> validate_session_id now session_id = session_id).
  { intros (Hne & Hall & Hl). unfold validate_session_id.
    destruct session_id as [|c s]; [congruence|].
    rewrite remove_chars_none.
    - rewrite take_chars_all by exact Hl. reflexivity.
    - revert Hall. apply all_chars_weaken. intros x ->. reflexivity. }
  assert (H123 : validate_session_id now session_id <> EmptyString
    /\ all_chars is_id_char (validate_session_id now session_id) = true
    /\ (validate_session_id now session_id = String.append "session_" (str_of_nat now)
        \/ String.length (validate_session_id now session_id) <= 100)).
  { unfold validate_session_id. destruct session_id as [|c s].
    - split; [discriminate|]. split; [exact Hfallback | left; reflexivity].
    - destruct (take_chars 100 _) as [|c' s'] eqn:E.
      + split; [discriminate|]. split; [exact Hfallback | left; reflexivity].
      + split; [discriminate|]. split; [exact Hclean | right; exact Hlen]. }
  destruct H123 as (H1 & H2 & H3).
  split; [exact H1|]. split; [exact H2|]. split; [exact H3|].
  split; [|exact Hvalid].
  intros Heq. rewrite Heq in H1, H2. split; [exact H1|]. split; [exact H2|].
  unfold validate_session_id in Heq. destruct session_id as [|c s]; [congruence|].
  rewrite remove_chars_none in Heq
    by (revert H2; apply all_chars_weaken; intros x ->; reflexivity).
  assert (Ht : take_chars 100 (String c s) = String c s).
  { destruct (take_chars 100 (String c s)) eqn:E; [discriminate E | exact Heq]. }
  rewrite <- Ht. apply length_take.
Qed.

Lemma html_escape_chars s :
  all_chars (fun c => negb (is_char 60 c) && negb (is_char 62 c)
                      && negb (is_char 34 c) && negb (is_char 39 c)) (html_escape s) = true.
Proof.
  induction s as [|c s IH]; [reflexivity|]. cbn [html_escape].
  rewrite all_chars_app, IH, andb_true_r.
  destruct c as [[] [] [] [] [] [] [] []]; vm_compute; reflexivity.
Qed.

Lemma length_html_escape s : String.length (html_escape s) <= 6 * String.length s.
Proof.
  induction s as [|c s IH]; [reflexivity|]. cbn [html_escape].
  rewrite length_append. cbn [String.length].
  assert (String.length (escape_char c) <= 6).
  { unfold escape_char. repeat (destruct (is_char _ c); [cbn; lia|]). cbn. lia. }
  lia.
Qed.

Lemma all_chars_lstrip p s : all_chars p s = true -> all_chars p (lstrip s) = true.
Proof.
  induction s as [|c s IH]; [reflexivity|]. cbn [lstrip].
  destruct (Str.is_space c); [|auto]. cbn. rewrite andb_true_iff. intros [_ Hs]. auto.
Qed.

Lemma length_lstrip s : String.length (lstrip s) <= String.length s.
Proof.
  induction s as [|c s IH]; [reflexivity|]. cbn [lstrip].
  destruct (Str.is_space c); cbn; lia.
Qed.

Lemma all_chars_rstrip p s : all_chars p s = true -> all_chars p (rstrip s) = true.
Proof.
  induction s as [|c s IH]; [reflexivity|]. cbn [rstrip all_chars].
  rewrite andb_true_iff. intros [Hc Hs]. specialize (IH Hs).
  destruct (rstrip s) as [|c' r].
  - destruct (Str.is_space c); cbn; [reflexivity|]. rewrite Hc. reflexivity.
  - cbn [all_chars]. rewrite Hc. exact IH.
Qed.

Lemma length_rstrip s : String.length (rstrip s) <= String.length s.
Proof.
  induction s as [|c s IH]; [reflexivity|]. cbn [rstrip].
  destruct (rstrip s) as [|c' r]; [destruct (Str.is_space c)|]; cbn in *; lia.
Qed.

Lemma collapse_from_chars p s : forall in_run,
  all_chars p s = true ->
  all_chars (fun c => (p c && negb (Str.is_space c)) || is_char 32 c) (collapse_from in_run s)
  = true.
Proof.
  induction s as [|c s IH]; intros in_run; [reflexivity|]. cbn [collapse_from all_chars].
  rewrite andb_true_iff. intros [Hc Hs].
  destruct (Str.is_space c) eqn:E.
  - destruct in_run; [apply IH; exact Hs|]. cbn [all_chars].
    rewrite IH by exact Hs. rewrite andb_true_r. apply orb_true_r.
  - cbn [all_chars]. rewrite IH by exact Hs. rewrite Hc, E. reflexivity.
Qed.

Lemma length_collapse_from s : forall in_run,
  String.length (collapse_from in_run s) <= String.length s.
Proof.
  induction s as [|c s IH]; intros in_run; [reflexivity|]. cbn [collapse_from].
  pose proof (IH true). pose proof (IH false).
  destruct (Str.is_space c); [destruct in_run|]; cbn; lia.
Qed.

(** X26 (sanitized input).  Whatever the text, [sanitize_input] returns a
    text without the characters [<], [>], the double and the single quote,
    without any control character (nothing below the space, no [DEL]), and
    at most six times [max_length] characters long. *)
Theorem sanitized_input_is_inert text max_length :
  all_chars is_inert (sanitize_input text max_length) = true
  /\ String.length (sanitize_input text max_length) <= 6 * max_length.
Proof.
  unfold sanitize_input. destruct text as [|c0 text0]; [split; [reflexivity | cbn; lia]|].
  set (text := String c0 text0). clearbody text.
  set (escaped := html_escape (take_chars max_length text)).
  split.
  - assert (H1 : all_chars (fun c => negb (is_char 60 c) && negb (is_char 62 c)
                                     && negb (is_char 34 c) && negb (is_char 39 c))
                   (strip escaped) = true).
    { unfold strip. apply all_chars_rstrip, all_chars_lstrip, html_escape_chars. }
    pose proof (collapse_from_chars _ _ false H1) as H2. fold (collapse (strip escaped)) in H2.
    pose proof (all_chars_remove _ is_control _ H2) as H3.
    pose proof (remove_chars_removes is_control (collapse (strip escaped))) as H4.
    pose proof (all_chars_and _ _ _ H3 H4) as H5. cbn beta in H5.
    revert H5. apply all_chars_weaken.
    intros c. destruct c as [[] [] [] [] [] [] [] []]; vm_compute; intros E;
      try reflexivity; discriminate E.
  - pose proof (length_remove is_control (collapse (strip escaped))).
    pose proof (length_collapse_from (strip escaped) false).
    pose proof (length_rstrip (lstrip escaped)).
    pose proof (length_lstrip escaped).
    pose proof (length_html_escape (take_chars max_length text)).
    pose proof (length_take max_length text).
    unfold collapse, strip in *. unfold escaped in *. lia.
Qed.

(** *** Two requests *)

Example sanitized_and_validated :
  sanitize_input ("  <b>Is 'thirst'" ++ newline ++ "a  symptom?</b> ") 500
  = "&lt;b&gt;Is &#x27;thirst&#x27; a symptom?&lt;/b&gt;"%string
  /\ validate_session_id 1700 "abc-123_<script>" = "abc-123_script"%string
  /\ validate_session_id 1700 "<>" = "session_1700"%string.
Proof. repeat split; vm_compute; reflexivity. Qed.

End WebSpec.

(* ===================================================================== *)
(** * Chunking *)
(* ===================================================================== *)

Module ChunkingSpec.
Import chunking.

Section Chunks.

Context {F : Type} `{Arith F}.
Context {Splitter : Type}.
Context (RecursiveCharacterTextSplitter : nat -> nat -> list string -> Py.outcome Splitter).
Context (split_text : Splitter -> string -> Py.outcome (list string)).

Local Abbreviation Meta := (gmap string string).

Lemma chunks_of_lookup (doc : Document Meta) i total : forall chunks a j c,
  chunks_of doc i total a chunks !! j = Some c ->
  exists text,
    chunks !! j = Some text
    /\ c = {| page_content := text;
              doc_metadata := chunk_metadata doc i (a + j) total text |}.
Proof.
  induction chunks as [|text chunks IH]; intros a j c Hj; [discriminate|].
  destruct j as [|j]; cbn in Hj.
  - injection Hj as <-. exists text. rewrite Nat.add_0_r. split; reflexivity.
  - destruct (IH (S a) j c Hj) as (text' & Ht & ->). exists text'.
    split; [exact Ht|]. replace (a + S j) with (S a + j) by lia. reflexivity.
Qed.

Lemma chunks_of_contents (doc : Document Meta) i total : forall chunks a,
  map page_content (chunks_of doc i total a chunks) = chunks.
Proof.
  induction chunks as [|text chunks IH]; intros a; [reflexivity|].
  cbn. rewrite IH. reflexivity.
Qed.

Lemma chunk_each_groups splitter : forall (documents : list (Document Meta)) a,
  chunk_each split_text splitter a documents
  = concat (imap (fun i doc => chunked split_text splitter (a + i) doc) documents).
Proof.
  induction documents as [|doc rest IH]; intros a; [reflexivity|].
  cbn [chunk_each imap concat]. rewrite Nat.add_0_r. f_equal.
  rewrite IH. f_equal. apply imap_ext. intros i x _. cbn. f_equal. lia.
Qed.

(** X27 (chunking keeps the documents).  [chunk_documents] raises only
    what the construction of the splitter raises.  Otherwise it returns,
    for each document in order, the chunks of its text in order, or the
    document itself when splitting it raises; so a document whose text
    splits into no chunk leaves nothing.  Each chunk carries its position,
    the number of chunks of its document, its own length and the position
    of its document, and every other metadata entry of its document
    unchanged. *)
Theorem chunk_documents_keeps_the_documents_in_order (documents : list (Document Meta))
  chunk_size chunk_overlap separators :
  match RecursiveCharacterTextSplitter chunk_size chunk_overlap
          (match separators with None => default_separators | Some s => s end) with
  | Py.Raises e =>
      chunk_documents RecursiveCharacterTextSplitter split_text documents
        chunk_size chunk_overlap separators = Py.Raises e
  | Py.Returns splitter =>
      chunk_documents RecursiveCharacterTextSplitter split_text documents
        chunk_size chunk_overlap separators
      = Py.Returns (concat (imap (chunked split_text splitter) documents))
      /\ forall i doc,
           documents !! i = Some doc ->
           match split_text splitter (page_content doc) with
           | Py.Raises _ => chunked split_text splitter i doc = [doc]
           | Py.Returns chunks =>
               map page_content (chunked split_text splitter i doc) = chunks
               /\ forall j c,
                    chunked split_text splitter i doc !! j = Some c ->
                    doc_metadata c !! "chunk_index"%string = Some (str_of_nat j)
                    /\ doc_metadata c !! "total_chunks"%string
                       = Some (str_of_nat (length chunks))
                    /\ doc_metadata c !! "chunk_size"%string
                       = Some (str_of_nat (String.length (page_content c)))
                    /\ doc_metadata c !! "original_doc_index"%string = Some (str_of_nat i)
                    /\ forall key,
                         key <> "chunk_index"%string -> key <> "total_chunks"%string ->
                         key <> "chunk_size"%string -> key <> "original_doc_index"%string ->
                         doc_metadata c !! key = doc_metadata doc !! key
           end
  end.
Proof.
  unfold chunk_documents.
  destruct (RecursiveCharacterTextSplitter _ _ _) as [splitter|e]; [|reflexivity].
  split.
  { rewrite chunk_each_groups. reflexivity. }
  intros i doc Hi. unfold chunked.
  destruct (split_text splitter (page_content doc)) as [chunks|e]; [|reflexivity].
  split; [apply chunks_of_contents|].
  intros j c Hj. destruct (chunks_of_lookup _ _ _ _ _ _ _ Hj) as (text & _ & ->).
  cbn [doc_metadata page_content Nat.add]. unfold chunk_metadata.
  split; [rewrite !lookup_insert_ne by discriminate; apply lookup_insert_eq|].
  split; [rewrite !lookup_insert_ne by discriminate; apply lookup_insert_eq|].
  split; [rewrite !lookup_insert_ne by discriminate; apply lookup_insert_eq|].
  split; [apply lookup_insert_eq|].
  intros key H1 H2 H3 H4. rewrite !lookup_insert_ne by congruence. reflexivity.
Qed.

Lemma fold_min_le sizes : forall size,
  fold_left Nat.min sizes size <= size
  /\ Forall (fun n => fold_left Nat.min sizes size <= n) sizes
  /\ In (fold_left Nat.min sizes size) (size :: sizes).
Proof.
  induction sizes as [|n sizes IH]; intros size; cbn [fold_left].
  - split; [lia|]. split; [constructor | left; reflexivity].
  - destruct (IH (Nat.min size n)) as (H1 & H2 & H3). split; [lia|].
    split; [constructor; [lia | exact H2]|].
    destruct H3 as [H3 | H3]; [|right; right; exact H3].
    destruct (Nat.min_spec size n) as [[_ E] | [_ E]].
    + left. congruence.
    + right. left. congruence.
Qed.

Lemma fold_max_ge sizes : forall size,
  size <= fold_left Nat.max sizes size
  /\ Forall (fun n => n <= fold_left Nat.max sizes size) sizes
  /\ In (fold_left Nat.max sizes size) (size :: sizes).
Proof.
  induction sizes as [|n sizes IH]; intros size; cbn [fold_left].
  - split; [lia|]. split; [constructor | left; reflexivity].
  - destruct (IH (Nat.max size n)) as (H1 & H2 & H3). split; [lia|].
    split; [constructor; [lia | exact H2]|].
    destruct H3 as [H3 | H3]; [|right; right; exact H3].
    destruct (Nat.max_spec size n) as [[_ E] | [_ E]].
    + right. left. congruence.
    + left. congruence.
Qed.

Lemma get0_count k k' (counts : gmap string nat) :
  get0 k' (count k counts) = get0 k' counts + (if String.eqb k k' then 1 else 0).
Proof.
  unfold count, get0 at 1. destruct (String.eqb_spec k k') as [<-|Hne].
  - rewrite lookup_insert_eq. reflexivity.
  - rewrite lookup_insert_ne by exact Hne. fold (get0 k' counts). lia.
Qed.

Lemma counted_by_source (chunked_docs : list (Document Meta)) s : forall stats,
  get0 s (fold_left (fun stats chunk => count (source_of chunk) stats) chunked_docs stats)
  = get0 s stats + from_source s chunked_docs.
Proof.
  unfold from_source.
  induction chunked_docs as [|chunk rest IH]; intros stats; cbn [fold_left List.filter length].
  - lia.
  - rewrite IH, get0_count. destruct (String.eqb (source_of chunk) s); cbn [length]; lia.
Qed.

Lemma counted_per_doc (chunked_docs : list (Document Meta)) idx : forall stats,
  idx <> "unknown"%string ->
  get0 idx (fold_left (fun stats chunk =>
                         if String.eqb (orig_doc_idx_of chunk) "unknown" then stats
                         else count (orig_doc_idx_of chunk) stats) chunked_docs stats)
  = get0 idx stats + from_doc idx chunked_docs.
Proof.
  intros stats Hidx. revert stats. unfold from_doc.
  induction chunked_docs as [|chunk rest IH]; intros stats; cbn [fold_left List.filter length].
  - lia.
  - rewrite IH. destruct (String.eqb_spec (orig_doc_idx_of chunk) "unknown") as [E|Hne].
    + destruct (String.eqb_spec (orig_doc_idx_of chunk) idx); [congruence | lia].
    + rewrite get0_count. destruct (String.eqb (orig_doc_idx_of chunk) idx); cbn [length]; lia.
Qed.

Lemma list_sum_bounds (sizes : list nat) lo hi :
  Forall (fun n => lo <= n <= hi) sizes ->
  lo * length sizes <= list_sum sizes <= hi * length sizes.
Proof.
  induction 1 as [|n sizes Hn _ IH]; [cbn; lia|].
  cbn [length]. change (list_sum (n :: sizes)) with (n + list_sum sizes).
  rewrite !Nat.mul_succ_r. lia.
Qed.

(** X28 (chunk statistics).  [analyze_chunk_statistics] raises
    [ZeroDivisionError] on an empty chunk list and on no other.  Otherwise
    its total is the number of chunks, its minimum and its maximum are the
    lengths of two of the chunks and bound the length of every chunk (and so
    the average, in exact arithmetic), and its two tables count every chunk
    once: under its source, ["unknown"] when it has none, and under the
    document it came from when it names one. *)
Theorem chunk_statistics_count_every_chunk (chunked_docs : list (Document Meta)) :
  match analyze_chunk_statistics chunked_docs with
  | Py.Raises e => e = Py.ZeroDivisionError /\ chunked_docs = []
  | Py.Returns stats =>
      chunked_docs <> []
      /\ total_chunks stats = length chunked_docs
      /\ Forall (fun chunk => min_chunk_size stats <= String.length (page_content chunk)
                              <= max_chunk_size stats) chunked_docs
      /\ (exists chunk, In chunk chunked_docs
                        /\ String.length (page_content chunk) = min_chunk_size stats)
      /\ (exists chunk, In chunk chunked_docs
                        /\ String.length (page_content chunk) = max_chunk_size stats)
      /\ min_chunk_size stats * total_chunks stats
         <= list_sum (map (fun chunk => String.length (page_content chunk)) chunked_docs)
         <= max_chunk_size stats * total_chunks stats
      /\ (forall s, get0 s (chunks_by_source stats) = from_source s chunked_docs)
      /\ (forall idx, idx <> "unknown"%string ->
                      get0 idx (chunks_per_doc stats) = from_doc idx chunked_docs)
      /\ chunks_per_doc stats !! "unknown"%string = None
  end.
Proof.
  unfold analyze_chunk_statistics.
  destruct chunked_docs as [|chunk rest]; [split; reflexivity|].
  set (docs := chunk :: rest).
  cbn [map]. cbn [total_chunks min_chunk_size max_chunk_size chunks_by_source chunks_per_doc].
  set (size := String.length (page_content chunk)).
  set (sizes := map (fun c : Document Meta => String.length (page_content c)) rest).
  destruct (fold_min_le sizes size) as (Hm1 & Hm2 & Hm3).
  destruct (fold_max_ge sizes size) as (HM1 & HM2 & HM3).
  assert (Hall : Forall (fun n => fold_left Nat.min sizes size <= n
                                  <= fold_left Nat.max sizes size) (size :: sizes)).
  { constructor; [lia|]. rewrite List.Forall_forall in Hm2, HM2 |- *.
    intros n Hn. split; [apply Hm2 | apply HM2]; exact Hn. }
  split; [discriminate|]. split; [reflexivity|].
  split.
  { change (size :: sizes)
      with (map (fun c : Document Meta => String.length (page_content c)) docs) in Hall.
    rewrite List.Forall_map in Hall. exact Hall. }
  split.
  { change (size :: sizes)
      with (map (fun c : Document Meta => String.length (page_content c)) docs) in Hm3.
    apply in_map_iff in Hm3. destruct Hm3 as (c & Hc & Hin). exists c. auto. }
  split.
  { change (size :: sizes)
      with (map (fun c : Document Meta => String.length (page_content c)) docs) in HM3.
    apply in_map_iff in HM3. destruct HM3 as (c & Hc & Hin). exists c. auto. }
  split.
  { pose proof (list_sum_bounds _ _ _ Hall) as Hb. cbn [length] in Hb.
    unfold sizes in Hb. rewrite length_map in Hb. exact Hb. }
  split.
  { intros s. etransitivity; [apply (counted_by_source docs s ∅)|].
    unfold get0. rewrite lookup_empty. reflexivity. }
  split.
  { intros idx Hidx. etransitivity; [apply (counted_per_doc docs idx ∅ Hidx)|].
    unfold get0. rewrite lookup_empty. reflexivity. }
  generalize (∅ : gmap string nat) (lookup_empty (M := gmap string) (A := nat) "unknown"%string).
  generalize docs. clear. intros docs.
  induction docs as [|c docs IH]; intros stats Hs; cbn [fold_left]; [exact Hs|].
  apply IH. destruct (String.eqb_spec (orig_doc_idx_of c) "unknown") as [E|Hne]; [exact Hs|].
  unfold count. rewrite lookup_insert_ne by exact Hne. exact Hs.
Qed.

Lemma chunk_each_nil splitter a : chunk_each split_text splitter a (@nil (Document Meta)) = [].
Proof. reflexivity. Qed.

Lemma trial_without_documents size overlap :
  exists e, trial RecursiveCharacterTextSplitter split_text [] size overlap = Py.Raises e.
Proof.
  unfold trial, chunk_documents.
  destruct (RecursiveCharacterTextSplitter _ _ _) as [splitter|e]; [|eauto].
  cbn. eauto.
Qed.

(** X29 (nothing to optimize).  On an empty document list
    [optimize_chunking_parameters] raises [ValueError], whatever the sizes
    and overlaps to test and whatever the splitter does: every trial fails
    inside its [try] (the splitter refuses the parameters, or the statistics
    of no chunk divide by zero), no result is recorded, and the best of no
    result is asked for. *)
Theorem optimizing_without_documents_raises test_sizes test_overlaps :
  optimize_chunking_parameters RecursiveCharacterTextSplitter split_text []
    test_sizes test_overlaps = Py.Raises Py.ValueError.
Proof.
  unfold optimize_chunking_parameters. cbn [firstn].
  assert (Hinner : forall size overlaps (results : gmap string (@Trial F)),
            fold_left (try_pair RecursiveCharacterTextSplitter split_text [] size)
              overlaps results = results).
  { intros size overlaps. induction overlaps as [|overlap overlaps IH]; intros results;
      [reflexivity|].
    cbn [fold_left]. rewrite <- (IH results) at 2. f_equal.
    unfold try_pair. destruct (Nat.leb size overlap); [reflexivity|].
    destruct (trial_without_documents size overlap) as (e & ->). reflexivity. }
  assert (Houter : forall sizes (results : gmap string (@Trial F)),
            fold_left (fun results size =>
                         fold_left (try_pair RecursiveCharacterTextSplitter split_text [] size)
                           test_overlaps results) sizes results = results).
  { induction sizes as [|size sizes IH]; intros results; [reflexivity|].
    cbn [fold_left]. rewrite Hinner. apply IH. }
  rewrite Houter. rewrite map_to_list_empty. reflexivity.
Qed.

End Chunks.

(** *** Two documents *)

Example two_documents_chunked :
  let documents := [Toy.page "take care" "a.txt"; Toy.page "" "b.txt"] in
  let chunks :=
    match chunk_documents Toy.word_splitter Toy.split_words documents 2000 200 None with
    | Py.Returns chunks => chunks
    | Py.Raises _ => []
    end in
  map page_content chunks = ["take"; "care"; ""]%string
  /\ match analyze_chunk_statistics (F := float) chunks with
     | Py.Returns stats =>
         (total_chunks stats, min_chunk_size stats, max_chunk_size stats,
          get0 "a.txt" (chunks_by_source stats),
          get0 "0" (chunks_per_doc stats), get0 "1" (chunks_per_doc stats))
         = (3, 0, 4, 2, 2, 0)
     | Py.Raises _ => False
     end
  /\ chunk_documents Toy.word_splitter Toy.split_words documents 100 200 None
     = Py.Raises Py.ValueError.
Proof. repeat split; vm_compute; reflexivity. Qed.

End ChunkingSpec.
